(** * RL_LLM: the candidate evaluation and promotion engine

    A shallow embedding of the Python sources
      validation/test_runner.py, validation/param_validation.py,
      validation/agent_validation.py, RL/agent_manager.py and
      config/config_manager.py
    together with the properties of the engine that are checked against them.

    Conventions of the embedding.
    - Python floats are IEEE binary64 numbers: the kernel's primitive floats.
      Python ints are [Z]; a comparison between an int and a float is exact,
      as in CPython.
    - Python strings are [string]; a dict is a [gmap]; a dict traversed with
      [.items()] is the list of its items in insertion order.
    - A Python function that can raise returns a [Res]; a function that also
      touches the file system or starts a process lives in the monad [M],
      a state-and-exception monad over [World].
    - A candidate that is imported runs inside the engine's own process:
      its execution can return a module or raise an [Exception], leave by a
      SystemExit or a KeyboardInterrupt, which no [except Exception] catches,
      or not return at all, and it has the engine's access to the files. The
      functions that import, [validate_agent_code] and [save_best_agent],
      live in the monad [P], whose runs can end in these ways too.
    - What Python and the operating system provide (the [float] builtin,
      [json.dumps], [str], the clock, the module loader and the child
      process) is given by the interfaces [PyBuiltins] and [PyHost].
    - Reading, writing, copying and removing files succeed; a child process
      may complete with any output, run into the timeout, or fail to run.
      What the engine prints for the operator is left out. *)

From Stdlib Require Import ZArith String Ascii Floats List Bool Lia Sorted.
From stdpp Require Import base option gmap strings list pretty.

Set Warnings "-inexact-float".
Set Default Proof Using "Type".

Open Scope string_scope.
Open Scope list_scope.
Open Scope Z_scope.

(** ** Python values and exceptions *)

(** The exceptions the engine meets that are an [Exception]: the ones an
    [except Exception] catches. *)
Inductive PyExc : Type :=
  | TimeoutExpired
  | IndexError
  | ValueError
  | KeyError
  | TypeError
  | OSError.

(** The exceptions that are a [BaseException] and not an [Exception]: an
    [except Exception] lets them through. [sys.exit(code)] raises the first. *)
Inductive PyBaseExc : Type :=
  | SystemExit (code : Z)
  | KeyboardInterrupt.

Inductive Res (A : Type) : Type :=
  | Ret (a : A)
  | Raise (e : PyExc).
Arguments Ret {A} a.
Arguments Raise {A} e.

Definition res_bind {A B : Type} (f : A -> Res B) (r : Res A) : Res B :=
  match r with
  | Ret a => f a
  | Raise e => Raise e
  end.

#[global] Instance Res_ret : MRet Res := fun A a => Ret a.
#[global] Instance Res_bind : MBind Res := fun A B f r => res_bind f r.

(** The JSON scalars a parameter value can be after [json.loads]. *)
Inductive PyVal : Type :=
  | VNone
  | VBool (b : bool)
  | VInt (z : Z)
  | VFloat (f : float)
  | VStr (s : string).

(** The numeric tower: [bool] is a subtype of [int]. *)
Inductive PyNum : Type :=
  | NInt (z : Z)
  | NFloat (f : float).

Definition num_of (v : PyVal) : option PyNum :=
  match v with
  | VBool b => Some (NInt (Z.b2z b))
  | VInt z => Some (NInt z)
  | VFloat f => Some (NFloat f)
  | VNone | VStr _ => None
  end.

(** Exact comparison of an int with a float: the float is [m * 2^e]. *)
Definition Z_float_compare (z : Z) (f : float) : option comparison :=
  match Prim2SF f with
  | S754_nan => None
  | S754_infinity s => Some (if s then Gt else Lt)
  | S754_zero _ => Some (z ?= 0)
  | S754_finite s m e =>
      let n := if s then Z.neg m else Z.pos m in
      if 0 <=? e then Some (z ?= n * 2 ^ e) else Some (z * 2 ^ (- e) ?= n)
  end.

Definition num_lt (x y : PyNum) : bool :=
  match x, y with
  | NInt a, NInt b => a <? b
  | NFloat a, NFloat b => PrimFloat.ltb a b
  | NInt a, NFloat b =>
      match Z_float_compare a b with Some Lt => true | _ => false end
  | NFloat a, NInt b =>
      match Z_float_compare b a with Some Gt => true | _ => false end
  end.

Definition num_le (x y : PyNum) : bool :=
  match x, y with
  | NInt a, NInt b => a <=? b
  | NFloat a, NFloat b => PrimFloat.leb a b
  | NInt a, NFloat b =>
      match Z_float_compare a b with Some Lt | Some Eq => true | _ => false end
  | NFloat a, NInt b =>
      match Z_float_compare b a with Some Gt | Some Eq => true | _ => false end
  end.

Definition num_is_nan (x : PyNum) : bool :=
  match x with
  | NInt _ => false
  | NFloat f => PrimFloat.is_nan f
  end.

(** [a < b] and [a > b] in Python: numbers with numbers, strings with
    strings, anything else is a TypeError. *)
Definition py_lt (a b : PyVal) : Res bool :=
  match a, b with
  | VStr s, VStr t => Ret (String.ltb s t)
  | _, _ =>
      match num_of a, num_of b with
      | Some x, Some y => Ret (num_lt x y)
      | _, _ => Raise TypeError
      end
  end.

Definition py_gt (a b : PyVal) : Res bool := py_lt b a.

(** A configuration document: section name to parameter name to value. *)
Abbreviation Config := (gmap string (gmap string PyVal)).

(** [d[k]] on a dict. *)
Definition getitem {V : Type} (d : gmap string V) (k : string) : Res V :=
  match d !! k with
  | Some v => Ret v
  | None => Raise KeyError
  end.


(** ** Python builtins

    [py_float] is [float(s)] ([None] when it raises ValueError), [py_str]
    is the text an f-string prints for a value, [json_dumps indent] is
    [json.dumps] with the given [indent]. *)
Class PyBuiltins : Type := {
  py_float : string -> option float;
  py_str : PyVal -> string;
  json_dumps : option Z -> Config -> string;
}.


(** ** Strings: the [str] methods the sources use *)

Definition dq : string := String (ascii_of_nat 34) "".
Definition nl : string := String (ascii_of_nat 10) "".

(** [s.startswith(p)] *)
Fixpoint startswith (p s : string) : bool :=
  match p, s with
  | "", _ => true
  | String a p', String b s' => Ascii.eqb a b && startswith p' s'
  | String _ _, "" => false
  end.

(** [s.split(sep)] for a non-empty [sep]: the pieces between the
    non-overlapping occurrences of [sep], scanned from the left.
    [skip] counts the characters of a separator still to be passed,
    [cur] is the piece being read. *)
Fixpoint split_go (sep s : string) (skip : nat) (cur : string) : list string :=
  match s with
  | "" => [cur]
  | String c s' =>
      match skip with
      | S k => split_go sep s' k cur
      | O =>
          if startswith sep s
          then cur :: split_go sep s' (Nat.pred (String.length sep)) ""
          else split_go sep s' O (cur +:+ String c "")
      end
  end.

Definition py_split (sep s : string) : list string := split_go sep s O "".

(** [sep.join(l)] *)
Fixpoint py_join (sep : string) (l : list string) : string :=
  match l with
  | [] => ""
  | [x] => x
  | x :: l' => x +:+ sep +:+ py_join sep l'
  end.

(** [l[i]] on a list, for [i >= 0]. *)
Definition index {A : Type} (l : list A) (i : nat) : Res A :=
  match l !! i with
  | Some x => Ret x
  | None => Raise IndexError
  end.

(** [l[i]] on a list for any int: a negative [i] counts from the end. *)
Definition index_Z {A : Type} (l : list A) (i : Z) : Res A :=
  if 0 <=? i then index l (Z.to_nat i)
  else if - Z.of_nat (length l) <=? i then index l (Z.to_nat (Z.of_nat (length l) + i))
  else Raise IndexError.

(** [max(x :: l, key=key)]: the first of the greatest. *)
Definition py_max_by {A : Type} (key : A -> nat) (x : A) (l : list A) : A :=
  fold_left (fun best y => if (key best <? key y)%nat then y else best) l x.

(** [fnmatch]: the patterns in use have literal characters and [*]. *)
Fixpoint fnmatch (pat : string) : string -> bool :=
  match pat with
  | "" => fun s => match s with "" => true | _ => false end
  | String c pat' =>
      if Ascii.eqb c "*" then
        fix star (s : string) : bool :=
          fnmatch pat' s || match s with "" => false | String _ s' => star s' end
      else
        fun s =>
          match s with
          | String d s' => Ascii.eqb c d && fnmatch pat' s'
          | "" => false
          end
  end.

(** [sorted(l, key=key, reverse=True)]: greatest first, and stable, so
    that items of equal key keep their order. *)
Fixpoint insert_by_desc {A : Type} (key : A -> nat) (x : A) (l : list A) : list A :=
  match l with
  | [] => [x]
  | y :: l' => if (key y <=? key x)%nat then x :: y :: l' else y :: insert_by_desc key x l'
  end.

Fixpoint py_sorted_by_desc {A : Type} (key : A -> nat) (l : list A) : list A :=
  match l with
  | [] => []
  | x :: l' => insert_by_desc key x (py_sorted_by_desc key l')
  end.

(** ** The world the engine runs in *)

Inductive Event : Type :=
  | EvRun (script : string)        (* a child interpreter ran this program text *)
  | EvWrite (path : string)        (* a file was opened for writing and written *)
  | EvCopy (src dst : string)      (* shutil.copy2 *)
  | EvUnlink (path : string)
  | EvRmtree (path : string).

Record World : Type := mkWorld {
  tmp_dir : gmap string string;               (* the tempfile directory *)
  agent_py : option string;                   (* RL/agent.py *)
  agent_history : gmap string (string * nat); (* RL/agent_history: content, ctime *)
  temp_agents : gmap string string;           (* RL/temp_agents, regular files *)
  temp_agents_pycache : bool;                 (* RL/temp_agents/__pycache__ exists *)
  config_json : option Config;                (* config/config.json *)
  config_cache : option Config;               (* get_config_singleton._config *)
  temp_configs : gmap string string;          (* config/temp_configs *)
  clock : nat;                                (* the time, in ticks *)
  events : list Event;                        (* what happened, oldest first *)
}.

Definition set_tmp_dir (f : gmap string string -> gmap string string) (w : World) : World :=
  mkWorld (f (tmp_dir w)) (agent_py w) (agent_history w) (temp_agents w)
    (temp_agents_pycache w) (config_json w) (config_cache w) (temp_configs w)
    (clock w) (events w).

Definition set_agent_py (c : option string) (w : World) : World :=
  mkWorld (tmp_dir w) c (agent_history w) (temp_agents w)
    (temp_agents_pycache w) (config_json w) (config_cache w) (temp_configs w)
    (clock w) (events w).

Definition set_agent_history
    (f : gmap string (string * nat) -> gmap string (string * nat)) (w : World) : World :=
  mkWorld (tmp_dir w) (agent_py w) (f (agent_history w)) (temp_agents w)
    (temp_agents_pycache w) (config_json w) (config_cache w) (temp_configs w)
    (clock w) (events w).

Definition set_temp_agents (f : gmap string string -> gmap string string) (w : World) : World :=
  mkWorld (tmp_dir w) (agent_py w) (agent_history w) (f (temp_agents w))
    (temp_agents_pycache w) (config_json w) (config_cache w) (temp_configs w)
    (clock w) (events w).

Definition set_temp_agents_pycache (b : bool) (w : World) : World :=
  mkWorld (tmp_dir w) (agent_py w) (agent_history w) (temp_agents w)
    b (config_json w) (config_cache w) (temp_configs w) (clock w) (events w).

Definition set_config_cache (c : option Config) (w : World) : World :=
  mkWorld (tmp_dir w) (agent_py w) (agent_history w) (temp_agents w)
    (temp_agents_pycache w) (config_json w) c (temp_configs w) (clock w) (events w).

Definition set_temp_configs (f : gmap string string -> gmap string string) (w : World) : World :=
  mkWorld (tmp_dir w) (agent_py w) (agent_history w) (temp_agents w)
    (temp_agents_pycache w) (config_json w) (config_cache w) (f (temp_configs w))
    (clock w) (events w).

(** Time passes: every change to the file system takes a tick. *)
Definition tick (w : World) : World :=
  mkWorld (tmp_dir w) (agent_py w) (agent_history w) (temp_agents w)
    (temp_agents_pycache w) (config_json w) (config_cache w) (temp_configs w)
    (S (clock w)) (events w).

Definition add_event (e : Event) (w : World) : World :=
  mkWorld (tmp_dir w) (agent_py w) (agent_history w) (temp_agents w)
    (temp_agents_pycache w) (config_json w) (config_cache w) (temp_configs w)
    (clock w) (events w ++ [e]).

Inductive ProcOutcome : Type :=
  | Completed (stdout : string)
  | TimedOut
  | ProcRaised (e : PyExc).

(** A loaded module: its attributes, each with the names it exposes. *)
Abbreviation PyModule := (gmap string (gset string)).

(** How code that runs inside the engine's own process ends: it returns or
    raises an [Exception], it leaves by an exception that is not an
    [Exception], or it does not return. *)
Inductive Run (A : Type) : Type :=
  | Done (r : Res A)
  | Exits (x : PyBaseExc)
  | Hangs.
Arguments Done {A} r.
Arguments Exits {A} x.
Arguments Hangs {A}.

(** The platform: the working directory, [datetime.now().strftime] at a
    tick, the module loader, and the child process.
    [spec.loader.exec_module] executes the source text in the engine's own
    process: given the text and the world it tells how the execution ends
    and the world it leaves, as the text runs with the engine's access to
    the files. The child process is apart: given the program text and the
    timeout, [child] tells how [subprocess.run] ends and whether the child
    left a bytecode cache in RL/temp_agents. *)
Class PyHost : Type := {
  cwd : string;
  strftime : nat -> string;
  exec_module : string -> World -> Run PyModule * World;
  child : string -> Z -> World -> ProcOutcome * bool;
}.

(** ** The monad of the engine: state and exceptions *)

Definition M (A : Type) : Type := World -> Res A * World.

Definition M_ret {A : Type} (a : A) : M A := fun w => (Ret a, w).

Definition M_bind_ {A B : Type} (f : A -> M B) (m : M A) : M B :=
  fun w =>
    match m w with
    | (Ret a, w') => f a w'
    | (Raise e, w') => (Raise e, w')
    end.

#[global] Instance M_mret : MRet M := fun A a => M_ret a.
#[global] Instance M_mbind : MBind M := fun A B f m => M_bind_ f m.

Definition raise {A : Type} (e : PyExc) : M A := fun w => (Raise e, w).

Definition lift {A : Type} (r : Res A) : M A := fun w => (r, w).

(** [try: m  except Exception as e: h e] *)
Definition try_except {A : Type} (m : M A) (h : PyExc -> M A) : M A :=
  fun w =>
    match m w with
    | (Ret a, w') => (Ret a, w')
    | (Raise e, w') => h e w'
    end.

(** [try: m  finally: fin] *)
Definition try_finally {A : Type} (m : M A) (fin : M unit) : M A :=
  fun w =>
    match m w with
    | (r, w') =>
        match fin w' with
        | (Ret _, w'') => (r, w'')
        | (Raise e, w'') => (Raise e, w'')
        end
    end.

Definition get_world : M World := fun w => (Ret w, w).
Definition modify (f : World -> World) : M unit := fun w => (Ret tt, f w).

(** The monad of the code that imports a candidate: a run can also end by
    an exit or not at all, and then nothing that follows is executed. *)
Definition P (A : Type) : Type := World -> Run A * World.

Definition P_ret {A : Type} (a : A) : P A := fun w => (Done (Ret a), w).

Definition P_bind_ {A B : Type} (f : A -> P B) (m : P A) : P B :=
  fun w =>
    match m w with
    | (Done (Ret a), w') => f a w'
    | (Done (Raise e), w') => (Done (Raise e), w')
    | (Exits x, w') => (Exits x, w')
    | (Hangs, w') => (Hangs, w')
    end.

#[global] Instance P_mret : MRet P := fun A a => P_ret a.
#[global] Instance P_mbind : MBind P := fun A B f m => P_bind_ f m.

(** Code of the engine itself, which returns or raises an [Exception]. *)
Definition engine {A : Type} (m : M A) : P A :=
  fun w => let '(r, w') := m w in (Done r, w').

(** [try: m  except Exception as e: h e], around code that imports: an
    exit is not caught, and a run that does not end never reaches the
    handler. *)
Definition try_except_Exception {A : Type} (m : P A) (h : PyExc -> P A) : P A :=
  fun w =>
    match m w with
    | (Done (Ret a), w') => (Done (Ret a), w')
    | (Done (Raise e), w') => h e w'
    | (Exits x, w') => (Exits x, w')
    | (Hangs, w') => (Hangs, w')
    end.
(** [for i, x in enumerate(l): s = body i x s], from index [i]. *)
Fixpoint for_each {A St : Type} (body : nat -> A -> St -> M St)
    (i : nat) (l : list A) (s : St) : M St :=
  match l with
  | [] => mret s
  | x :: l' => s' ← body i x s; for_each body (S i) l' s'
  end.

(** The result of one evaluation: the dict the runner returns. *)
Record Metrics : Type := mkMetrics {
  avg_return : float;
  success_rate : float;
  test_name : string;
}.

(** ** The configuration store

    What the configuration functions keep besides the world: the cache of
    the flat configuration and the directory of configuration backups.
    config.json holds a document; writing a document and loading it again
    gives the document. *)
Record Store : Type := mkStore {
  world : World;
  flat_config_cache : option (gmap string PyVal);  (* get_flat_config._flat_config *)
  config_history : gmap string (Config * nat);     (* config/config_history: content, ctime *)
}.

Definition set_world (f : World -> World) (s : Store) : Store :=
  mkStore (f (world s)) (flat_config_cache s) (config_history s).

Definition set_flat_config_cache (c : option (gmap string PyVal)) (s : Store) : Store :=
  mkStore (world s) c (config_history s).

Definition set_config_history
    (f : gmap string (Config * nat) -> gmap string (Config * nat)) (s : Store) : Store :=
  mkStore (world s) (flat_config_cache s) (f (config_history s)).

Definition set_config_json (c : option Config) (w : World) : World :=
  mkWorld (tmp_dir w) (agent_py w) (agent_history w) (temp_agents w)
    (temp_agents_pycache w) c (config_cache w) (temp_configs w) (clock w) (events w).

(** The monad of the configuration functions: state and exceptions over
    the store. *)
Definition MS (A : Type) : Type := Store -> Res A * Store.

Definition MS_bind_ {A B : Type} (f : A -> MS B) (m : MS A) : MS B :=
  fun s =>
    match m s with
    | (Ret a, s') => f a s'
    | (Raise e, s') => (Raise e, s')
    end.

#[global] Instance MS_mret : MRet MS := fun A a s => (Ret a, s).
#[global] Instance MS_mbind : MBind MS := fun A B f m => MS_bind_ f m.

(** A function of the world, run on the world of the store. *)
Definition in_world {A : Type} (m : M A) : MS A :=
  fun s =>
    match m (world s) with
    | (r, w') => (r, set_world (fun _ => w') s)
    end.

Definition liftS {A : Type} (r : Res A) : MS A := fun s => (r, s).

Definition modifyS (f : Store -> Store) : MS unit := fun s => (Ret tt, f s).

(** [try: m  except Exception as e: h e] *)
Definition try_exceptS {A : Type} (m : MS A) (h : PyExc -> MS A) : MS A :=
  fun s =>
    match m s with
    | (Ret a, s') => (Ret a, s')
    | (Raise e, s') => h e s'
    end.

(** ** Arithmetic and chance

    [py_add a b] is [a + b] and [py_mul a b] is [a * b] on the values of a
    configuration, or the exception they raise. [random] is a sequence of
    draws and a position in it: [random.randrange(n)] takes the next draw
    into the range, and raises ValueError on an empty range. *)
Class PyArith : Type := {
  py_add : PyVal -> PyVal -> Res PyVal;
  py_mul : PyVal -> PyVal -> Res PyVal;
}.

Record Random : Type := mkRandom {
  draws : nat -> nat;
  position : nat;
}.

Definition randrange (n : Z) (rng : Random) : Res Z * Random :=
  if n <=? 0 then (Raise ValueError, rng)
  else (Ret (Z.of_nat (draws rng (position rng)) mod n),
        mkRandom (draws rng) (S (position rng))).

(** ** validation/test_runner.py *)

Module test_runner.

Section with_host.
Context `{PyBuiltins} `{PyHost}.

Definition agent_import_file (agent_file : string) : string :=
  py_join nl [
    "";
    "# Import specific agent file";
    "import importlib.util";
    "spec = importlib.util.spec_from_file_location(" +:+ dq +:+ "test_agent" +:+ dq +:+ ", " +:+ dq +:+ agent_file +:+ dq +:+ ")";
    "test_agent_module = importlib.util.module_from_spec(spec)";
    "spec.loader.exec_module(test_agent_module)";
    "Agent = test_agent_module.Agent";
    ""
  ].

Definition agent_import_default : string :=
  py_join nl [
    "";
    "# Import default agent";
    "from RL.agent import Agent";
    ""
  ].

Definition config_setup_given (test_config : Config) : string :=
  py_join nl [
    "";
    "# Use provided test config";
    "test_config = " +:+ json_dumps None test_config;
    "flat_config = {}";
    "flat_config.update(test_config[" +:+ dq +:+ "environment" +:+ dq +:+ "])";
    "flat_config.update(test_config[" +:+ dq +:+ "rewards" +:+ dq +:+ "])";
    "flat_config.update(test_config[" +:+ dq +:+ "agent" +:+ dq +:+ "])";
    "flat_config.update(test_config[" +:+ dq +:+ "training" +:+ dq +:+ "])";
    "flat_config.update(test_config[" +:+ dq +:+ "system" +:+ dq +:+ "])";
    ""
  ].

Definition config_setup_current : string :=
  py_join nl [
    "";
    "# Use current config";
    "from config.config_helper import get_flat_config";
    "flat_config = get_flat_config()";
    ""
  ].

Definition test_script_text (config_setup agent_import : string) (num_episodes : Z) : string :=
  py_join nl [
    "";
    "import sys";
    "import os";
    "import numpy as np";
    "import random";
    "from pathlib import Path";
    "";
    "# Add the project directory to sys.path";
    "project_dir = " +:+ dq +:+ cwd +:+ dq;
    "if project_dir not in sys.path:";
    "    sys.path.insert(0, project_dir)";
    "";
    config_setup;
    "";
    agent_import;
    "";
    "from env import GridWorld";
    "";
    "try:";
    "    # Set seeds for reproducible test";
    "    random.seed(42)";
    "    np.random.seed(42)";
    "    ";
    "    # Create environment and agent";
    "    env = GridWorld(flat_config[" +:+ dq +:+ "grid_size" +:+ dq +:+ "], flat_config[" +:+ dq +:+ "n_traps" +:+ dq +:+ "])";
    "    agent = Agent(env)";
    "    ";
    "    returns = []";
    "    ";
    "    # Run test episodes";
    "    for ep in range(" +:+ pretty num_episodes +:+ "):";
    "        state = env.reset()";
    "        done = False";
    "        ep_return = 0.0";
    "        steps = 0";
    "        ";
    "        while not done and steps < flat_config[" +:+ dq +:+ "max_steps_per_episode" +:+ dq +:+ "]:";
    "            action = agent.select_action(state)";
    "            next_state, reward, done, _ = env.step(action)";
    "            agent.learn(state, action, reward, next_state, done)";
    "            ";
    "            state = next_state";
    "            ep_return += reward";
    "            steps += 1";
    "        ";
    "        agent.decay_epsilon()";
    "        returns.append(ep_return)";
    "    ";
    "    # Calculate metrics";
    "    avg_return = float(np.mean(returns))";
    "    success_rate = float(sum(1 for r in returns if r > 0) / len(returns))";
    "    ";
    "    print(f" +:+ dq +:+ "RESULTS: avg_return={avg_return:.3f}, success_rate={success_rate:.3f}" +:+ dq +:+ ")";
    "    ";
    "except Exception as e:";
    "    print(f" +:+ dq +:+ "ERROR: {e}" +:+ dq +:+ ")";
    "    import traceback";
    "    traceback.print_exc()";
    "    print(" +:+ dq +:+ "RESULTS: avg_return=-999.000, success_rate=0.000" +:+ dq +:+ ")";
    "    sys.exit(1)";
    ""
  ].

(** Generate the test script content. A [Path] is always true; a dict is
    true when it is not empty. *)
Definition _generate_test_script (test_config : option Config)
    (agent_file : option string) (num_episodes : Z) : string :=
  let agent_import :=
    match agent_file with
    | Some agent_file => agent_import_file agent_file
    | None => agent_import_default
    end in
  let config_setup :=
    match test_config with
    | Some test_config =>
        if decide (test_config = ∅) then config_setup_current
        else config_setup_given test_config
    | None => config_setup_current
    end in
  test_script_text config_setup agent_import num_episodes.

(** The body of the [try] of [_parse_test_output] on one line that starts
    with RESULTS:, run on the locals [(avg_return, success_rate)]. It gives
    the locals afterwards and whether the loop breaks; an IndexError or a
    ValueError leaves the loop running with the locals as they are then. *)
Definition parse_results_line (line : string) (locals : float * float)
  : (float * float) * bool :=
  match index (py_split "RESULTS: " line) 1 with
  | Raise _ => (locals, false)
  | Ret rest =>
      let parts := py_split ", " rest in
      match a ← index parts 0; index (py_split "=" a) 1 with
      | Raise _ => (locals, false)
      | Ret a =>
          match py_float a with
          | None => (locals, false)
          | Some avg_return =>
              let locals := (avg_return, snd locals) in
              match b ← index parts 1; index (py_split "=" b) 1 with
              | Raise _ => (locals, false)
              | Ret b =>
                  match py_float b with
                  | None => (locals, false)
                  | Some success_rate => ((avg_return, success_rate), true)
                  end
              end
          end
      end
  end.

Fixpoint parse_lines (lines : list string) (locals : float * float) : float * float :=
  match lines with
  | [] => locals
  | line :: lines' =>
      if startswith "RESULTS:" line then
        match parse_results_line line locals with
        | (locals', true) => locals'
        | (locals', false) => parse_lines lines' locals'
        end
      else parse_lines lines' locals
  end.

(** Parse avg_return and success_rate from test output. *)
Definition _parse_test_output (stdout : string) : float * float :=
  parse_lines (py_split nl stdout) ((-999.0)%float, 0.0%float).

(** [tempfile.NamedTemporaryFile(mode='w', suffix='.py', delete=False)]
    and the write: a file under a name not in use. *)
Definition NamedTemporaryFile_write (text : string) : M string :=
  fun w =>
    let name : string := fresh (dom (tmp_dir w)) in
    (Ret name, tick (add_event (EvWrite name) (set_tmp_dir (insert name text) w))).

(** [subprocess.run([sys.executable, test_file], capture_output=True,
    text=True, timeout=timeout)]: the standard output, or the exception. *)
Definition subprocess_run (test_file : string) (timeout : Z) : M string :=
  fun w =>
    let program := default "" (tmp_dir w !! test_file) in
    let '(outcome, cached) := child program timeout w in
    let w' := add_event (EvRun program)
                (set_temp_agents_pycache (temp_agents_pycache w || cached) w) in
    match outcome with
    | Completed stdout => (Ret stdout, w')
    | TimedOut => (Raise TimeoutExpired, w')
    | ProcRaised e => (Raise e, w')
    end.

(** [Path(test_file).unlink(missing_ok=True)] *)
Definition unlink_tmp (test_file : string) : M unit :=
  modify (fun w => add_event (EvUnlink test_file) (set_tmp_dir (delete test_file) w)).

(** Execute the test script and parse results. *)
Definition _execute_test_script (test_script test_name : string) : M Metrics :=
  test_file ← NamedTemporaryFile_write test_script;
  try_finally
    (try_except
       (stdout ← subprocess_run test_file 30;
        let '(avg_return, success_rate) := _parse_test_output stdout in
        mret (mkMetrics avg_return success_rate test_name))
       (fun e =>
          match e with
          | TimeoutExpired =>
              mret (mkMetrics (-999.0)%float 0.0%float test_name)
          | _ =>
              mret (mkMetrics (-999.0)%float 0.0%float test_name)
          end))
    (unlink_tmp test_file).

(** Universal performance test runner for configs and agents. *)
Definition run_performance_test (test_config : option Config)
    (agent_file : option string) (num_episodes : Z) (test_name : string) : M Metrics :=
  let test_script := _generate_test_script test_config agent_file num_episodes in
  _execute_test_script test_script test_name.

End with_host.

End test_runner.

(** ** validation/param_validation.py *)

Module param_validation.

(** Parameter bounds: (min, max) where [VNone] means no bound. *)
Definition PARAMETER_BOUNDS : gmap string (PyVal * PyVal) :=
  list_to_map [
    ("grid_size", (VInt 1, VInt 10));
    ("n_traps", (VInt 0, VNone));
    ("move_penalty", (VFloat (-1.0), VFloat 0.0));
    ("trap_penalty", (VFloat (-10.0), VFloat 0.0));
    ("goal_reward", (VFloat 0.1, VFloat 10.0));
    ("learning_rate", (VFloat 0.01, VFloat 1.0));
    ("gamma", (VFloat 0.1, VFloat 0.99));
    ("epsilon_start", (VFloat 0.1, VFloat 1.0));
    ("epsilon_min", (VFloat 0.01, VFloat 0.5));
    ("epsilon_decay", (VFloat 0.9, VFloat 0.999));
    ("episodes", (VInt 50, VInt 1000));
    ("max_steps_per_episode", (VInt 50, VInt 500));
    ("seed", (VNone, VNone))
  ].

(** Parameter to config section mapping. *)
Definition PARAMETER_CATEGORIES : gmap string string :=
  list_to_map [
    ("grid_size", "environment");
    ("n_traps", "environment");
    ("move_penalty", "rewards");
    ("trap_penalty", "rewards");
    ("goal_reward", "rewards");
    ("learning_rate", "agent");
    ("gamma", "agent");
    ("epsilon_start", "agent");
    ("epsilon_min", "agent");
    ("epsilon_decay", "agent");
    ("episodes", "training");
    ("max_steps_per_episode", "training");
    ("seed", "system")
  ].

Definition is_None (v : PyVal) : bool :=
  match v with VNone => true | _ => false end.

Section with_builtins.
Context `{PyBuiltins}.

Definition outside_bounds_msg (key : string) (value min_val max_val : PyVal) : string :=
  key +:+ "=" +:+ py_str value +:+ " outside bounds [" +:+ py_str min_val
      +:+ ", " +:+ py_str max_val +:+ "]".

Definition too_high_msg (value size max_traps : PyVal) : string :=
  "n_traps=" +:+ py_str value +:+ " too high for " +:+ py_str size +:+ "x"
      +:+ py_str size +:+ " grid (max " +:+ py_str max_traps +:+ ")".

(** Validate a single parameter value. *)
Definition validate_parameter (key : string) (value : PyVal) (config : Config)
  : Res (bool * string) :=
  match PARAMETER_BOUNDS !! key with
  | None => Ret (false, "Unknown parameter '" +:+ key +:+ "'")
  | Some (min_val, max_val) =>
      below ← (if is_None min_val then Ret false else py_lt value min_val);
      if (below : bool) then Ret (false, outside_bounds_msg key value min_val max_val)
      else
        above ← (if is_None max_val then Ret false else py_gt value max_val);
        if (above : bool) then Ret (false, outside_bounds_msg key value min_val max_val)
        else if String.eqb key "n_traps" then
          environment ← getitem config "environment";
          size ← getitem environment "grid_size";
          let max_traps := size in
          too_high ← py_gt value max_traps;
          if (too_high : bool) then Ret (false, too_high_msg value size max_traps)
          else Ret (true, "")
        else Ret (true, "")
  end.

End with_builtins.

(** Get the config section for a parameter. *)
Definition get_parameter_category (key : string) : option string :=
  PARAMETER_CATEGORIES !! key.

(** Test a config's performance by running training episodes. *)
Definition test_config_performance `{PyBuiltins} `{PyHost}
    (config : Config) (num_episodes : Z) (config_name : string) : M Metrics :=
  test_runner.run_performance_test (Some config) None num_episodes config_name.

End param_validation.

(** ** validation/agent_validation.py *)

Module agent_validation.

Section with_host.
Context `{PyBuiltins} `{PyHost}.

Definition required_methods : list string :=
  ["select_action"; "learn"; "decay_epsilon"].

(** The first required method [agent_class] does not have. *)
Fixpoint missing_method (agent_class : gset string) (methods : list string)
  : option string :=
  match methods with
  | [] => None
  | method :: methods' =>
      if decide (method ∈ agent_class) then missing_method agent_class methods'
      else Some method
  end.

(** Test that the new agent works with a single demo run. *)
Definition test_demo_run : M bool :=
  try_except
    (metrics ← test_runner.run_performance_test None None 1 "Demo validation";
     if num_lt (NInt (-999)) (NFloat (avg_return metrics)) then mret true
     else mret false)
    (fun _ => mret false).

(** Validate that the new agent code compiles and has required class. *)
Definition validate_agent_code : P bool :=
  try_except_Exception
    (w ← engine get_world;
     source ← engine (match agent_py w with
                      | Some source => mret source
                      | None => raise OSError
                      end);
     module ← (exec_module source : P PyModule);
     match (module : PyModule) !! "Agent" with
     | None => mret false
     | Some agent_class =>
         match missing_method agent_class required_methods with
         | Some _ => mret false
         | None => engine test_demo_run
         end
     end)
    (fun _ => mret false).

(** Test an agent's performance over multiple episodes. *)
Definition test_agent_performance (agent_file : string) (num_episodes : Z)
    (agent_name : string) : M Metrics :=
  test_runner.run_performance_test None (Some agent_file) num_episodes agent_name.

End with_host.

End agent_validation.

(** ** RL/agent_manager.py *)

Module agent_manager.

Definition agent_file : string := "RL/agent.py".
Definition history_dir : string := "RL/agent_history".
Definition temp_agents_dir : string := "RL/temp_agents".

(** [dir / name] *)
Definition path_join (dir name : string) : string := dir +:+ "/" +:+ name.

Definition candidate_name (i : nat) : string := "candidate_" +:+ pretty i +:+ ".py".

(** [improvement_threshold = 0.1]: 10% improvement required. *)
Definition improvement_threshold : float := 0.1%float.

Section with_host.
Context `{PyBuiltins} `{PyHost}.

(** Backup current agent.py with timestamp. *)
Definition backup_current_agent : M string :=
  fun w =>
    match agent_py w with
    | None => (Ret "", w)
    | Some content =>
        let timestamp := strftime (clock w) in
        let backup_name := "agent_" +:+ timestamp +:+ ".py" in
        let backup_path := path_join history_dir backup_name in
        (Ret backup_path,
         tick (add_event (EvCopy agent_file backup_path)
                 (set_agent_history (insert backup_name (content, clock w)) w)))
    end.

(** [list(self.history_dir.glob(pattern))], in directory order. *)
Definition glob_history (pattern : string) (w : World) : list (string * (string * nat)) :=
  List.filter (fun entry => fnmatch pattern (fst entry)) (map_to_list (agent_history w)).

Definition getctime (entry : string * (string * nat)) : nat := snd (snd entry).

(** Restore the most recent backup. *)
Definition _restore_latest_backup : M unit :=
  fun w =>
    match glob_history "agent_*.py" w with
    | [] => (Ret tt, w)
    | b :: backups =>
        let latest := py_max_by getctime b backups in
        (Ret tt,
         tick (add_event (EvCopy (path_join history_dir (fst latest)) agent_file)
                 (set_agent_py (Some (fst (snd latest))) w)))
    end.

(** [with open(self.temp_agents_dir / name, 'w') as f: f.write(text)] *)
Definition write_temp_agent (name text : string) : M unit :=
  modify (fun w => tick (add_event (EvWrite (path_join temp_agents_dir name))
                           (set_temp_agents (insert name text) w))).

(** [with open(self.agent_file, 'w') as f: f.write(text)] *)
Definition write_agent_file (text : string) : M unit :=
  modify (fun w => tick (add_event (EvWrite agent_file) (set_agent_py (Some text) w))).

(** Clean up temporary agent files. *)
Definition _cleanup_temp_agents : M unit :=
  modify (fun w =>
    let w1 := set_temp_agents
                (filter (fun entry => fnmatch "candidate_*.py" (fst entry) = false)) w in
    if temp_agents_pycache w1
    then add_event (EvRmtree (path_join temp_agents_dir "__pycache__"))
           (set_temp_agents_pycache false w1)
    else w1).

(** One turn of the loop of [test_multiple_agents] on candidate [i], with
    the running best in [best]. *)
Definition test_candidate (num_test_episodes : Z) (i : nat) (agent_code : string)
    (best : Z * Metrics) : M (Z * Metrics) :=
  let '(best_index, best_metrics) := best in
  let candidate_file := path_join temp_agents_dir (candidate_name i) in
  try_except
    (write_temp_agent (candidate_name i) agent_code;;
     metrics ← agent_validation.test_agent_performance candidate_file num_test_episodes
                 ("Candidate " +:+ pretty (i + 1)%nat);
     if PrimFloat.ltb (avg_return best_metrics * (1 + improvement_threshold))%float
                      (avg_return metrics)
     then mret (Z.of_nat i, metrics)
     else mret (best_index, best_metrics))
    (fun _ => mret (best_index, best_metrics)).

(** Test multiple agent candidates and return the index of the best one.
    Returns (best_index, metrics_dict) where best_index is -1 if original
    is best. *)
Definition test_multiple_agents (agent_codes : list string) (num_test_episodes : Z)
  : M (Z * Metrics) :=
  original_metrics ← agent_validation.test_agent_performance agent_file
                       num_test_episodes "Original";
  best ← for_each (test_candidate num_test_episodes) 0 agent_codes (-1, original_metrics);
  _cleanup_temp_agents;;
  mret best.

(** Save the best agent after testing. *)
Definition save_best_agent (agent_codes : list string) (best_index : Z) : P bool :=
  if best_index =? -1 then mret false
  else
    try_except_Exception
      (engine backup_current_agent;;
       best_code ← engine (lift (index_Z agent_codes best_index));
       engine (write_agent_file best_code);;
       ok ← agent_validation.validate_agent_code;
       if (ok : bool) then mret true
       else (engine _restore_latest_backup;; mret false))
      (fun _ => engine _restore_latest_backup;; mret false).

End with_host.

(** List all agent backup files. *)
Definition list_agent_history : M (list string) :=
  fun w =>
    let backups := agent_manager.glob_history "agent_*.py" w in
    (Ret (map (fun entry => agent_manager.path_join agent_manager.history_dir (fst entry))
            (py_sorted_by_desc agent_manager.getctime backups)),
     w).


End agent_manager.

(** ** config/config_helper.py *)

Module config_helper.

(** Load configuration from config.json file. *)
Definition load_config : M Config :=
  fun w =>
    match config_json w with
    | Some config => (Ret config, w)
    | None => (Raise OSError, w)
    end.

(** Get a singleton config instance to avoid repeated loading. *)
Definition get_config_singleton : M Config :=
  fun w =>
    match config_cache w with
    | Some config => (Ret config, w)
    | None =>
        match load_config w with
        | (Ret config, w') => (Ret config, set_config_cache (Some config) w')
        | (Raise e, w') => (Raise e, w')
        end
    end.

(** [flat_config.update(section)]: the items of the section, over what is
    there. *)
Definition dict_update (section flat_config : gmap string PyVal) : gmap string PyVal :=
  section ∪ flat_config.

(** Get flattened config with caching. *)
Definition get_flat_config : MS (gmap string PyVal) :=
  fun s =>
    match flat_config_cache s with
    | Some flat_config => (Ret flat_config, s)
    | None =>
        (config_data ← in_world config_helper.get_config_singleton;
         let flat_config : gmap string PyVal := ∅ in
         section ← liftS (getitem config_data "environment");
         let flat_config := dict_update section flat_config in
         section ← liftS (getitem config_data "rewards");
         let flat_config := dict_update section flat_config in
         section ← liftS (getitem config_data "agent");
         let flat_config := dict_update section flat_config in
         section ← liftS (getitem config_data "training");
         let flat_config := dict_update section flat_config in
         section ← liftS (getitem config_data "system");
         let flat_config := dict_update section flat_config in
         let flat_config :=
           match flat_config !! "learning_rate" with
           | Some learning_rate => <["alpha" := learning_rate]> flat_config
           | None => flat_config
           end in
         modifyS (set_flat_config_cache (Some flat_config));;
         mret flat_config) s
    end.

(** Save configuration and clear cache. *)
Definition save_config (config : Config) : MS unit :=
  modifyS (fun s =>
    set_flat_config_cache None
      (set_world (fun w => set_config_cache None
                    (tick (add_event (EvWrite "config/config.json")
                             (set_config_json (Some config) w)))) s)).


End config_helper.

(** ** config/config_manager.py *)

Module config_manager.

Definition temp_configs_dir : string := "config/temp_configs".

Definition environment_params : gset string :=
  {[ "grid_size"; "n_traps"; "move_penalty"; "trap_penalty"; "goal_reward" ]}.
Definition agent_params : gset string :=
  {[ "learning_rate"; "gamma"; "epsilon_start"; "epsilon_min"; "epsilon_decay" ]}.
Definition training_params : gset string :=
  {[ "episodes"; "max_steps_per_episode" ]}.

Definition variant_name (i : nat) : string := "variant_" +:+ pretty i +:+ ".json".

(** [improvement_threshold = 0.05] *)
Definition improvement_threshold : float := 0.05%float.

Section with_host.
Context `{PyBuiltins}.

(** The inner loop of [generate_config_variants]: apply the items of one
    [param_changes] dict to [variant]. *)
Fixpoint apply_param_changes (base_config : Config) (focus_area : string)
    (items : list (string * PyVal)) (variant : Config) : Res Config :=
  match items with
  | [] => Ret variant
  | (param, value) :: items' =>
      if String.eqb focus_area "agent" && negb (bool_decide (param ∈ agent_params))
      then apply_param_changes base_config focus_area items' variant
      else if String.eqb focus_area "training"
                && negb (bool_decide (param ∈ training_params))
      then apply_param_changes base_config focus_area items' variant
      else
        '(is_valid, error_msg) ← param_validation.validate_parameter param value base_config;
        if negb is_valid
        then apply_param_changes base_config focus_area items' variant
        else
          match param_validation.get_parameter_category param with
          | Some category =>
              match (if String.eqb category "" then None else variant !! category) with
              | Some section =>
                  apply_param_changes base_config focus_area items'
                    (<[category := <[param := value]> section]> variant)
              | None => apply_param_changes base_config focus_area items' variant
              end
          | None => apply_param_changes base_config focus_area items' variant
          end
  end.

(** Generate config variants based on parameter changes. *)
Fixpoint generate_config_variants (base_config : Config)
    (param_changes_list : list (list (string * PyVal))) (focus_area : string)
  : Res (list Config) :=
  match param_changes_list with
  | [] => Ret []
  | param_changes :: rest =>
      variant ← apply_param_changes base_config focus_area param_changes base_config;
      variants ← generate_config_variants base_config rest focus_area;
      Ret (variant :: variants)
  end.

Context `{PyHost}.

(** [with open(self.temp_configs_dir / name, 'w') as f: json.dump(config, f, indent=4)] *)
Definition write_temp_config (name : string) (config : Config) : M unit :=
  modify (fun w => tick (add_event (EvWrite (agent_manager.path_join temp_configs_dir name))
                           (set_temp_configs (insert name (json_dumps (Some 4) config)) w))).

(** Clean up temporary config files. *)
Definition _cleanup_temp_configs : M unit :=
  modify (set_temp_configs
            (filter (fun entry => fnmatch "variant_*.json" (fst entry) = false))).

(** One turn of the loop of [test_multiple_configs] on variant [i]. *)
Definition test_variant (num_test_episodes : Z) (i : nat) (config_variant : Config)
    (best : Z * Metrics) : M (Z * Metrics) :=
  let '(best_index, best_metrics) := best in
  try_except
    (write_temp_config (variant_name i) config_variant;;
     metrics ← param_validation.test_config_performance config_variant num_test_episodes
                 ("Variant " +:+ pretty (i + 1)%nat);
     if num_le (NFloat (avg_return metrics)) (NInt (-999))
     then mret (best_index, best_metrics)
     else if PrimFloat.ltb (avg_return best_metrics + improvement_threshold)%float
                           (avg_return metrics)
     then mret (Z.of_nat i, metrics)
     else mret (best_index, best_metrics))
    (fun _ => mret (best_index, best_metrics)).

(** Test multiple config variants and return the index of the best one.
    Returns (best_index, metrics_dict) where best_index is -1 if original
    is best. *)
Definition test_multiple_configs (config_variants : list Config) (num_test_episodes : Z)
  : M (Z * Metrics) :=
  config ← config_helper.get_config_singleton;
  original_metrics ← param_validation.test_config_performance config
                       num_test_episodes "Original";
  if num_le (NFloat (avg_return original_metrics)) (NInt (-999))
  then mret (-1, original_metrics)
  else
    best ← for_each (test_variant num_test_episodes) 0 config_variants (-1, original_metrics);
    _cleanup_temp_configs;;
    mret best.

End with_host.

Definition config_file : string := "config/config.json".
Definition history_dir : string := "config/config_history".

Section with_store.
Context `{PyHost}.

(** Backup current config.json with timestamp. *)
Definition backup_current_config : MS string :=
  fun s =>
    match config_json (world s) with
    | None => (Ret "", s)
    | Some content =>
        let timestamp := strftime (clock (world s)) in
        let backup_name := "config_" +:+ timestamp +:+ ".json" in
        let backup_path := agent_manager.path_join config_manager.history_dir backup_name in
        (Ret backup_path,
         set_world (fun w => tick (add_event (EvCopy config_manager.config_file backup_path) w))
           (set_config_history (insert backup_name (content, clock (world s))) s))
    end.

(** [list(self.history_dir.glob(pattern))], in directory order. *)
Definition glob_config_history (pattern : string) (s : Store)
  : list (string * (Config * nat)) :=
  List.filter (fun entry => fnmatch pattern (fst entry)) (map_to_list (config_history s)).

(** [p.stat().st_ctime] *)
Definition st_ctime (entry : string * (Config * nat)) : nat := snd (snd entry).

(** Restore the most recent backup. *)
Definition _restore_latest_backup : MS unit :=
  fun s =>
    match glob_config_history "config_*.json" s with
    | [] => (Ret tt, s)
    | b :: backups =>
        let latest := py_max_by st_ctime b backups in
        (Ret tt,
         set_world (fun w =>
           tick (add_event (EvCopy (agent_manager.path_join config_manager.history_dir
                                      (fst latest)) config_manager.config_file)
                   (set_config_json (Some (fst (snd latest))) w))) s)
    end.

(** Save the best config after testing. *)
Definition save_best_config (config_variants : list Config) (best_index : Z) : MS bool :=
  if best_index =? -1 then mret false
  else
    try_exceptS
      (backup_current_config;;
       best_config ← liftS (index_Z config_variants best_index);
       config_helper.save_config best_config;;
       mret true)
      (fun _ => _restore_latest_backup;; mret false).

End with_store.


End config_manager.

(** ** A host to run the engine on concrete inputs

    The builtins: [float] on the plain decimal literals of the Result
    Protocol, [str] on the values that occur. The platform: a child whose
    behaviour is written in the program it is given, so that a run can be
    computed. A directive [#!avg=<decimal>;] makes it print a result line
    with that average, [#!crash] makes it fail as the generated program
    does, [#!hang] makes it run into the timeout, [#!partial=<decimal>;]
    makes it print a result line with no second field. The directive is
    read from the agent source the program imports, or else from the
    program text itself. *)

Module Demo.

Definition digit_value (c : ascii) : option Z :=
  let n := Z.of_nat (nat_of_ascii c) in
  if (48 <=? n) && (n <=? 57) then Some (n - 48) else None.

Fixpoint digits_value (s : string) (acc : Z) : option Z :=
  match s with
  | "" => Some acc
  | String c s' =>
      match digit_value c with
      | Some d => digits_value s' (10 * acc + d)
      | None => None
      end
  end.

(** [float(s)] for [s] of the form [-]digits[.digits] with at most 15
    digits: the quotient of two integers that binary64 holds exactly. *)
Definition decimal_float (s : string) : option float :=
  let '(negative, body) :=
    match s with
    | String "-" body => (true, body)
    | _ => (false, s)
    end in
  match py_split "." body with
  | [int_part] =>
      if (0 <? String.length int_part)%nat && (String.length int_part <=? 15)%nat then
        n ← digits_value int_part 0;
        let x := PrimFloat.of_uint63 (Uint63.of_Z n) in
        Some (if negative then (- x)%float else x)
      else None
  | [int_part; frac_part] =>
      let digits := int_part +:+ frac_part in
      if (0 <? String.length int_part)%nat && (0 <? String.length frac_part)%nat
         && (String.length digits <=? 15)%nat then
        n ← digits_value digits 0;
        let x := (PrimFloat.of_uint63 (Uint63.of_Z n)
                  / PrimFloat.of_uint63 (Uint63.of_Z (10 ^ Z.of_nat (String.length frac_part))))%float in
        Some (if negative then (- x)%float else x)
      else None
  | _ => None
  end.

Definition simple_str (v : PyVal) : string :=
  match v with
  | VNone => "None"
  | VBool true => "True"
  | VBool false => "False"
  | VInt z => pretty z
  | VFloat _ => "<float>"
  | VStr s => s
  end.

(** [json.dumps] is only asked to carry the note of the system section. *)
Definition note_json (indent : option Z) (config : Config) : string :=
  match config !! "system" ≫= (.!! "note") with
  | Some (VStr s) => s
  | _ => "{}"
  end.

#[export] Instance builtins : PyBuiltins := {|
  py_float := decimal_float;
  py_str := simple_str;
  json_dumps := note_json;
|}.

(** The text after the first [marker] in [text], up to the next [;]. *)
Definition directive (marker text : string) : option string :=
  rest ← py_split marker text !! 1%nat;
  py_split ";" rest !! 0%nat.

Definition crash_output : string :=
  "ERROR: boom" +:+ nl +:+ "RESULTS: avg_return=-999.000, success_rate=0.000" +:+ nl.

Definition behave (text : string) : ProcOutcome :=
  match directive "#!avg=" text with
  | Some avg =>
      Completed ("RESULTS: avg_return=" +:+ avg +:+ ", success_rate=0.000" +:+ nl)
  | None =>
      match directive "#!partial=" text with
      | Some avg => Completed ("RESULTS: avg_return=" +:+ avg +:+ nl)
      | None =>
          if bool_decide (py_split "#!hang" text !! 1%nat = None)
          then if bool_decide (py_split "#!crash" text !! 1%nat = None)
               then Completed ""
               else Completed crash_output
          else TimedOut
      end
  end.

(** The agent source the program imports: a candidate file, or RL/agent.py. *)
Definition imported_agent (program : string) (w : World) : string :=
  match py_split "RL/temp_agents/" program !! 1%nat with
  | Some rest =>
      default "" (name ← py_split dq rest !! 0%nat; temp_agents w !! name)
  | None => default "" (agent_py w)
  end.

Definition run_child (program : string) (timeout : Z) (w : World) : ProcOutcome * bool :=
  (behave (program +:+ imported_agent program w),
   bool_decide (py_split "RL/temp_agents/" program !! 1%nat ≠ None)).

(** Executing a source text in the engine's process. A text that says
    [#!sysexit] calls [sys.exit(3)] at import, one that says [#!spin] does
    not come back, and one that says [#!rmhistory] first removes the
    backups of RL/agent_history. Otherwise the text gives a module with an
    Agent class that has the three methods, unless it says [#!nomethods],
    or fails to compile when it says [#!syntaxerror]. *)
Definition load (source : string) (w : World) : Run PyModule * World :=
  let w1 := if bool_decide (py_split "#!rmhistory" source !! 1%nat = None) then w
            else set_agent_history (fun _ => ∅) w in
  if bool_decide (py_split "#!sysexit" source !! 1%nat = None) then
    if bool_decide (py_split "#!spin" source !! 1%nat = None) then
      if bool_decide (py_split "#!syntaxerror" source !! 1%nat = None) then
        if bool_decide (py_split "#!nomethods" source !! 1%nat = None)
        then (Done (Ret {[ "Agent" := {[ "select_action"; "learn"; "decay_epsilon" ]} ]}), w1)
        else (Done (Ret {[ "Agent" := {[ "select_action" ]} ]}), w1)
      else (Done (Raise ValueError), w1)
    else (Hangs, w1)
  else (Exits (SystemExit 3), w1).

#[export] Instance host : PyHost := {|
  cwd := "/srv/rl";
  strftime := fun t => pretty t;
  exec_module := load;
  child := run_child;
|}.

Definition config_noted (note : string) : Config :=
  {[ "system" := {[ "note" := VStr note ]};
     "environment" := {[ "grid_size" := VInt 5; "n_traps" := VInt 2 ]};
     "agent" := {[ "learning_rate" := VFloat 0.1; "gamma" := VFloat 0.9 ]};
     "training" := {[ "episodes" := VInt 100 ]} ]}.

(** A world with a live agent and a live configuration, nothing else. *)
Definition world0 (agent_source : string) (config : Config) : World :=
  mkWorld ∅ (Some agent_source) ∅ ∅ false (Some config) None ∅ 0 [].

(** [int] to [float], for the ints below 2^53 in size, which binary64
    holds exactly. *)
Definition small_float (z : Z) : option float :=
  if Z.abs z <? 2 ^ 53 then
    let x := PrimFloat.of_uint63 (Uint63.of_Z (Z.abs z)) in
    Some (if z <? 0 then (- x)%float else x)
  else None.

(** A binary operation on numbers: on two ints, on two floats, and on an
    int and a float when the int is small. *)
Definition arith (on_int : Z -> Z -> Z) (on_float : float -> float -> float)
    (a b : PyVal) : Res PyVal :=
  match num_of a, num_of b with
  | Some (NInt x), Some (NInt y) => Ret (VInt (on_int x y))
  | Some (NFloat x), Some (NFloat y) => Ret (VFloat (on_float x y))
  | Some (NInt x), Some (NFloat y) =>
      match small_float x with
      | Some x => Ret (VFloat (on_float x y))
      | None => Raise ValueError
      end
  | Some (NFloat x), Some (NInt y) =>
      match small_float y with
      | Some y => Ret (VFloat (on_float x y))
      | None => Raise ValueError
      end
  | _, _ => Raise TypeError
  end.

#[export] Instance arithmetic : PyArith := {|
  py_add := arith Z.add PrimFloat.add;
  py_mul := arith Z.mul PrimFloat.mul;
|}.

(** A generator that sweeps a grid with [cols] columns cell by cell, row
    after row, again and again: turn [k] draws row [k / cols] and column
    [k], each taken into its range by [randrange]. *)
Definition sweep (cols : Z) : Random :=
  mkRandom (fun i => if Nat.even i then Z.to_nat (Z.of_nat (Nat.div2 i) / cols)
                     else Nat.div2 i) 0.


End Demo.

(** ** Reading a run

    What the theorems say about a world: the programs that were run, the
    failure sentinel, and the world and the result of one evaluation. *)

(** The programs the child interpreter ran, oldest first. *)
Definition runs (evs : list Event) : list string :=
  omap (fun e => match e with EvRun program => Some program | _ => None end) evs.

(** The failure sentinel under a label. *)
Definition sentinel (label : string) : Metrics :=
  mkMetrics (-999.0)%float 0.0%float label.

(** [avg_return <= -999], the test the engine uses for a failed evaluation. *)
Definition failed (m : Metrics) : bool :=
  num_le (NFloat (avg_return m)) (NInt (-999)).

Section evaluation.
Context `{PyBuiltins} `{PyHost}.

(** The name the temporary program file gets in [w]. *)
Definition tmp_name (w : World) : string := fresh (dom (tmp_dir w)).

(** The world once the program text is in its temporary file. *)
Definition staged (program : string) (w : World) : World :=
  tick (add_event (EvWrite (tmp_name w)) (set_tmp_dir (insert (tmp_name w) program) w)).

(** How the child ends on [program] started from [w]. *)
Definition outcome_of (program : string) (w : World) : ProcOutcome :=
  fst (child program 30 (staged program w)).

(** The world after [_execute_test_script] ran [program] from [w]. *)
Definition after_run (program : string) (w : World) : World :=
  let w1 := staged program w in
  add_event (EvUnlink (tmp_name w))
    (set_tmp_dir (delete (tmp_name w))
       (add_event (EvRun program)
          (set_temp_agents_pycache
             (temp_agents_pycache w1 || snd (child program 30 w1)) w1))).

(** The metrics [_execute_test_script] makes of an outcome. *)
Definition metrics_of (o : ProcOutcome) (label : string) : Metrics :=
  match o with
  | Completed stdout =>
      mkMetrics (fst (test_runner._parse_test_output stdout))
                (snd (test_runner._parse_test_output stdout)) label
  | TimedOut | ProcRaised _ => sentinel label
  end.

(** The avg_return field of a result line, when it parses. *)
Definition avg_field (line : string) : option float :=
  rest ← py_split "RESULTS: " line !! 1%nat;
  a ← py_split ", " rest !! 0%nat;
  v ← py_split "=" a !! 1%nat;
  py_float v.

(** The success_rate field of a result line, when it parses. *)
Definition rate_field (line : string) : option float :=
  rest ← py_split "RESULTS: " line !! 1%nat;
  b ← py_split ", " rest !! 1%nat;
  v ← py_split "=" b !! 1%nat;
  py_float v.

(** A line that parses into two floats. *)
Definition two_floats (line : string) : option (float * float) :=
  a ← avg_field line; s ← rate_field line; Some (a, s).

(** The agent-logic track, candidate [i]: the program generated for it,
    the world once its file is written, its metrics, the world after. *)
Definition candidate_program (n : Z) (i : nat) : string :=
  test_runner._generate_test_script None
    (Some (agent_manager.path_join agent_manager.temp_agents_dir
             (agent_manager.candidate_name i))) n.

Definition staged_candidate (i : nat) (code : string) (w : World) : World :=
  tick (add_event (EvWrite (agent_manager.path_join agent_manager.temp_agents_dir
                              (agent_manager.candidate_name i)))
          (set_temp_agents (insert (agent_manager.candidate_name i) code) w)).

Definition candidate_metrics (n : Z) (i : nat) (code : string) (w : World) : Metrics :=
  metrics_of (outcome_of (candidate_program n i) (staged_candidate i code w))
             ("Candidate " +:+ pretty (i + 1)%nat).

Definition after_candidate (n : Z) (i : nat) (code : string) (w : World) : World :=
  after_run (candidate_program n i) (staged_candidate i code w).

(** The baseline of the agent-logic track. *)
Definition original_program (n : Z) : string :=
  test_runner._generate_test_script None (Some agent_manager.agent_file) n.

Definition original_metrics (n : Z) (w : World) : Metrics :=
  metrics_of (outcome_of (original_program n) w) "Original".

(** The configuration track, variant [i]. *)
Definition variant_program (n : Z) (config : Config) : string :=
  test_runner._generate_test_script (Some config) None n.

Definition staged_variant (i : nat) (config : Config) (w : World) : World :=
  tick (add_event (EvWrite (agent_manager.path_join config_manager.temp_configs_dir
                              (config_manager.variant_name i)))
          (set_temp_configs
             (insert (config_manager.variant_name i) (json_dumps (Some 4) config)) w)).

Definition variant_metrics (n : Z) (i : nat) (config : Config) (w : World) : Metrics :=
  metrics_of (outcome_of (variant_program n config) (staged_variant i config w))
             ("Variant " +:+ pretty (i + 1)%nat).

Definition after_variant (n : Z) (i : nat) (config : Config) (w : World) : World :=
  after_run (variant_program n config) (staged_variant i config w).

(** A turn of the loop of [test_multiple_agents] around any evaluation:
    the [try] with the comparison, and the [except] that goes on. *)
Definition agent_turn (evaluate : M Metrics) (i : nat) (best : Z * Metrics)
  : M (Z * Metrics) :=
  try_except
    (metrics ← evaluate;
     if PrimFloat.ltb (avg_return (snd best) * (1 + 0.1))%float (avg_return metrics)
     then mret (Z.of_nat i, metrics)
     else mret best)
    (fun _ => mret best).

(** A turn of the loop of [test_multiple_configs] around any evaluation. *)
Definition config_turn (evaluate : M Metrics) (i : nat) (best : Z * Metrics)
  : M (Z * Metrics) :=
  try_except
    (metrics ← evaluate;
     if failed metrics then mret best
     else if PrimFloat.ltb (avg_return (snd best) + 0.05)%float (avg_return metrics)
     then mret (Z.of_nat i, metrics)
     else mret best)
    (fun _ => mret best).

(** The loop of [test_multiple_agents] from candidate [i] on, as a fold:
    the running best and the world after the last candidate. *)
Fixpoint agent_round (n : Z) (i : nat) (codes : list string)
    (best : Z * Metrics) (w : World) : (Z * Metrics) * World :=
  match codes with
  | [] => (best, w)
  | code :: codes' =>
      let m := candidate_metrics n i code w in
      agent_round n (S i) codes'
        (if PrimFloat.ltb (avg_return (snd best) * (1 + 0.1))%float (avg_return m)
         then (Z.of_nat i, m) else best)
        (after_candidate n i code w)
  end.

(** The world in which the candidate after [codes] is evaluated. *)
Definition agent_round_world (n : Z) (codes : list string) (w : World) : World :=
  snd (agent_round n 0 codes (-1, original_metrics n w) (after_run (original_program n) w)).

(** The loop of [test_multiple_configs] from variant [i] on, as a fold. *)
Fixpoint config_round (n : Z) (i : nat) (variants : list Config)
    (best : Z * Metrics) (w : World) : (Z * Metrics) * World :=
  match variants with
  | [] => (best, w)
  | config :: variants' =>
      let m := variant_metrics n i config w in
      config_round n (S i) variants'
        (if failed m then best
         else if PrimFloat.ltb (avg_return (snd best) + 0.05)%float (avg_return m)
         then (Z.of_nat i, m) else best)
        (after_variant n i config w)
  end.

(** The bounds table in the words of the specification: for each
    parameter its least and greatest value, [None] where there is no limit. *)
Definition SPEC_BOUNDS : gmap string (option PyNum * option PyNum) :=
  list_to_map [
    ("grid_size", (Some (NInt 1), Some (NInt 10)));
    ("n_traps", (Some (NInt 0), None));
    ("move_penalty", (Some (NFloat (-1.0)), Some (NFloat 0.0)));
    ("trap_penalty", (Some (NFloat (-10.0)), Some (NFloat 0.0)));
    ("goal_reward", (Some (NFloat 0.1), Some (NFloat 10.0)));
    ("learning_rate", (Some (NFloat 0.01), Some (NFloat 1.0)));
    ("gamma", (Some (NFloat 0.1), Some (NFloat 0.99)));
    ("epsilon_start", (Some (NFloat 0.1), Some (NFloat 1.0)));
    ("epsilon_min", (Some (NFloat 0.01), Some (NFloat 0.5)));
    ("epsilon_decay", (Some (NFloat 0.9), Some (NFloat 0.999)));
    ("episodes", (Some (NInt 50), Some (NInt 1000)));
    ("max_steps_per_episode", (Some (NInt 50), Some (NInt 500)));
    ("seed", (None, None))
  ].

(** [lo <= value], for a limit that may be absent. *)
Definition at_least (lo : option PyNum) (value : PyVal) : bool :=
  match lo with
  | None => true
  | Some b => match num_of value with Some x => num_le b x | None => false end
  end.

(** [value <= hi], for a limit that may be absent. *)
Definition at_most (hi : option PyNum) (value : PyVal) : bool :=
  match hi with
  | None => true
  | Some b => match num_of value with Some x => num_le x b | None => false end
  end.

(** The value of [key] lies within the bounds of the table, and n_traps is
    at most the grid_size of the configuration. *)
Definition within_spec_bounds (key : string) (value : PyVal) (config : Config) : bool :=
  match SPEC_BOUNDS !! key with
  | None => false
  | Some (lo, hi) =>
      at_least lo value && at_most hi value
      && (if String.eqb key "n_traps"
          then match (config !! "environment" ≫= (.!! "grid_size")) ≫= num_of with
               | Some size => at_most (Some size) value
               | None => false
               end
          else true)
  end.

(** A value that is not a NaN. *)
Definition not_nan (v : PyVal) : bool :=
  match num_of v with
  | Some x => negb (num_is_nan x)
  | None => true
  end.

(** A bound of the table is absent or a number that is not a NaN. *)
Definition bound_ok (v : PyVal) : bool :=
  param_validation.is_None v
  || match num_of v with Some x => negb (num_is_nan x) | None => false end.

(** Two pieces of text that occur in a text, the first before the second. *)
Definition in_this_order (a b text : string) : Prop :=
  exists p q r : string, text = p +:+ a +:+ q +:+ b +:+ r.

(** The value of [param] in the section [category] of a configuration. *)
Definition param_at (config : Config) (category param : string) : option PyVal :=
  config !! category ≫= (.!! param).

(** A parameter the focus area lets through. *)
Definition in_focus (focus_area param : string) : bool :=
  negb (String.eqb focus_area "agent"
        && negb (bool_decide (param ∈ config_manager.agent_params)))
  && negb (String.eqb focus_area "training"
           && negb (bool_decide (param ∈ config_manager.training_params))).

(** A requested change that is valid: in the focus area and accepted by
    [validate_parameter] against the base configuration. *)
Definition change_is_valid (base_config : Config) (focus_area param : string)
    (value : PyVal) : bool :=
  in_focus focus_area param
  && match param_validation.validate_parameter param value base_config with
     | Ret (true, _) => true
     | _ => false
     end.

(** A requested change on which [validate_parameter] is called and raises. *)
Definition change_raises (base_config : Config) (focus_area : string)
    (change : string * PyVal) : bool :=
  in_focus focus_area (fst change)
  && match param_validation.validate_parameter (fst change) (snd change) base_config with
     | Raise _ => true
     | Ret _ => false
     end.

(** The program of the one-episode run of [test_demo_run]. *)
Definition demo_program : string := test_runner._generate_test_script None None 1.

(** The promotion gate in the words of its contract: the live agent file
    loads, the module has an Agent with select_action, learn and
    decay_epsilon, and the one-episode run, in the world the import left,
    gives an avg_return greater than -999. *)
Definition passes_validation (w : World) : bool :=
  match agent_py w with
  | None => false
  | Some source =>
      match exec_module source w with
      | (Done (Ret module), w1) =>
          match module !! "Agent" with
          | None => false
          | Some agent_class =>
              bool_decide ("select_action" ∈ agent_class)
              && bool_decide ("learn" ∈ agent_class)
              && bool_decide ("decay_epsilon" ∈ agent_class)
              && num_lt (NInt (-999))
                   (NFloat (avg_return (metrics_of (outcome_of demo_program w1)
                                          "Demo validation")))
          end
      | _ => false
      end
  end.

(** The world in which [save_best_agent] validates the candidate [code]:
    the live agent is backed up and the candidate is written over it. *)
Definition candidate_written (code : string) (w : World) : World :=
  snd (agent_manager.write_agent_file code (snd (agent_manager.backup_current_agent w))).

(** The import of [source] in [w] comes back, with a module or with an
    [Exception]. *)
Definition import_ends (source : string) (w : World) : Prop :=
  exists r, fst (exec_module source w) = Done r.

(** The import of [source] in [w] keeps to itself: it leaves the live agent
    file and the history of backups as they are, time does not run
    backwards, and what was done before it stays done. *)
Definition import_is_quiet (source : string) (w : World) : Prop :=
  agent_py (snd (exec_module source w)) = agent_py w
  /\ agent_history (snd (exec_module source w)) = agent_history w
  /\ (clock w <= clock (snd (exec_module source w)))%nat
  /\ exists evs, events (snd (exec_module source w)) = events w ++ evs.

(** The name under which [backup_current_agent] stores the live agent in [w]. *)
Definition backup_name (w : World) : string :=
  "agent_" +:+ strftime (clock w) +:+ ".py".

(** Every backup in the history was made before now. *)
Definition history_in_the_past (w : World) : Prop :=
  forall name content ctime,
    agent_history w !! name = Some (content, ctime) -> (ctime < clock w)%nat.

End evaluation.

(** ** validation/agent_validation.py: the part that reads the flat configuration *)

Module agent_validation_rewrite.

Section with_builtins.
Context `{PyBuiltins}.

(** Check if metrics are so bad that we should force an agent rewrite. *)
Definition should_force_rewrite (metrics : gmap string PyVal) : MS bool :=
  config ← config_helper.get_flat_config;
  let window_size := default (VInt 50) (config !! "metrics_window_size") in
  let avg_key := "avg_last_" +:+ py_str window_size in
  let avg_return := default (VInt 0) (metrics !! avg_key) in
  let success_rate := default (VInt 0) (metrics !! "success_rate") in
  let trap_hit_rate := default (VInt 0) (metrics !! "trap_hit_rate") in
  very_poor ← liftS (py_lt avg_return (VFloat (-5.0)));
  if (very_poor : bool) then mret true
  else
    no_success ← liftS (py_lt success_rate (VFloat 0.05));
    poor ← (if (no_success : bool) then liftS (py_lt avg_return (VFloat (-2.0)))
            else mret false);
    if (poor : bool) then mret true
    else liftS (py_gt trap_hit_rate (VFloat 0.8)).

End with_builtins.

End agent_validation_rewrite.

(** ** env.py *)

Module env.

(** The values of the ACTIONS dict: a move, or the string of the sense
    action. *)
Inductive Action : Type :=
  | Move (dr dc : Z)
  | Sense.

(** The GridWorld object. *)
Record GridWorld : Type := mkGridWorld {
  rows : Z;
  cols : Z;
  n_traps : Z;
  goal : option (Z * Z);
  traps : list (Z * Z);
  state : option (Z * Z);
}.

(** [GridWorld(size, n_traps)] *)
Definition __init__ (size n_traps : Z) : GridWorld :=
  mkGridWorld size size n_traps None [] None.

Definition ACTIONS : gmap Z Action :=
  {[ 0 := Move (-1) 0;   (* up *)
     1 := Move 1 0;      (* down *)
     2 := Move 0 (-1);   (* left *)
     3 := Move 0 1;      (* right *)
     4 := Sense ]}.      (* always available *)

Definition set_state (st : option (Z * Z)) (g : GridWorld) : GridWorld :=
  mkGridWorld (rows g) (cols g) (n_traps g) (goal g) (traps g) st.

Definition set_goal (gl : option (Z * Z)) (g : GridWorld) : GridWorld :=
  mkGridWorld (rows g) (cols g) (n_traps g) gl (traps g) (state g).

Definition set_traps (tr : list (Z * Z)) (g : GridWorld) : GridWorld :=
  mkGridWorld (rows g) (cols g) (n_traps g) (goal g) tr (state g).

Definition state_shape (g : GridWorld) : Z * Z := (rows g, cols g).

Definition n_actions (g : GridWorld) : Z := Z.of_nat (size ACTIONS).

(** Get list of adjacent cells that contain traps. *)
Definition _get_adjacent_traps (g : GridWorld) (state : option (Z * Z)) : list (Z * Z) :=
  match state with
  | None => []
  | Some (r, c) =>
      List.filter
        (fun cell : Z * Z =>
           let '(nr, nc) := cell in
           (0 <=? nr) && (nr <? rows g) && (0 <=? nc) && (nc <? cols g)
           && bool_decide (cell ∈ traps g))
        (map (fun d : Z * Z => (r + fst d, c + snd d)) [(-1, 0); (1, 0); (0, -1); (0, 1)])
  end.

(** What [step] returns: next_state, reward, done, and the adjacent traps
    of the info dict, [None] for the empty dict. *)
Definition StepResult : Type := option (Z * Z) * PyVal * bool * option (list (Z * Z)).

Section with_arith.
Context `{PyArith}.

(** [step] once the flat configuration is read. *)
Definition step_with (config : gmap string PyVal) (action : Z) (g : GridWorld)
  : Res StepResult * GridWorld :=
  if action =? 4 then
    let adjacent_traps := _get_adjacent_traps g (state g) in
    let reward := default (VFloat (-0.1)) (config !! "sense_penalty") in
    (Ret (state g, reward, false, Some adjacent_traps), g)
  else
    match ACTIONS !! action with
    | None => (Raise KeyError, g)
    | Some Sense => (Raise ValueError, g)
    | Some (Move dr dc) =>
        match state g with
        | None => (Raise TypeError, g)
        | Some (r, c) =>
            let nr := Z.max 0 (Z.min (rows g - 1) (r + dr)) in
            let nc := Z.max 0 (Z.min (cols g - 1) (c + dc)) in
            let g := set_state (Some (nr, nc)) g in
            (reward ← getitem config "move_penalty";
             if bool_decide (state g = goal g) then
               goal_reward ← getitem config "goal_reward";
               reward ← py_add reward goal_reward;
               Ret (state g, reward, true, None)
             else if bool_decide ((nr, nc) ∈ traps g) then
               trap_penalty ← getitem config "trap_penalty";
               reward ← py_add reward trap_penalty;
               Ret (state g, reward, false, None)
             else Ret (state g, reward, false, None),
             g)
        end
    end.

(** Apply one action; return (next_state, reward, done, info). *)
Definition step (action : Z) (g : GridWorld) (s : Store)
  : Res StepResult * GridWorld * Store :=
  match config_helper.get_flat_config s with
  | (Raise e, s') => (Raise e, g, s')
  | (Ret config, s') => (step_with config action g, s')
  end.

End with_arith.

(** [_random_cell_excluding]: the loop, for at most [fuel] turns; [None]
    when it has not ended by then. *)
Fixpoint _random_cell_excluding (fuel : nat) (g : GridWorld) (excluded : gset (Z * Z))
    (rng : Random) : option (Res (Z * Z) * Random) :=
  match fuel with
  | O => None
  | S fuel' =>
      match randrange (rows g) rng with
      | (Raise e, rng) => Some (Raise e, rng)
      | (Ret r, rng) =>
          match randrange (cols g) rng with
          | (Raise e, rng) => Some (Raise e, rng)
          | (Ret c, rng) =>
              if bool_decide ((r, c) ∈ excluded)
              then _random_cell_excluding fuel' g excluded rng
              else Some (Ret (r, c), rng)
          end
      end
  end.

(** The loop of [_sample_layout] over the traps still to place. *)
Fixpoint sample_traps (fuel : nat) (count : nat) (g : GridWorld) (occupied : gset (Z * Z))
    (rng : Random) : option (Res unit * GridWorld * Random) :=
  match count with
  | O => Some (Ret tt, g, rng)
  | S count' =>
      match _random_cell_excluding fuel g occupied rng with
      | None => None
      | Some (Raise e, rng) => Some (Raise e, g, rng)
      | Some (Ret cell, rng) =>
          sample_traps fuel count' (set_traps (traps g ++ [cell]) g) ({[ cell ]} ∪ occupied) rng
      end
  end.

(** Pick new goal + trap cells (all distinct). *)
Definition _sample_layout (fuel : nat) (g : GridWorld) (rng : Random)
  : option (Res unit * GridWorld * Random) :=
  let occupied : gset (Z * Z) := ∅ in
  match _random_cell_excluding fuel g occupied rng with
  | None => None
  | Some (Raise e, rng) => Some (Raise e, g, rng)
  | Some (Ret cell, rng) =>
      let g := set_goal (Some cell) g in
      let occupied := {[ cell ]} ∪ occupied in
      let g := set_traps [] g in
      sample_traps fuel (Z.to_nat (n_traps g)) g occupied rng
  end.

Definition _random_unoccupied_cell (fuel : nat) (g : GridWorld) (rng : Random)
  : option (Res (Z * Z) * Random) :=
  let occupied : gset (Z * Z) :=
    match goal g with
    | Some cell => {[ cell ]} ∪ list_to_set (traps g)
    | None => list_to_set (traps g)
    end in
  _random_cell_excluding fuel g occupied rng.

(** Sample a fresh layout and return the start state. *)
Definition reset (fuel : nat) (g : GridWorld) (rng : Random)
  : option (Res (Z * Z) * GridWorld * Random) :=
  match _sample_layout fuel g rng with
  | None => None
  | Some (Raise e, g, rng) => Some (Raise e, g, rng)
  | Some (Ret _, g, rng) =>
      match _random_unoccupied_cell fuel g rng with
      | None => None
      | Some (Raise e, rng) => Some (Raise e, g, rng)
      | Some (Ret cell, rng) => Some (Ret cell, set_state (Some cell) g, rng)
      end
  end.

End env.

(** ** The Result Protocol, read back

    The line the generated program prints for its two numbers, and the
    texts its format can give. *)

(** [c in s] for a character. *)
Fixpoint has_char (c : ascii) (s : string) : bool :=
  match s with
  | "" => false
  | String d s' => Ascii.eqb c d || has_char c s'
  end.

(** The result line with the texts [a] and [b] of the two numbers. *)
Definition result_line (a b : string) : string :=
  "RESULTS: avg_return=" +:+ a +:+ ", success_rate=" +:+ b.

(** A text with none of the characters the protocol splits on. *)
Definition plain_field (s : string) : bool :=
  negb (has_char "R" s) && negb (has_char "," s) && negb (has_char "=" s)
  && negb (has_char (ascii_of_nat 10) s).

(** A line of output the parser passes over: it does not start with
    RESULTS:, or its avg_return field does not parse. *)
Definition passed_over `{PyBuiltins} (line : string) : bool :=
  negb (startswith "RESULTS:" line)
  || match avg_field line with None => true | Some _ => false end.

(** ** Reading a round from outside *)

(** What a round of either track leaves alone in the agent-logic files:
    everything but the scratch files, the clock and the log. *)
Definition same_files (w w' : World) : Prop :=
  agent_py w' = agent_py w
  /\ agent_history w' = agent_history w
  /\ config_json w' = config_json w
  /\ config_cache w' = config_cache w
  /\ temp_configs w' = temp_configs w
  /\ tmp_dir w' = tmp_dir w
  /\ (clock w <= clock w')%nat.

(** ** Reading the configuration store *)

(** The value of [k] in the first of the sections that has it. *)
Fixpoint first_of (sections : list (gmap string PyVal)) (k : string) : option PyVal :=
  match sections with
  | [] => None
  | section :: sections' =>
      match section !! k with
      | Some v => Some v
      | None => first_of sections' k
      end
  end.

(** Every backup of the configuration was made before now. *)
Definition config_history_in_the_past (s : Store) : Prop :=
  forall name content ctime,
    config_history s !! name = Some (content, ctime) -> (ctime < clock (world s))%nat.

(** The name under which [backup_current_config] stores config.json in [s]. *)
Definition config_backup_name `{PyHost} (s : Store) : string :=
  "config_" +:+ strftime (clock (world s)) +:+ ".json".

(** ** Reading the grid *)

(** A cell of the grid of [g]. *)
Definition in_grid (g : env.GridWorld) (cell : Z * Z) : Prop :=
  0 <= fst cell < env.rows g /\ 0 <= snd cell < env.cols g.

(** Two cells side by side: one step apart in one direction. *)
Definition next_to (a b : Z * Z) : Prop :=
  Z.abs (fst a - fst b) + Z.abs (snd a - snd b) = 1.

(** The cell the loop of [_random_cell_excluding] draws in its turn [k],
    counted from 0, and the generator after [n] draws. *)
Definition attempt (g : env.GridWorld) (rng : Random) (k : nat) : Z * Z :=
  (Z.of_nat (draws rng (2 * k + position rng)) mod env.rows g,
   Z.of_nat (draws rng (S (2 * k + position rng))) mod env.cols g).

Definition advance (n : nat) (rng : Random) : Random :=
  mkRandom (draws rng) (n + position rng).

(** Turn [k] is the first whose cell is not excluded. *)
Definition first_free (g : env.GridWorld) (excluded : gset (Z * Z)) (rng : Random)
    (k : nat) : Prop :=
  (attempt g rng k ∉ excluded) /\ forall j, (j < k)%nat -> attempt g rng j ∈ excluded.

(** A generator that, from any turn on, comes to draw every cell of the
    grid. *)
Definition fair (g : env.GridWorld) (rng : Random) : Prop :=
  forall (n : nat) (cell : Z * Z),
    in_grid g cell -> exists k, attempt g (advance (2 * n) rng) k = cell.

(** The cells of the grid. *)
Definition grid_cells (g : env.GridWorld) : list (Z * Z) :=
  list_prod (seqZ 0 (env.rows g)) (seqZ 0 (env.cols g)).

(** While a layout is sampled: a goal and some traps are placed, all
    different cells of the grid, and [occupied] holds just them. *)
Definition placed (g0 g : env.GridWorld) (occupied : gset (Z * Z)) : Prop :=
  env.rows g = env.rows g0 /\ env.cols g = env.cols g0 /\ env.n_traps g = env.n_traps g0
  /\ env.state g = env.state g0
  /\ exists goal,
       env.goal g = Some goal
       /\ (forall cell, cell ∈ occupied <-> cell ∈ goal :: env.traps g)
       /\ NoDup (goal :: env.traps g)
       /\ Forall (in_grid g0) (goal :: env.traps g).

(** The layout of a grid world after a reset: a start, a goal and the
    traps, all different cells of the grid. *)
Definition layout_ok (g0 g : env.GridWorld) (start : Z * Z) : Prop :=
  env.rows g = env.rows g0 /\ env.cols g = env.cols g0 /\ env.n_traps g = env.n_traps g0
  /\ env.state g = Some start
  /\ exists goal,
       env.goal g = Some goal
       /\ length (env.traps g) = Z.to_nat (env.n_traps g0)
       /\ NoDup (start :: goal :: env.traps g)
       /\ Forall (in_grid g0) (start :: goal :: env.traps g).

(** * Properties *)

(** ** Strings and patterns *)

Lemma fnmatch_star (pat x s : string) :
  fnmatch pat s = true -> fnmatch (String "*" pat) (x +:+ s) = true.
Proof.
  intros Hs. induction x as [|c x IH]; simpl in *.
  - destruct s; simpl; rewrite Hs; reflexivity.
  - rewrite IH. apply orb_true_r.
Qed.

Lemma fnmatch_candidate (x : string) :
  fnmatch "candidate_*.py" ("candidate_" +:+ x +:+ ".py") = true.
Proof.
  change (fnmatch (String "*" ".py") (x +:+ ".py") = true).
  apply fnmatch_star. reflexivity.
Qed.

Lemma fnmatch_agent (x : string) :
  fnmatch "agent_*.py" ("agent_" +:+ x +:+ ".py") = true.
Proof.
  change (fnmatch (String "*" ".py") (x +:+ ".py") = true).
  apply fnmatch_star. reflexivity.
Qed.

Lemma fnmatch_variant (x : string) :
  fnmatch "variant_*.json" ("variant_" +:+ x +:+ ".json") = true.
Proof.
  change (fnmatch (String "*" ".json") (x +:+ ".json") = true).
  apply fnmatch_star. reflexivity.
Qed.

Lemma string_app_cons (x : ascii) (a b : string) :
  String x a +:+ b = String x (a +:+ b).
Proof. reflexivity. Qed.

Lemma string_app_assoc (a b c : string) : (a +:+ b) +:+ c = a +:+ (b +:+ c).
Proof.
  induction a as [|x a IH]; [reflexivity|].
  rewrite !string_app_cons, IH. reflexivity.
Qed.

Lemma string_app_nil_r (a : string) : a +:+ "" = a.
Proof.
  induction a as [|x a IH]; [reflexivity|].
  rewrite string_app_cons, IH. reflexivity.
Qed.

Lemma py_join_cons (sep x y : string) (l : list string) :
  py_join sep (x :: y :: l) = x +:+ sep +:+ py_join sep (y :: l).
Proof. reflexivity. Qed.

Lemma py_join_has (sep : string) (l : list string) :
  forall (i : nat) (a : string),
    l !! i = Some a -> exists p r, py_join sep l = p +:+ a +:+ r.
Proof.
  induction l as [|x l IH]; intros i a Hi; [first [discriminate|rewrite lookup_nil in Hi; discriminate]|].
  destruct i as [|i]; cbn in Hi.
  - injection Hi as ->. exists "".
    destruct l as [|y l]; [exists ""; cbn; rewrite string_app_nil_r; reflexivity|].
    eexists. rewrite py_join_cons. reflexivity.
  - destruct l as [|y l]; [first [discriminate|rewrite lookup_nil in Hi; discriminate]|].
    destruct (IH i a Hi) as (p & r & Heq).
    exists (x +:+ sep +:+ p), r. rewrite py_join_cons, Heq, !string_app_assoc. reflexivity.
Qed.

Lemma py_join_has_in_order (sep : string) (l : list string) :
  forall (i j : nat) (a b : string),
    (i < j)%nat -> l !! i = Some a -> l !! j = Some b ->
    in_this_order a b (py_join sep l).
Proof.
  unfold in_this_order.
  induction l as [|x l IH]; intros i j a b Hij Hi Hj; [first [discriminate|rewrite lookup_nil in Hi; discriminate]|].
  destruct j as [|j]; [lia|]. cbn in Hj.
  destruct l as [|y l]; [first [discriminate|rewrite lookup_nil in Hj; discriminate]|].
  rewrite py_join_cons.
  destruct i as [|i]; cbn in Hi.
  - injection Hi as ->.
    destruct (py_join_has sep (y :: l) j b Hj) as (q & r & ->).
    exists "", (sep +:+ q), r. cbn. rewrite !string_app_assoc. reflexivity.
  - destruct (IH i j a b ltac:(lia) Hi Hj) as (p & q & r & ->).
    exists (x +:+ sep +:+ p), q, r. rewrite !string_app_assoc. reflexivity.
Qed.

(** ** The executor, as a function *)

Section executor.
Context `{PyBuiltins} `{PyHost}.

Lemma tmp_name_fresh (w : World) : tmp_dir w !! tmp_name w = None.
Proof.
  apply not_elem_of_dom. unfold tmp_name. apply is_fresh.
Qed.

Lemma NamedTemporaryFile_write_eq (text : string) (w : World) :
  test_runner.NamedTemporaryFile_write text w = (Ret (tmp_name w), staged text w).
Proof. reflexivity. Qed.

Lemma staged_lookup (text : string) (w : World) :
  tmp_dir (staged text w) !! tmp_name w = Some text.
Proof. cbn. apply lookup_insert_eq. Qed.

Lemma execute_test_script_eq (test_script test_name : string) (w : World) :
  test_runner._execute_test_script test_script test_name w
  = (Ret (metrics_of (outcome_of test_script w) test_name), after_run test_script w).
Proof.
  unfold test_runner._execute_test_script, mbind, M_mbind, M_bind_.
  rewrite NamedTemporaryFile_write_eq.
  unfold try_finally, try_except, test_runner.subprocess_run,
    test_runner.unlink_tmp, modify, mret, M_mret, M_ret.
  rewrite staged_lookup. cbn [default from_option id].
  unfold outcome_of, after_run. cbv zeta.
  destruct (child test_script 30 (staged test_script w)) as [[stdout| |e] cached];
    cbn [fst snd metrics_of].
  - destruct (test_runner._parse_test_output stdout) as [a s]. reflexivity.
  - reflexivity.
  - destruct e; reflexivity.
Qed.

(** The program text: both generators are seeded with 42 at the head of
    the [try], before the loop over the episodes, whatever the candidate,
    the configuration and the number of episodes. *)
Lemma generated_program_seeds_before_episodes (test_config : option Config)
    (agent_file : option string) (num_episodes : Z) :
  let text := test_runner._generate_test_script test_config agent_file num_episodes in
  let episodes := "    for ep in range(" +:+ pretty num_episodes +:+ "):" in
  in_this_order "try:" "    random.seed(42)" text
  /\ in_this_order "    random.seed(42)" "    np.random.seed(42)" text
  /\ in_this_order "    np.random.seed(42)" episodes text.
Proof.
  cbv zeta. unfold test_runner._generate_test_script, test_runner.test_script_text.
  split; [|split].
  - apply (py_join_has_in_order nl _ 18 20); [lia|reflexivity|reflexivity].
  - apply (py_join_has_in_order nl _ 20 21); [lia|reflexivity|reflexivity].
  - apply (py_join_has_in_order nl _ 21 30); [lia|reflexivity|reflexivity].
Qed.

(** What one evaluation leaves of the world. *)

Lemma after_run_tmp_dir (program : string) (w : World) :
  tmp_dir (after_run program w) = tmp_dir w.
Proof.
  unfold after_run, staged. cbn.
  rewrite delete_insert_eq. apply delete_id, tmp_name_fresh.
Qed.

Lemma after_run_agent_py (program : string) (w : World) :
  agent_py (after_run program w) = agent_py w.
Proof. reflexivity. Qed.

Lemma after_run_agent_history (program : string) (w : World) :
  agent_history (after_run program w) = agent_history w.
Proof. reflexivity. Qed.

Lemma after_run_temp_agents (program : string) (w : World) :
  temp_agents (after_run program w) = temp_agents w.
Proof. reflexivity. Qed.

Lemma after_run_temp_configs (program : string) (w : World) :
  temp_configs (after_run program w) = temp_configs w.
Proof. reflexivity. Qed.

Lemma after_run_clock (program : string) (w : World) :
  clock (after_run program w) = S (clock w).
Proof. reflexivity. Qed.

Lemma after_run_events (program : string) (w : World) :
  events (after_run program w)
  = events w ++ [EvWrite (tmp_name w); EvRun program; EvUnlink (tmp_name w)].
Proof.
  unfold after_run, staged. cbn. rewrite <- !app_assoc. reflexivity.
Qed.

Lemma after_run_runs (program : string) (w : World) :
  runs (events (after_run program w)) = runs (events w) ++ [program].
Proof.
  rewrite after_run_events. unfold runs. rewrite omap_app. reflexivity.
Qed.

Lemma run_performance_test_eq (test_config : option Config)
    (agent_file : option string) (num_episodes : Z) (label : string) (w : World) :
  let program := test_runner._generate_test_script test_config agent_file num_episodes in
  test_runner.run_performance_test test_config agent_file num_episodes label w
  = (Ret (metrics_of (outcome_of program w) label), after_run program w).
Proof. apply execute_test_script_eq. Qed.

(** The result line parser, field by field. *)

Lemma parse_results_line_eq (line : string) (locals : float * float) :
  test_runner.parse_results_line line locals
  = match avg_field line with
    | None => (locals, false)
    | Some a =>
        match rate_field line with
        | None => ((a, snd locals), false)
        | Some s => ((a, s), true)
        end
    end.
Proof.
  unfold test_runner.parse_results_line, avg_field, rate_field, index.
  destruct (py_split "RESULTS: " line !! 1%nat) as [rest|]; cbn; [|reflexivity].
  destruct (py_split ", " rest !! 0%nat) as [a|]; cbn; [|reflexivity].
  destruct (py_split "=" a !! 1%nat) as [va|]; cbn; [|reflexivity].
  destruct (py_float va) as [x|]; cbn; [|reflexivity].
  destruct (py_split ", " rest !! 1%nat) as [b|]; cbn; [|reflexivity].
  destruct (py_split "=" b !! 1%nat) as [vb|]; cbn; [|reflexivity].
  destruct (py_float vb) as [y|]; reflexivity.
Qed.

Lemma parse_lines_no_avg (lines : list string) (locals : float * float) :
  (forall line, line ∈ lines -> startswith "RESULTS:" line = true -> avg_field line = None) ->
  test_runner.parse_lines lines locals = locals.
Proof.
  induction lines as [|line lines IH]; intros Hno; [reflexivity|].
  cbn [test_runner.parse_lines].
  destruct (startswith "RESULTS:" line) eqn:Hstart.
  - rewrite parse_results_line_eq, (Hno line); [|left|exact Hstart].
    apply IH. intros l Hl. apply Hno. right. exact Hl.
  - apply IH. intros l Hl. apply Hno. right. exact Hl.
Qed.

End executor.

(** ** The executor normalizes every outcome (C3) *)

(** C3, as amended. For every program text, label and world,
    [_execute_test_script] returns metrics and raises nothing; the label of
    the result is the caller's test name, whatever happened; when the child
    times out or raises, the metrics are the failure sentinel; when the
    child completes and no line of its output that starts with RESULTS: has
    an avg_return field that parses, the metrics are the failure sentinel. *)
Theorem execute_test_script_normalizes `{PyBuiltins} `{PyHost}
    (test_script label : string) (w : World) :
  exists m : Metrics,
    fst (test_runner._execute_test_script test_script label w) = Ret m
    /\ test_name m = label
    /\ (outcome_of test_script w = TimedOut -> m = sentinel label)
    /\ (forall e, outcome_of test_script w = ProcRaised e -> m = sentinel label)
    /\ (forall stdout,
          outcome_of test_script w = Completed stdout ->
          (forall line, line ∈ py_split nl stdout ->
                        startswith "RESULTS:" line = true -> avg_field line = None) ->
          m = sentinel label).
Proof.
  exists (metrics_of (outcome_of test_script w) label).
  rewrite execute_test_script_eq. cbn [fst].
  split; [reflexivity|].
  split; [destruct (outcome_of test_script w); reflexivity|].
  split; [intros ->; reflexivity|].
  split; [intros e ->; reflexivity|].
  intros stdout -> Hno. cbn [metrics_of].
  unfold test_runner._parse_test_output.
  rewrite parse_lines_no_avg by exact Hno. reflexivity.
Qed.

Section executor_on_demo.
#[local] Existing Instance Demo.builtins.
#[local] Existing Instance Demo.host.

(** C3 as stated fails twice, on the program generated for the live
    agent. An agent that prints a result line with an avg_return field and
    nothing after it: no line of the output parses into two floats, and the
    metrics are not the sentinel, the average is the parsed 1.5. An agent
    that runs into the timeout: the result is the sentinel under the
    caller's label, the very result of an agent that crashed, so the label
    says nothing of a timeout. *)
Lemma execute_test_script_not_as_stated :
  (outcome_of (original_program 100) (Demo.world0 "#!partial=1.5;" ∅)
     = Completed ("RESULTS: avg_return=1.5" +:+ nl)
   /\ forallb (fun line => match two_floats line with None => true | Some _ => false end)
        (py_split nl ("RESULTS: avg_return=1.5" +:+ nl)) = true
   /\ fst (test_runner._execute_test_script (original_program 100) "Original"
             (Demo.world0 "#!partial=1.5;" ∅))
      = Ret (mkMetrics 1.5%float 0.0%float "Original"))
  /\ (outcome_of (original_program 100) (Demo.world0 "#!hang" ∅) = TimedOut
      /\ fst (test_runner._execute_test_script (original_program 100) "Original"
                (Demo.world0 "#!hang" ∅))
         = Ret (mkMetrics (-999.0)%float 0.0%float "Original")
      /\ fst (test_runner._execute_test_script (original_program 100) "Original"
                (Demo.world0 "#!hang" ∅))
         = fst (test_runner._execute_test_script (original_program 100) "Original"
                  (Demo.world0 "#!crash" ∅))).
Proof. vm_compute. repeat split. Qed.

End executor_on_demo.

(** ** The agent-logic track, as a fold *)

Section agent_track.
Context `{PyBuiltins} `{PyHost}.

Lemma test_candidate_eq (n : Z) (i : nat) (code : string) (best : Z * Metrics)
    (w : World) :
  agent_manager.test_candidate n i code best w
  = (Ret (if PrimFloat.ltb (avg_return (snd best) * (1 + 0.1))%float
                           (avg_return (candidate_metrics n i code w))
          then (Z.of_nat i, candidate_metrics n i code w) else best),
     after_candidate n i code w).
Proof.
  destruct best as [best_index best_metrics].
  unfold agent_manager.test_candidate, try_except, mbind, M_mbind, M_bind_,
    agent_manager.write_temp_agent, modify, agent_validation.test_agent_performance.
  rewrite run_performance_test_eq. cbv zeta.
  fold (staged_candidate i code w). fold (candidate_program n i).
  fold (candidate_metrics n i code w). fold (after_candidate n i code w).
  cbn [snd].
  change (1 + agent_manager.improvement_threshold)%float with (1 + 0.1)%float.
  destruct (PrimFloat.ltb _ _); reflexivity.
Qed.

Lemma for_each_candidates_eq (n : Z) (codes : list string) :
  forall (i : nat) (best : Z * Metrics) (w : World),
    for_each (agent_manager.test_candidate n) i codes best w
    = (Ret (fst (agent_round n i codes best w)), snd (agent_round n i codes best w)).
Proof.
  induction codes as [|code codes IH]; intros i best w; [reflexivity|].
  cbn [for_each agent_round]. unfold mbind, M_mbind, M_bind_.
  rewrite test_candidate_eq. apply IH.
Qed.

Lemma agent_round_app (n : Z) (codes1 codes2 : list string) :
  forall (i : nat) (best : Z * Metrics) (w : World),
    agent_round n i (codes1 ++ codes2) best w
    = agent_round n (i + length codes1) codes2
        (fst (agent_round n i codes1 best w)) (snd (agent_round n i codes1 best w)).
Proof.
  induction codes1 as [|code codes1 IH]; intros i best w; cbn [app agent_round length].
  - rewrite Nat.add_0_r. reflexivity.
  - rewrite IH. replace (S i + length codes1)%nat with (i + S (length codes1))%nat by lia.
    reflexivity.
Qed.

Lemma agent_round_runs (n : Z) (codes : list string) :
  forall (i : nat) (best : Z * Metrics) (w : World),
    runs (events (snd (agent_round n i codes best w)))
    = runs (events w) ++ map (candidate_program n) (seq i (length codes)).
Proof.
  induction codes as [|code codes IH]; intros i best w; cbn [agent_round length seq map].
  - rewrite app_nil_r. reflexivity.
  - rewrite IH. unfold after_candidate. rewrite after_run_runs.
    unfold staged_candidate. cbn [events tick add_event set_temp_agents].
    unfold runs. rewrite omap_app. cbn [omap]. fold (runs (events w)).
    rewrite app_nil_r, <- app_assoc. reflexivity.
Qed.

Lemma test_multiple_agents_eq (codes : list string) (n : Z) (w : World) :
  agent_manager.test_multiple_agents codes n w
  = (Ret (fst (agent_round n 0 codes (-1, original_metrics n w)
                 (after_run (original_program n) w))),
     snd (agent_manager._cleanup_temp_agents (agent_round_world n codes w))).
Proof.
  unfold agent_manager.test_multiple_agents, mbind, M_mbind, M_bind_,
    agent_validation.test_agent_performance.
  rewrite run_performance_test_eq. cbv zeta.
  rewrite for_each_candidates_eq. reflexivity.
Qed.

Lemma cleanup_temp_agents_clean (w : World) :
  (forall name, fnmatch "candidate_*.py" name = true ->
                temp_agents (snd (agent_manager._cleanup_temp_agents w)) !! name = None)
  /\ temp_agents_pycache (snd (agent_manager._cleanup_temp_agents w)) = false.
Proof.
  unfold agent_manager._cleanup_temp_agents, modify. cbn [snd]. split.
  - intros name Hname.
    assert (Hgone : filter (fun entry : string * string =>
                              fnmatch "candidate_*.py" (fst entry) = false)
                      (temp_agents w) !! name = None).
    { apply map_lookup_filter_None_2. right. intros x _ Hx. cbn [fst] in Hx. congruence. }
    destruct (temp_agents_pycache _); exact Hgone.
  - destruct (temp_agents_pycache (set_temp_agents _ w)) eqn:Hp; [reflexivity|exact Hp].
Qed.

End agent_track.

(** ** The configuration track, as a fold *)

Section config_track.
Context `{PyBuiltins} `{PyHost}.

Lemma test_variant_eq (n : Z) (i : nat) (config : Config) (best : Z * Metrics)
    (w : World) :
  config_manager.test_variant n i config best w
  = (Ret (if failed (variant_metrics n i config w) then best
          else if PrimFloat.ltb (avg_return (snd best) + 0.05)%float
                                (avg_return (variant_metrics n i config w))
          then (Z.of_nat i, variant_metrics n i config w) else best),
     after_variant n i config w).
Proof.
  destruct best as [best_index best_metrics].
  unfold config_manager.test_variant, try_except, mbind, M_mbind, M_bind_,
    config_manager.write_temp_config, modify, param_validation.test_config_performance.
  rewrite run_performance_test_eq. cbv zeta.
  fold (staged_variant i config w). fold (variant_program n config).
  fold (variant_metrics n i config w). fold (after_variant n i config w).
  fold (failed (variant_metrics n i config w)).
  cbn [snd].
  change (avg_return best_metrics + config_manager.improvement_threshold)%float
    with (avg_return best_metrics + 0.05)%float.
  destruct (failed _); [reflexivity|].
  destruct (PrimFloat.ltb _ _); reflexivity.
Qed.

Lemma for_each_variants_eq (n : Z) (variants : list Config) :
  forall (i : nat) (best : Z * Metrics) (w : World),
    for_each (config_manager.test_variant n) i variants best w
    = (Ret (fst (config_round n i variants best w)),
       snd (config_round n i variants best w)).
Proof.
  induction variants as [|config variants IH]; intros i best w; [reflexivity|].
  cbn [for_each config_round]. unfold mbind, M_mbind, M_bind_.
  rewrite test_variant_eq. apply IH.
Qed.

Lemma config_round_app (n : Z) (variants1 variants2 : list Config) :
  forall (i : nat) (best : Z * Metrics) (w : World),
    config_round n i (variants1 ++ variants2) best w
    = config_round n (i + length variants1) variants2
        (fst (config_round n i variants1 best w))
        (snd (config_round n i variants1 best w)).
Proof.
  induction variants1 as [|config variants1 IH]; intros i best w;
    cbn [app config_round length].
  - rewrite Nat.add_0_r. reflexivity.
  - rewrite IH.
    replace (S i + length variants1)%nat with (i + S (length variants1))%nat by lia.
    reflexivity.
Qed.

Lemma config_round_runs (n : Z) (variants : list Config) :
  forall (i : nat) (best : Z * Metrics) (w : World),
    runs (events (snd (config_round n i variants best w)))
    = runs (events w) ++ map (variant_program n) variants.
Proof.
  induction variants as [|config variants IH]; intros i best w;
    cbn [config_round map].
  - rewrite app_nil_r. reflexivity.
  - rewrite IH. unfold after_variant. rewrite after_run_runs.
    unfold staged_variant. cbn [events tick add_event set_temp_configs].
    unfold runs. rewrite omap_app. cbn [omap]. fold (runs (events w)).
    rewrite app_nil_r, <- app_assoc. reflexivity.
Qed.

Lemma test_multiple_configs_eq (variants : list Config) (n : Z)
    (w w0 : World) (config : Config) :
  config_helper.get_config_singleton w = (Ret config, w0) ->
  config_manager.test_multiple_configs variants n w
  = let m0 := metrics_of (outcome_of (variant_program n config) w0) "Original" in
    let w1 := after_run (variant_program n config) w0 in
    if failed m0 then (Ret (-1, m0), w1)
    else (Ret (fst (config_round n 0 variants (-1, m0) w1)),
          snd (config_manager._cleanup_temp_configs
                 (snd (config_round n 0 variants (-1, m0) w1)))).
Proof.
  intros Hconfig.
  unfold config_manager.test_multiple_configs, mbind, M_mbind, M_bind_,
    param_validation.test_config_performance.
  rewrite Hconfig, run_performance_test_eq. cbv zeta.
  fold (variant_program n config).
  fold (failed (metrics_of (outcome_of (variant_program n config) w0) "Original")).
  destruct (failed _); [reflexivity|].
  rewrite for_each_variants_eq. reflexivity.
Qed.

Lemma get_config_singleton_events (w w0 : World) (config : Config) :
  config_helper.get_config_singleton w = (Ret config, w0) -> events w0 = events w.
Proof.
  unfold config_helper.get_config_singleton, config_helper.load_config.
  destruct (config_cache w); [intros [= <- <-]; reflexivity|].
  destruct (config_json w); [intros [= <- <-]; reflexivity|discriminate].
Qed.

End config_track.

(** ** The promotion rules (C1, C2) *)

(** C1. In [test_multiple_agents] the running best starts as the baseline
    at index -1, and the candidate that comes after [codes] becomes the best
    exactly when its avg_return is greater than the best avg_return times
    (1 + 0.10). On a baseline of -4.00 a candidate of -4.30 is accepted as
    the new best, though -4.30 is less than -4.00. *)
Theorem agent_promotion_rule :
  (forall `{PyBuiltins} `{PyHost} (n : Z) (w : World),
      fst (agent_manager.test_multiple_agents [] n w) = Ret (-1, original_metrics n w)
      /\ forall (codes : list string) (code : string),
           exists (best_index : Z) (best_metrics : Metrics),
             fst (agent_manager.test_multiple_agents codes n w)
             = Ret (best_index, best_metrics)
             /\ fst (agent_manager.test_multiple_agents (codes ++ [code]) n w)
                = Ret (let m := candidate_metrics n (length codes) code
                                  (agent_round_world n codes w) in
                       if PrimFloat.ltb (avg_return best_metrics * (1 + 0.10))%float
                                        (avg_return m)
                       then (Z.of_nat (length codes), m)
                       else (best_index, best_metrics)))
  /\ (@original_metrics Demo.builtins Demo.host 100 (Demo.world0 "#!avg=-4.00;" ∅)
      = mkMetrics (-4.00)%float 0.0%float "Original"
      /\ fst (@agent_manager.test_multiple_agents Demo.builtins Demo.host
                ["#!avg=-4.30;"] 100 (Demo.world0 "#!avg=-4.00;" ∅))
         = Ret (0, mkMetrics (-4.30)%float 0.0%float "Candidate 1")
      /\ PrimFloat.ltb (-4.30) (-4.00) = true).
Proof.
  split.
  - intros B P n w. split; [rewrite test_multiple_agents_eq; reflexivity|].
    intros codes code.
    destruct (agent_round n 0 codes (-1, original_metrics n w)
                (after_run (original_program n) w)) as [[best_index best_metrics] w1] eqn:Hround.
    exists best_index, best_metrics.
    rewrite !test_multiple_agents_eq. cbn [fst].
    rewrite agent_round_app. unfold agent_round_world.
    rewrite Hround. cbn [fst snd agent_round Nat.add]. split; reflexivity.
  - vm_compute. repeat split.
Qed.

(** C2. In [test_multiple_configs], on a baseline that did not fail, the
    running best starts as the baseline at index -1, and the variant that
    comes after [variants] becomes the best exactly when its avg_return is
    greater than the best avg_return plus 0.05 (a variant whose score is
    the failure marker is passed over before the comparison). On a
    baseline of 1.00 a variant of 1.04 is not selected and a variant of
    1.06 is. *)
Theorem config_promotion_rule :
  (forall `{PyBuiltins} `{PyHost} (n : Z) (w w0 : World) (config : Config),
      config_helper.get_config_singleton w = (Ret config, w0) ->
      let m0 := metrics_of (outcome_of (variant_program n config) w0) "Original" in
      failed m0 = false ->
      fst (config_manager.test_multiple_configs [] n w) = Ret (-1, m0)
      /\ forall (variants : list Config) (variant : Config),
           exists (best_index : Z) (best_metrics : Metrics),
             fst (config_manager.test_multiple_configs variants n w)
             = Ret (best_index, best_metrics)
             /\ fst (config_manager.test_multiple_configs (variants ++ [variant]) n w)
                = Ret (let m := variant_metrics n (length variants) variant
                                  (snd (config_round n 0 variants (-1, m0)
                                          (after_run (variant_program n config) w0))) in
                       if failed m then (best_index, best_metrics)
                       else if PrimFloat.ltb (avg_return best_metrics + 0.05)%float
                                             (avg_return m)
                       then (Z.of_nat (length variants), m)
                       else (best_index, best_metrics)))
  /\ (fst (@config_manager.test_multiple_configs Demo.builtins Demo.host
             [Demo.config_noted "#!avg=1.04;"] 100
             (Demo.world0 "" (Demo.config_noted "#!avg=1.00;")))
      = Ret (-1, mkMetrics 1.00%float 0.0%float "Original")
      /\ fst (@config_manager.test_multiple_configs Demo.builtins Demo.host
                [Demo.config_noted "#!avg=1.06;"] 100
                (Demo.world0 "" (Demo.config_noted "#!avg=1.00;")))
         = Ret (0, mkMetrics 1.06%float 0.0%float "Variant 1")
      /\ fst (@config_manager.test_multiple_configs Demo.builtins Demo.host
                [Demo.config_noted "#!avg=1.04;"; Demo.config_noted "#!avg=1.06;"] 100
                (Demo.world0 "" (Demo.config_noted "#!avg=1.00;")))
         = Ret (1, mkMetrics 1.06%float 0.0%float "Variant 2")).
Proof.
  split.
  - intros B P n w w0 config Hconfig m0 Hok. split.
    + rewrite (test_multiple_configs_eq [] n w w0 config Hconfig). cbv zeta.
      fold m0. rewrite Hok. reflexivity.
    + intros variants variant.
      destruct (config_round n 0 variants (-1, m0)
                  (after_run (variant_program n config) w0))
        as [[best_index best_metrics] w1] eqn:Hround.
      exists best_index, best_metrics.
      rewrite !(test_multiple_configs_eq _ n w w0 config Hconfig). cbv zeta.
      fold m0. rewrite Hok. cbn [fst].
      rewrite config_round_app, Hround. cbn [fst snd config_round Nat.add].
      split; reflexivity.
  - vm_compute. repeat split.
Qed.

(** The rule of C2 at work: a configuration whose baseline scores 1.00. *)
Lemma config_promotion_rule_witness :
  fst (@config_manager.test_multiple_configs Demo.builtins Demo.host [] 100
         (Demo.world0 "" (Demo.config_noted "#!avg=1.00;")))
  = Ret (-1, mkMetrics 1.00%float 0.0%float "Original").
Proof.
  exact (proj1 (proj1 config_promotion_rule Demo.builtins Demo.host 100
                  (Demo.world0 "" (Demo.config_noted "#!avg=1.00;"))
                  (set_config_cache (Some (Demo.config_noted "#!avg=1.00;"))
                     (Demo.world0 "" (Demo.config_noted "#!avg=1.00;")))
                  (Demo.config_noted "#!avg=1.00;") eq_refl eq_refl)).
Defined.

(** ** A failing baseline (C4) *)

Section failing_baseline.
Context `{PyBuiltins} `{PyHost}.

(** The configuration track gives up on a failing baseline: it returns
    (-1, baseline metrics) and no variant has been run. *)
Lemma failing_baseline_config_track (variants : list Config) (n : Z)
    (w w0 : World) (config : Config) :
  config_helper.get_config_singleton w = (Ret config, w0) ->
  let m0 := metrics_of (outcome_of (variant_program n config) w0) "Original" in
  failed m0 = true ->
  fst (config_manager.test_multiple_configs variants n w) = Ret (-1, m0)
  /\ runs (events (snd (config_manager.test_multiple_configs variants n w)))
     = runs (events w) ++ [variant_program n config].
Proof.
  intros Hconfig m0 Hfailed.
  rewrite (test_multiple_configs_eq variants n w w0 config Hconfig). cbv zeta.
  fold m0. rewrite Hfailed. cbn [fst snd]. split; [reflexivity|].
  rewrite after_run_runs, (get_config_singleton_events w w0 config Hconfig).
  reflexivity.
Qed.

End failing_baseline.

(** C4. The configuration track returns (-1, baseline metrics) on a
    failing baseline without running a variant. The agent-logic track does
    not hold the claim: with a live agent that crashes (baseline -999) and
    one candidate that crashes too, the candidate, itself at the sentinel
    -999 and not better than the baseline, is returned as the best, index
    0, because -999 > -999 * 1.1. *)
Theorem failing_baseline_is_beaten :
  (forall `{PyBuiltins} `{PyHost} (variants : list Config) (n : Z)
          (w w0 : World) (config : Config),
      config_helper.get_config_singleton w = (Ret config, w0) ->
      failed (metrics_of (outcome_of (variant_program n config) w0) "Original") = true ->
      fst (config_manager.test_multiple_configs variants n w)
      = Ret (-1, metrics_of (outcome_of (variant_program n config) w0) "Original")
      /\ runs (events (snd (config_manager.test_multiple_configs variants n w)))
         = runs (events w) ++ [variant_program n config])
  /\ (@original_metrics Demo.builtins Demo.host 100 (Demo.world0 "#!crash" ∅)
      = sentinel "Original"
      /\ failed (sentinel "Original") = true
      /\ @candidate_metrics Demo.builtins Demo.host 100 0 "#!crash"
           (@agent_round_world Demo.builtins Demo.host 100 [] (Demo.world0 "#!crash" ∅))
         = sentinel "Candidate 1"
      /\ fst (@agent_manager.test_multiple_agents Demo.builtins Demo.host
                ["#!crash"] 100 (Demo.world0 "#!crash" ∅))
         = Ret (0, sentinel "Candidate 1")
      /\ PrimFloat.ltb (-999.0) (-999.0) = false).
Proof.
  split.
  - intros B P variants n w w0 config Hconfig Hfailed.
    exact (failing_baseline_config_track variants n w w0 config Hconfig Hfailed).
  - vm_compute. repeat split.
Qed.

(** ** Every candidate gets its turn (C5) *)

Section non_blocking.
Context `{PyBuiltins} `{PyHost}.

Lemma cleanup_temp_agents_runs (w : World) :
  runs (events (snd (agent_manager._cleanup_temp_agents w))) = runs (events w).
Proof.
  unfold agent_manager._cleanup_temp_agents, modify. cbn [snd].
  destruct (temp_agents_pycache (set_temp_agents _ w)); [|reflexivity].
  cbn [events add_event set_temp_agents_pycache set_temp_agents].
  unfold runs. rewrite omap_app. cbn [omap]. apply app_nil_r.
Qed.

Lemma test_multiple_agents_runs (codes : list string) (n : Z) (w : World) :
  runs (events (snd (agent_manager.test_multiple_agents codes n w)))
  = runs (events w) ++ original_program n
      :: map (candidate_program n) (seq 0 (length codes)).
Proof.
  rewrite test_multiple_agents_eq. cbn [snd].
  rewrite cleanup_temp_agents_runs. unfold agent_round_world.
  rewrite agent_round_runs, after_run_runs, <- app_assoc. reflexivity.
Qed.

Lemma test_multiple_configs_runs (variants : list Config) (n : Z)
    (w w0 : World) (config : Config) :
  config_helper.get_config_singleton w = (Ret config, w0) ->
  failed (metrics_of (outcome_of (variant_program n config) w0) "Original") = false ->
  runs (events (snd (config_manager.test_multiple_configs variants n w)))
  = runs (events w) ++ variant_program n config :: map (variant_program n) variants.
Proof.
  intros Hconfig Hok.
  rewrite (test_multiple_configs_eq variants n w w0 config Hconfig). cbv zeta.
  rewrite Hok. cbn [snd].
  unfold config_manager._cleanup_temp_configs, modify. cbn [snd events set_temp_configs].
  rewrite config_round_runs, after_run_runs,
    (get_config_singleton_events w w0 config Hconfig), <- app_assoc.
  reflexivity.
Qed.

End non_blocking.

(** The loops guard each turn: the body of a turn is the evaluation of
    the candidate inside a [try], and when the evaluation raises, whatever
    it is, the turn ends with the running best as it was. *)

Section turns.
Context `{PyBuiltins} `{PyHost}.

Lemma test_candidate_is_turn (n : Z) (i : nat) (code : string) (best : Z * Metrics) :
  agent_manager.test_candidate n i code best
  = agent_turn
      (agent_manager.write_temp_agent (agent_manager.candidate_name i) code;;
       agent_validation.test_agent_performance
         (agent_manager.path_join agent_manager.temp_agents_dir
            (agent_manager.candidate_name i))
         n ("Candidate " +:+ pretty (i + 1)%nat))
      i best.
Proof. destruct best as [best_index best_metrics]. reflexivity. Qed.

Lemma test_variant_is_turn (n : Z) (i : nat) (config : Config) (best : Z * Metrics) :
  config_manager.test_variant n i config best
  = config_turn
      (config_manager.write_temp_config (config_manager.variant_name i) config;;
       param_validation.test_config_performance config n
         ("Variant " +:+ pretty (i + 1)%nat))
      i best.
Proof. destruct best as [best_index best_metrics]. reflexivity. Qed.

Lemma agent_turn_skips (evaluate : M Metrics) (i : nat) (best : Z * Metrics)
    (w w1 : World) (e : PyExc) :
  evaluate w = (Raise e, w1) -> agent_turn evaluate i best w = (Ret best, w1).
Proof.
  intros Hraise. unfold agent_turn, try_except, mbind, M_mbind, M_bind_.
  rewrite Hraise. reflexivity.
Qed.

Lemma config_turn_skips (evaluate : M Metrics) (i : nat) (best : Z * Metrics)
    (w w1 : World) (e : PyExc) :
  evaluate w = (Raise e, w1) -> config_turn evaluate i best w = (Ret best, w1).
Proof.
  intros Hraise. unfold config_turn, try_except, mbind, M_mbind, M_bind_.
  rewrite Hraise. reflexivity.
Qed.

End turns.

(** C5. Whatever happens to a candidate, the round goes on. A turn of
    either loop is the evaluation of its candidate inside a [try]: when the
    evaluation raises, the turn ends with the running best as it was, and
    the loop takes the next candidate. In the agent-logic track the
    programs run are the baseline and then every candidate, in order, and
    the round returns a result. In the configuration track, on a baseline
    that did not fail, the programs run are the baseline and then every
    variant, in order; a variant whose score is the failure marker leaves
    the running best as it was. Of three candidates of which the second
    crashes, the first and the third are run and the third is returned as
    the winner. *)
Theorem one_failure_skips_one_candidate :
  (forall `{PyBuiltins} `{PyHost} (n : Z) (i : nat) (code : string)
          (config : Config) (best : Z * Metrics),
      agent_manager.test_candidate n i code best
      = agent_turn
          (agent_manager.write_temp_agent (agent_manager.candidate_name i) code;;
           agent_validation.test_agent_performance
             (agent_manager.path_join agent_manager.temp_agents_dir
                (agent_manager.candidate_name i))
             n ("Candidate " +:+ pretty (i + 1)%nat))
          i best
      /\ config_manager.test_variant n i config best
         = config_turn
             (config_manager.write_temp_config (config_manager.variant_name i) config;;
              param_validation.test_config_performance config n
                ("Variant " +:+ pretty (i + 1)%nat))
             i best
      /\ forall (evaluate : M Metrics) (w w1 : World) (e : PyExc),
            evaluate w = (Raise e, w1) ->
            agent_turn evaluate i best w = (Ret best, w1)
            /\ config_turn evaluate i best w = (Ret best, w1))
  /\
  (forall `{PyBuiltins} `{PyHost} (codes : list string) (n : Z) (w : World),
      (exists best, fst (agent_manager.test_multiple_agents codes n w) = Ret best)
      /\ runs (events (snd (agent_manager.test_multiple_agents codes n w)))
         = runs (events w) ++ original_program n
             :: map (candidate_program n) (seq 0 (length codes)))
  /\ (forall `{PyBuiltins} `{PyHost} (variants : list Config) (n : Z)
             (w w0 : World) (config : Config),
        config_helper.get_config_singleton w = (Ret config, w0) ->
        failed (metrics_of (outcome_of (variant_program n config) w0) "Original") = false ->
        (exists best, fst (config_manager.test_multiple_configs variants n w) = Ret best)
        /\ runs (events (snd (config_manager.test_multiple_configs variants n w)))
           = runs (events w) ++ variant_program n config
               :: map (variant_program n) variants)
  /\ (forall `{PyBuiltins} `{PyHost} (n : Z) (i : nat) (config : Config)
             (best : Z * Metrics) (w : World),
        failed (variant_metrics n i config w) = true ->
        fst (config_manager.test_variant n i config best w) = Ret best)
  /\ (let w := Demo.world0 "#!avg=1.00;" ∅ in
      let round := @agent_manager.test_multiple_agents Demo.builtins Demo.host
                     ["#!avg=1.05;"; "#!crash"; "#!avg=2.00;"] 100 w in
      fst round = Ret (2, mkMetrics 2.00%float 0.0%float "Candidate 3")
      /\ runs (events (snd round))
         = [@original_program Demo.builtins Demo.host 100;
            @candidate_program Demo.builtins Demo.host 100 0;
            @candidate_program Demo.builtins Demo.host 100 1;
            @candidate_program Demo.builtins Demo.host 100 2])
  /\ (let w := Demo.world0 "" (Demo.config_noted "#!avg=1.00;") in
      fst (@config_manager.test_multiple_configs Demo.builtins Demo.host
             [Demo.config_noted "#!avg=1.02;"; Demo.config_noted "#!crash";
              Demo.config_noted "#!avg=2.00;"] 100 w)
      = Ret (2, mkMetrics 2.00%float 0.0%float "Variant 3")).
Proof.
  split; [|split; [|split; [|split; [|split]]]].
  - intros B P n i code config best.
    split; [apply test_candidate_is_turn|].
    split; [apply test_variant_is_turn|].
    intros evaluate w w1 e Hraise.
    split; [exact (agent_turn_skips _ _ _ _ _ _ Hraise)
           |exact (config_turn_skips _ _ _ _ _ _ Hraise)].
  - intros B P codes n w. split.
    + rewrite test_multiple_agents_eq. eexists. reflexivity.
    + apply test_multiple_agents_runs.
  - intros B P variants n w w0 config Hconfig Hok. split.
    + rewrite (test_multiple_configs_eq variants n w w0 config Hconfig). cbv zeta.
      rewrite Hok. eexists. reflexivity.
    + apply (test_multiple_configs_runs variants n w w0 config Hconfig Hok).
  - intros B P n i config best w Hfailed.
    rewrite test_variant_eq, Hfailed. reflexivity.
  - vm_compute. repeat split.
  - vm_compute. reflexivity.
Qed.

(** The configuration track of C5 on a concrete round: every variant is run. *)
Lemma one_failure_skips_one_candidate_witness :
  runs (events (snd (@config_manager.test_multiple_configs Demo.builtins Demo.host
                       [Demo.config_noted "#!avg=1.02;"; Demo.config_noted "#!crash"] 100
                       (Demo.world0 "" (Demo.config_noted "#!avg=1.00;")))))
  = runs (events (Demo.world0 "" (Demo.config_noted "#!avg=1.00;")))
      ++ @variant_program Demo.builtins Demo.host 100 (Demo.config_noted "#!avg=1.00;")
      :: map (@variant_program Demo.builtins Demo.host 100)
           [Demo.config_noted "#!avg=1.02;"; Demo.config_noted "#!crash"].
Proof.
  exact (proj2 (proj1 (proj2 (proj2 one_failure_skips_one_candidate)) Demo.builtins Demo.host
                  [Demo.config_noted "#!avg=1.02;"; Demo.config_noted "#!crash"] 100
                  (Demo.world0 "" (Demo.config_noted "#!avg=1.00;"))
                  (set_config_cache (Some (Demo.config_noted "#!avg=1.00;"))
                     (Demo.world0 "" (Demo.config_noted "#!avg=1.00;")))
                  (Demo.config_noted "#!avg=1.00;") eq_refl eq_refl)).
Defined.

(** ** Nothing is left behind (C8) *)

(** C8. [_execute_test_script] leaves the temporary directory as it found
    it, whatever the child did: the program file it wrote is gone again and
    its removal is the last thing that happened. After
    [test_multiple_agents] has returned, the scratch directory holds no
    file named candidate_*.py and no __pycache__; every file the round
    writes there has such a name. *)
Theorem scratch_is_cleaned `{PyBuiltins} `{PyHost} :
  (forall (test_script label : string) (w : World),
      let w' := snd (test_runner._execute_test_script test_script label w) in
      tmp_dir (staged test_script w) !! tmp_name w = Some test_script
      /\ tmp_dir w' !! tmp_name w = None
      /\ tmp_dir w' = tmp_dir w
      /\ last (events w') = Some (EvUnlink (tmp_name w)))
  /\ (forall (codes : list string) (n : Z) (w : World),
        exists best w',
          agent_manager.test_multiple_agents codes n w = (Ret best, w')
          /\ (forall name, fnmatch "candidate_*.py" name = true ->
                           temp_agents w' !! name = None)
          /\ temp_agents_pycache w' = false)
  /\ (forall i : nat, fnmatch "candidate_*.py" (agent_manager.candidate_name i) = true).
Proof.
  split; [|split].
  - intros test_script label w w'. subst w'.
    rewrite execute_test_script_eq. cbn [snd].
    rewrite after_run_tmp_dir, after_run_events.
    split; [apply staged_lookup|].
    split; [apply tmp_name_fresh|].
    split; [reflexivity|].
    rewrite last_app. reflexivity.
  - intros codes n w. rewrite test_multiple_agents_eq.
    eexists _, _. split; [reflexivity|].
    apply cleanup_temp_agents_clean.
  - intros i. apply fnmatch_candidate.
Qed.

(** ** The promotion gate (C6) *)

Lemma py_max_by_spec {A : Type} (key : A -> nat) (l : list A) :
  forall x : A,
    py_max_by key x l ∈ x :: l
    /\ forall y, y ∈ x :: l -> (key y <= key (py_max_by key x l))%nat.
Proof.
  unfold py_max_by.
  induction l as [|z l IH]; intros x; cbn [fold_left].
  - split; [left|]. intros y Hy. apply list_elem_of_singleton in Hy. subst y. lia.
  - destruct (IH (if (key x <? key z)%nat then z else x)) as [Hin Hmax]. split.
    + apply elem_of_cons in Hin as [Heq|Hin].
      * rewrite Heq. destruct (key x <? key z)%nat; [right; left|left].
      * right. right. exact Hin.
    + intros y Hy.
      assert (Hstep : (key y <= key (if (key x <? key z)%nat then z else x))%nat
                      \/ y ∈ l).
      { apply elem_of_cons in Hy as [->|Hy].
        - left. destruct (key x <? key z)%nat eqn:Hlt; [apply Nat.ltb_lt in Hlt|]; lia.
        - apply elem_of_cons in Hy as [->|Hy]; [|right; exact Hy].
          left. destruct (key x <? key z)%nat eqn:Hlt; [|apply Nat.ltb_ge in Hlt]; lia. }
      destruct Hstep as [Hle|Hyl].
      * etransitivity; [exact Hle|]. apply Hmax. left.
      * apply Hmax. right. exact Hyl.
Qed.

Ltac world_unchanged :=
  split; [first [reflexivity|assumption]|]; split; [reflexivity|]; split; [lia|];
  exists nil; rewrite app_nil_r; reflexivity.

Section promotion_gate.
Context `{PyBuiltins} `{PyHost}.

Lemma missing_method_none (agent_class : gset string) :
  agent_validation.missing_method agent_class agent_validation.required_methods = None
  <-> "select_action" ∈ agent_class /\ "learn" ∈ agent_class
      /\ "decay_epsilon" ∈ agent_class.
Proof.
  unfold agent_validation.required_methods. cbn [agent_validation.missing_method].
  repeat case_decide; split; intros Hm; try discriminate; try tauto.
Qed.

Lemma test_demo_run_eq (w : World) :
  agent_validation.test_demo_run w
  = (Ret (num_lt (NInt (-999))
            (NFloat (avg_return (metrics_of (outcome_of demo_program w) "Demo validation")))),
     after_run demo_program w).
Proof.
  unfold agent_validation.test_demo_run, try_except, mbind, M_mbind, M_bind_.
  rewrite run_performance_test_eq. cbv zeta. fold demo_program.
  destruct (num_lt _ _); reflexivity.
Qed.

(** The code of the gate on an import that comes back: it decides what its
    contract says, and after the import it touches neither the live agent
    nor the history. *)
Lemma validate_agent_code_spec (w : World) (source : string) (r : Res PyModule)
    (w1 : World) :
  agent_py w = Some source ->
  exec_module source w = (Done r, w1) ->
  exists w' : World,
    agent_validation.validate_agent_code w = (Done (Ret (passes_validation w)), w')
    /\ agent_py w' = agent_py w1
    /\ agent_history w' = agent_history w1
    /\ (clock w1 <= clock w')%nat
    /\ exists evs, events w' = events w1 ++ evs.
Proof.
  intros Hsrc Hexec.
  unfold agent_validation.validate_agent_code, passes_validation, try_except_Exception,
    mbind, P_mbind, P_bind_, engine, get_world, raise, mret, P_mret, P_ret, M_mret, M_ret.
  rewrite Hsrc, Hexec.
  destruct r as [module|e].
  2:{ exists w1. split; [reflexivity|]. world_unchanged. }
  destruct (module !! "Agent") as [agent_class|].
  2:{ exists w1. split; [reflexivity|]. world_unchanged. }
  destruct (agent_validation.missing_method agent_class agent_validation.required_methods)
    as [method|] eqn:Hmiss.
  - exists w1. split.
    + f_equal. f_equal. f_equal. symmetry.
      destruct (bool_decide ("select_action" ∈ agent_class)) eqn:H1; [|reflexivity].
      destruct (bool_decide ("learn" ∈ agent_class)) eqn:H2; [|reflexivity].
      destruct (bool_decide ("decay_epsilon" ∈ agent_class)) eqn:H3; [|reflexivity].
      apply bool_decide_eq_true in H1, H2, H3.
      assert (Hnone : agent_validation.missing_method agent_class
                        agent_validation.required_methods = None)
        by (apply missing_method_none; tauto).
      congruence.
    + world_unchanged.
  - apply missing_method_none in Hmiss as (H1 & H2 & H3).
    rewrite test_demo_run_eq.
    exists (after_run demo_program w1). split.
    + rewrite !bool_decide_eq_true_2 by assumption. reflexivity.
    + rewrite after_run_agent_py, after_run_agent_history, after_run_clock,
        after_run_events.
      split; [reflexivity|]. split; [reflexivity|]. split; [lia|].
      eexists. reflexivity.
Qed.

(** When the import leaves by an exit, or does not come back, so does the
    gate, in the world the import left: its [except Exception] is not
    reached. *)
Lemma validate_agent_code_no_return (w : World) (source : string) (w1 : World) :
  agent_py w = Some source ->
  (forall x : PyBaseExc,
      exec_module source w = (Exits x, w1) ->
      agent_validation.validate_agent_code w = (Exits x, w1))
  /\ (exec_module source w = (Hangs, w1) ->
      agent_validation.validate_agent_code w = (Hangs, w1)).
Proof.
  intros Hsrc.
  unfold agent_validation.validate_agent_code, try_except_Exception,
    mbind, P_mbind, P_bind_, engine, get_world, raise, mret, P_mret, P_ret, M_mret, M_ret.
  rewrite Hsrc. split; [intros x Hexec|intros Hexec]; rewrite Hexec; reflexivity.
Qed.

(** Restoring brings back the backup that is newer than all the others. *)
Lemma restore_latest_backup_spec (w : World) (name content : string) (ctime : nat) :
  agent_history w !! name = Some (content, ctime) ->
  fnmatch "agent_*.py" name = true ->
  (forall name' content' ctime',
      agent_history w !! name' = Some (content', ctime') -> name' <> name ->
      (ctime' < ctime)%nat) ->
  exists w' : World,
    agent_manager._restore_latest_backup w = (Ret tt, w')
    /\ agent_py w' = Some content
    /\ agent_history w' = agent_history w
    /\ exists evs, events w' = events w ++ evs.
Proof.
  intros Hentry Hmatch Hnewest.
  unfold agent_manager._restore_latest_backup.
  assert (Hin : (name, (content, ctime)) ∈ agent_manager.glob_history "agent_*.py" w).
  { unfold agent_manager.glob_history. apply list_elem_of_In, filter_In. split.
    - apply list_elem_of_In, elem_of_map_to_list. exact Hentry.
    - exact Hmatch. }
  destruct (agent_manager.glob_history "agent_*.py" w) as [|b backups] eqn:Hglob.
  { apply elem_of_nil in Hin. destruct Hin. }
  destruct (py_max_by_spec agent_manager.getctime backups b) as [Hlatest Hmax].
  set (latest := py_max_by agent_manager.getctime b backups) in *.
  assert (Hl : agent_history w !! fst latest = Some (snd latest)).
  { rewrite <- Hglob in Hlatest. unfold agent_manager.glob_history in Hlatest.
    apply list_elem_of_In, filter_In in Hlatest as [Hlatest _].
    apply list_elem_of_In in Hlatest. destruct latest as [n0 e0].
    apply elem_of_map_to_list in Hlatest. exact Hlatest. }
  assert (Hname : fst latest = name).
  { destruct (decide (fst latest = name)) as [Heq|Hne]; [exact Heq|exfalso].
    destruct (snd latest) as [c' t'] eqn:Hsnd.
    specialize (Hnewest _ _ _ Hl Hne).
    specialize (Hmax _ Hin). unfold agent_manager.getctime in Hmax.
    cbn [snd] in Hmax. rewrite Hsnd in Hmax. cbn [snd] in Hmax. lia. }
  rewrite Hname, Hentry in Hl. injection Hl as Hl.
  eexists. split; [reflexivity|].
  cbn [agent_py agent_history events tick add_event set_agent_py].
  rewrite <- Hl. cbn [fst]. repeat split. eexists. reflexivity.
Qed.

Lemma restore_latest_backup_returns (w : World) :
  agent_manager._restore_latest_backup w
  = (Ret tt, snd (agent_manager._restore_latest_backup w)).
Proof.
  unfold agent_manager._restore_latest_backup.
  destruct (agent_manager.glob_history "agent_*.py" w); reflexivity.
Qed.

Lemma backup_current_agent_eq (w : World) (live : string) :
  agent_py w = Some live ->
  agent_manager.backup_current_agent w
  = (Ret (agent_manager.path_join agent_manager.history_dir (backup_name w)),
     tick (add_event (EvCopy agent_manager.agent_file
                        (agent_manager.path_join agent_manager.history_dir (backup_name w)))
             (set_agent_history (insert (backup_name w) (live, clock w)) w))).
Proof.
  intros Hlive. unfold agent_manager.backup_current_agent. rewrite Hlive. reflexivity.
Qed.

(** After the backup, restoring gives the live agent of before, from any
    later world that kept the history. *)
Lemma restore_after_backup (w w3 : World) (live : string) :
  history_in_the_past w ->
  agent_history w3 = <[backup_name w := (live, clock w)]> (agent_history w) ->
  exists w' : World,
    agent_manager._restore_latest_backup w3 = (Ret tt, w')
    /\ agent_py w' = Some live
    /\ agent_history w' = agent_history w3
    /\ exists evs, events w' = events w3 ++ evs.
Proof.
  intros Hpast Hhist.
  apply (restore_latest_backup_spec w3 (backup_name w) live (clock w)).
  - rewrite Hhist. apply lookup_insert_eq.
  - apply fnmatch_agent.
  - intros name' content' ctime' Hl Hne. rewrite Hhist in Hl.
    rewrite lookup_insert_ne in Hl by congruence.
    exact (Hpast _ _ _ Hl).
Qed.

(** [save_best_agent] up to the validation of the candidate it wrote: the
    restore is reached when the validation says False or an [Exception]
    was raised, and not when the validation does not return. *)
Lemma save_best_agent_eq (agent_codes : list string) (best_index : Z) (w : World) :
  best_index <> -1 ->
  agent_manager.save_best_agent agent_codes best_index w
  = match index_Z agent_codes best_index with
    | Ret code =>
        match agent_validation.validate_agent_code (candidate_written code w) with
        | (Done (Ret true), w3) => (Done (Ret true), w3)
        | (Done (Ret false), w3) =>
            (Done (Ret false), snd (agent_manager._restore_latest_backup w3))
        | (Done (Raise _), w3) =>
            (Done (Ret false), snd (agent_manager._restore_latest_backup w3))
        | (Exits x, w3) => (Exits x, w3)
        | (Hangs, w3) => (Hangs, w3)
        end
    | Raise _ =>
        (Done (Ret false),
         snd (agent_manager._restore_latest_backup
                (snd (agent_manager.backup_current_agent w))))
    end.
Proof.
  intros Hindex.
  unfold agent_manager.save_best_agent.
  replace (best_index =? -1) with false by (symmetry; apply Z.eqb_neq; exact Hindex).
  unfold try_except_Exception, mbind, P_mbind, P_bind_, engine, lift, mret, P_mret, P_ret,
    candidate_written.
  destruct (agent_manager.backup_current_agent w) as [[path|e] w1] eqn:Hbackup.
  2:{ unfold agent_manager.backup_current_agent in Hbackup.
      destruct (agent_py w); discriminate. }
  cbn [snd].
  destruct (index_Z agent_codes best_index) as [code|e].
  2:{ rewrite restore_latest_backup_returns. reflexivity. }
  unfold agent_manager.write_agent_file at 1 2, modify. cbn [snd].
  destruct (agent_validation.validate_agent_code _) as [[[[|]|e]|x|] w3];
    try reflexivity; rewrite restore_latest_backup_returns; reflexivity.
Qed.

Lemma candidate_written_eq (code : string) (w : World) (live : string) :
  agent_py w = Some live ->
  agent_py (candidate_written code w) = Some code
  /\ agent_history (candidate_written code w)
     = <[backup_name w := (live, clock w)]> (agent_history w)
  /\ events (candidate_written code w)
     = events w
         ++ [EvCopy agent_manager.agent_file
               (agent_manager.path_join agent_manager.history_dir (backup_name w));
             EvWrite agent_manager.agent_file]
  /\ clock (candidate_written code w) = S (S (clock w)).
Proof.
  intros Hlive. unfold candidate_written.
  rewrite (backup_current_agent_eq w live Hlive).
  unfold agent_manager.write_agent_file, modify.
  cbn [snd agent_py agent_history events clock tick add_event set_agent_py set_agent_history].
  rewrite <- app_assoc. repeat split.
Qed.

(** [save_best_agent] on an index that is not negative, when the import of
    the candidate comes back and keeps to itself. *)
Lemma save_best_agent_quiet_import (agent_codes : list string) (best_index : Z)
    (w : World) (live : string) :
  agent_py w = Some live ->
  history_in_the_past w ->
  0 <= best_index ->
  (forall code, agent_codes !! Z.to_nat best_index = Some code ->
     import_ends code (candidate_written code w)
     /\ import_is_quiet code (candidate_written code w)) ->
  exists (saved : bool) (w' : World),
    agent_manager.save_best_agent agent_codes best_index w = (Done (Ret saved), w')
    /\ (exists rest,
          events w'
          = events w
              ++ EvCopy agent_manager.agent_file
                   (agent_manager.path_join agent_manager.history_dir (backup_name w))
              :: rest)
    /\ agent_history w' !! backup_name w = Some (live, clock w)
    /\ (saved = true <->
        exists code,
          agent_codes !! Z.to_nat best_index = Some code
          /\ passes_validation (candidate_written code w) = true)
    /\ (saved = true -> agent_py w' = agent_codes !! Z.to_nat best_index)
    /\ (saved = false -> agent_py w' = Some live).
Proof.
  intros Hlive Hpast Hindex Himport.
  rewrite save_best_agent_eq by lia.
  unfold index_Z, index.
  replace (0 <=? best_index) with true by (symmetry; apply Z.leb_le; exact Hindex).
  destruct (agent_codes !! Z.to_nat best_index) as [code|].
  - destruct (Himport code eq_refl) as [[r Hends] (Hqpy & Hqhist & _ & evs2 & Hqev)].
    destruct (candidate_written_eq code w live Hlive) as (Hpy2 & Hhist2 & Hev2 & _).
    set (w2 := candidate_written code w) in *.
    destruct (exec_module code w2) as [run w2'] eqn:Hexec.
    cbn [fst snd] in Hends, Hqpy, Hqhist, Hqev. subst run.
    destruct (validate_agent_code_spec w2 code r w2' Hpy2 Hexec)
      as (w3 & Hval & Hpy3 & Hhist3 & _ & evs3 & Hev3).
    rewrite Hval.
    destruct (passes_validation w2) eqn:Hpass.
    + exists true, w3. split; [reflexivity|].
      split. { eexists. rewrite Hev3, Hqev, Hev2, <- !app_assoc. reflexivity. }
      split. { rewrite Hhist3, Hqhist, Hhist2. apply lookup_insert_eq. }
      split. { split; [|reflexivity]. intros _. exists code. split; [reflexivity|exact Hpass]. }
      split; [|discriminate]. intros _. rewrite Hpy3, Hqpy. exact Hpy2.
    + destruct (restore_after_backup w w3 live Hpast) as (w4 & Hres & Hpy4 & Hhist4 & evs4 & Hev4).
      { rewrite Hhist3, Hqhist. exact Hhist2. }
      rewrite Hres. cbn [snd].
      exists false, w4. split; [reflexivity|].
      split. { eexists. rewrite Hev4, Hev3, Hqev, Hev2, <- !app_assoc. reflexivity. }
      split. { rewrite Hhist4, Hhist3, Hqhist, Hhist2. apply lookup_insert_eq. }
      split. { split; [discriminate|]. intros (code' & [= <-] & Hpass').
               unfold w2 in Hpass. congruence. }
      split; [discriminate|]. intros _. exact Hpy4.
  - rewrite (backup_current_agent_eq w live Hlive). cbn [snd].
    set (w1 := tick (add_event _ (set_agent_history _ w))).
    assert (Hhist1 : agent_history w1 = <[backup_name w := (live, clock w)]> (agent_history w))
      by reflexivity.
    assert (Hev1 : events w1
                   = events w ++ [EvCopy agent_manager.agent_file
                                    (agent_manager.path_join agent_manager.history_dir
                                       (backup_name w))]) by reflexivity.
    destruct (restore_after_backup w w1 live Hpast Hhist1)
      as (w4 & Hres & Hpy4 & Hhist4 & evs4 & Hev4).
    rewrite Hres. cbn [snd].
    exists false, w4. split; [reflexivity|].
    split. { eexists. rewrite Hev4, Hev1, <- app_assoc. reflexivity. }
    split. { rewrite Hhist4, Hhist1. apply lookup_insert_eq. }
    split. { split; [discriminate|]. intros (code' & Hcode & _). discriminate. }
    split; [discriminate|]. intros _. exact Hpy4.
Qed.

(** [save_best_agent] when the import of the candidate does not come back:
    neither does [save_best_agent], and the world is the one the import
    left, with nothing restored. *)
Lemma save_best_agent_no_return (agent_codes : list string) (best_index : Z)
    (w : World) (live code : string) (w' : World) :
  agent_py w = Some live ->
  best_index <> -1 ->
  index_Z agent_codes best_index = Ret code ->
  (forall x : PyBaseExc,
      exec_module code (candidate_written code w) = (Exits x, w') ->
      agent_manager.save_best_agent agent_codes best_index w = (Exits x, w'))
  /\ (exec_module code (candidate_written code w) = (Hangs, w') ->
      agent_manager.save_best_agent agent_codes best_index w = (Hangs, w'))
  /\ (import_is_quiet code (candidate_written code w) ->
      snd (exec_module code (candidate_written code w)) = w' ->
      agent_py w' = Some code
      /\ agent_history w' !! backup_name w = Some (live, clock w)).
Proof.
  intros Hlive Hindex Hcode.
  destruct (candidate_written_eq code w live Hlive) as (Hpy2 & Hhist2 & _).
  destruct (validate_agent_code_no_return (candidate_written code w) code w' Hpy2)
    as [Hexits Hhangs].
  split; [|split].
  - intros x Hexec. rewrite save_best_agent_eq, Hcode, (Hexits x Hexec) by exact Hindex.
    reflexivity.
  - intros Hexec. rewrite save_best_agent_eq, Hcode, (Hhangs Hexec) by exact Hindex.
    reflexivity.
  - intros (Hqpy & Hqhist & _) <-. split; [congruence|].
    rewrite Hqhist, Hhist2. apply lookup_insert_eq.
Qed.

End promotion_gate.

(** C6. The code does not hold the claim when the candidate, imported by
    the validation into the engine's own process, leaves by a SystemExit
    or does not come back: the [except Exception] of [save_best_agent]
    is not reached, [save_best_agent] does not return, nothing is
    restored and the live file stays the candidate.
    (a) When the import of the candidate comes back, with a module or an
    Exception, and leaves the live file and the history alone, the claim
    holds: on a live agent file and an index that is not negative, the
    first thing [save_best_agent] does is copy the live file to the
    history, so the backup is there before the file is overwritten; it
    returns True exactly when the candidate is there and, once written,
    passes the validation (the module loads, it has an Agent with
    select_action, learn and decay_epsilon, and the one-episode run gives
    an avg_return above -999); when it returns True the live file is the
    candidate; in every other case, a failed validation or an Exception,
    it returns False and the live file is again what it was before.
    (b) When the import leaves by an exit, or does not come back, so does
    [save_best_agent], in the world the import left: the backup is in the
    history and the live file is the candidate.
    (c) A candidate that calls sys.exit(3) at import: the call ends by
    SystemExit with the candidate as the live file; one that does not
    come back: the same, without an end; and one that removes the backups
    at import and then fails the validation: the call returns False and
    the live file is the candidate, as there is nothing to restore. *)
Theorem save_best_agent_gate :
  (forall `{PyBuiltins} `{PyHost} (agent_codes : list string) (best_index : Z)
          (w : World) (live : string),
      agent_py w = Some live ->
      history_in_the_past w ->
      0 <= best_index ->
      (forall code, agent_codes !! Z.to_nat best_index = Some code ->
         import_ends code (candidate_written code w)
         /\ import_is_quiet code (candidate_written code w)) ->
      exists (saved : bool) (w' : World),
        agent_manager.save_best_agent agent_codes best_index w = (Done (Ret saved), w')
        /\ (exists rest,
              events w'
              = events w
                  ++ EvCopy agent_manager.agent_file
                       (agent_manager.path_join agent_manager.history_dir (backup_name w))
                  :: rest)
        /\ agent_history w' !! backup_name w = Some (live, clock w)
        /\ (saved = true <->
            exists code,
              agent_codes !! Z.to_nat best_index = Some code
              /\ passes_validation (candidate_written code w) = true)
        /\ (saved = true -> agent_py w' = agent_codes !! Z.to_nat best_index)
        /\ (saved = false -> agent_py w' = Some live))
  /\ (forall `{PyBuiltins} `{PyHost} (agent_codes : list string) (best_index : Z)
             (w : World) (live code : string) (w' : World),
        agent_py w = Some live ->
        0 <= best_index ->
        agent_codes !! Z.to_nat best_index = Some code ->
        (forall x : PyBaseExc,
            exec_module code (candidate_written code w) = (Exits x, w') ->
            agent_manager.save_best_agent agent_codes best_index w = (Exits x, w'))
        /\ (exec_module code (candidate_written code w) = (Hangs, w') ->
            agent_manager.save_best_agent agent_codes best_index w = (Hangs, w'))
        /\ (import_is_quiet code (candidate_written code w) ->
            snd (exec_module code (candidate_written code w)) = w' ->
            agent_py w' = Some code
            /\ agent_history w' !! backup_name w = Some (live, clock w)))
  /\ (let w := mkWorld ∅ (Some "#!avg=1.00;") {[ "agent_0.py" := ("#!avg=0.50;", 3%nat) ]}
                 ∅ false None None ∅ 5 [] in
      let save := @agent_manager.save_best_agent Demo.builtins Demo.host in
      (fst (save ["#!sysexit"] 0 w) = Exits (SystemExit 3)
       /\ agent_py (snd (save ["#!sysexit"] 0 w)) = Some "#!sysexit"
       /\ agent_history (snd (save ["#!sysexit"] 0 w)) !! "agent_5.py"
          = Some ("#!avg=1.00;", 5%nat))
      /\ (fst (save ["#!spin"] 0 w) = Hangs
          /\ agent_py (snd (save ["#!spin"] 0 w)) = Some "#!spin")
      /\ (fst (save ["#!rmhistory #!crash"] 0 w) = Done (Ret false)
          /\ agent_py (snd (save ["#!rmhistory #!crash"] 0 w))
             = Some "#!rmhistory #!crash")).
Proof.
  split; [|split].
  - intros B P agent_codes best_index w live Hlive Hpast Hindex Himport.
    exact (save_best_agent_quiet_import agent_codes best_index w live
             Hlive Hpast Hindex Himport).
  - intros B P agent_codes best_index w live code w' Hlive Hindex Hcode.
    apply (save_best_agent_no_return agent_codes best_index w live code w' Hlive);
      [lia|].
    unfold index_Z, index.
    replace (0 <=? best_index) with true by (symmetry; apply Z.leb_le; exact Hindex).
    rewrite Hcode. reflexivity.
  - vm_compute. repeat split.
Qed.

(** C6 at work, where it holds: the winning candidate is imported without
    harm and crashes in the one-episode run, so the validation fails; by
    the theorem the call returns False and the live file is the one before
    the call. *)
Lemma save_best_agent_gate_witness :
  let w := mkWorld ∅ (Some "#!avg=1.00;") {[ "agent_0.py" := ("#!avg=0.50;", 3%nat) ]}
             ∅ false None None ∅ 5 [] in
  exists w' : World,
    @agent_manager.save_best_agent Demo.builtins Demo.host ["#!crash"] 0 w
    = (Done (Ret false), w')
    /\ agent_py w' = Some "#!avg=1.00;".
Proof.
  intros w.
  assert (Hpast : history_in_the_past w).
  { intros name content ctime Hl. unfold w in Hl |- *.
    cbn [agent_history clock] in Hl |- *.
    apply lookup_singleton_Some in Hl as [_ Hl]. injection Hl as _ <-. lia. }
  assert (Himport : forall code, ["#!crash"] !! Z.to_nat 0 = Some code ->
            @import_ends Demo.host code (@candidate_written Demo.host code w)
            /\ @import_is_quiet Demo.host code (@candidate_written Demo.host code w)).
  { intros code [= <-]. split.
    - eexists. vm_compute. reflexivity.
    - split; [vm_compute; reflexivity|]. split; [vm_compute; reflexivity|].
      split; [vm_compute; lia|]. exists []. vm_compute. reflexivity. }
  destruct (proj1 save_best_agent_gate Demo.builtins Demo.host ["#!crash"] 0 w "#!avg=1.00;"
              eq_refl Hpast ltac:(lia) Himport)
    as (saved & w' & Hsave & _ & _ & Hiff & _ & Hfalse).
  assert (Hsaved : saved = false).
  { destruct saved; [|reflexivity].
    destruct (proj1 Hiff eq_refl) as (code & Hcode & Hpass).
    injection Hcode as <-. vm_compute in Hpass. discriminate. }
  subst saved. exists w'. split; [exact Hsave|exact (Hfalse eq_refl)].
Defined.

(** ** Variant generation (C10) *)

Section variants.
Context `{PyBuiltins}.

Lemma category_not_empty (param category : string) :
  param_validation.get_parameter_category param = Some category -> category <> "".
Proof.
  assert (Hall : map_Forall (fun _ category : string => category <> "")
                   param_validation.PARAMETER_CATEGORIES).
  { apply (bool_decide_unpack _). vm_compute. exact I. }
  intros Hcat. exact (Hall _ _ Hcat).
Qed.

Lemma apply_param_changes_cons (base_config : Config) (focus_area : string)
    (param : string) (value : PyVal) (items : list (string * PyVal)) (variant : Config) :
  config_manager.apply_param_changes base_config focus_area ((param, value) :: items) variant
  = if in_focus focus_area param then
      match param_validation.validate_parameter param value base_config with
      | Raise e => Raise e
      | Ret (false, _) =>
          config_manager.apply_param_changes base_config focus_area items variant
      | Ret (true, _) =>
          match param_validation.get_parameter_category param with
          | Some category =>
              match variant !! category with
              | Some section =>
                  config_manager.apply_param_changes base_config focus_area items
                    (<[category := <[param := value]> section]> variant)
              | None =>
                  config_manager.apply_param_changes base_config focus_area items variant
              end
          | None => config_manager.apply_param_changes base_config focus_area items variant
          end
      end
    else config_manager.apply_param_changes base_config focus_area items variant.
Proof.
  cbn [config_manager.apply_param_changes]. unfold in_focus.
  destruct (String.eqb focus_area "agent"
            && negb (bool_decide (param ∈ config_manager.agent_params))); [reflexivity|].
  destruct (String.eqb focus_area "training"
            && negb (bool_decide (param ∈ config_manager.training_params))); [reflexivity|].
  cbn [negb andb].
  destruct (param_validation.validate_parameter param value base_config)
    as [[[|] msg]|e]; cbn; try reflexivity.
  destruct (param_validation.get_parameter_category param) as [category|] eqn:Hcat;
    [|reflexivity].
  apply category_not_empty, String.eqb_neq in Hcat. rewrite Hcat. reflexivity.
Qed.

Lemma param_at_insert_other (variant : Config) (category cat : string)
    (section : gmap string PyVal) (param p : string) (value : PyVal) :
  variant !! cat = Some section -> param <> p ->
  param_at (<[cat := <[p := value]> section]> variant) category param
  = param_at variant category param.
Proof.
  intros Hsec Hne. unfold param_at.
  destruct (decide (cat = category)) as [->|Hc].
  - rewrite lookup_insert_eq, Hsec. cbn. apply lookup_insert_ne. congruence.
  - rewrite lookup_insert_ne by exact Hc. reflexivity.
Qed.

(** The changes of a mapping leave every other parameter, and the set of
    sections, as they are. *)
Lemma apply_param_changes_frame (base_config : Config) (focus_area : string)
    (items : list (string * PyVal)) :
  forall (variant result : Config),
    config_manager.apply_param_changes base_config focus_area items variant = Ret result ->
    (forall category, is_Some (result !! category) <-> is_Some (variant !! category))
    /\ forall param, param ∉ items.*1 ->
         forall category, param_at result category param = param_at variant category param.
Proof.
  induction items as [|[p v] items IH]; intros variant result Hres.
  - cbn in Hres. injection Hres as <-. split; [reflexivity|]. reflexivity.
  - rewrite apply_param_changes_cons in Hres.
    assert (Hskip : config_manager.apply_param_changes base_config focus_area items variant
                    = Ret result ->
                    (forall category, is_Some (result !! category) <-> is_Some (variant !! category))
                    /\ forall param, param ∉ ((p, v) :: items).*1 ->
                         forall category,
                           param_at result category param = param_at variant category param).
    { intros Hrest. destruct (IH _ _ Hrest) as [Hsec Hother]. split; [exact Hsec|].
      intros param Hnotin. apply Hother. intros Hin. apply Hnotin. right. exact Hin. }
    destruct (in_focus focus_area p); [|exact (Hskip Hres)].
    destruct (param_validation.validate_parameter p v base_config) as [[[|] msg]|e];
      [|exact (Hskip Hres)|discriminate].
    destruct (param_validation.get_parameter_category p) as [cat|]; [|exact (Hskip Hres)].
    destruct (variant !! cat) as [section|] eqn:Hsection; [|exact (Hskip Hres)].
    destruct (IH _ _ Hres) as [Hsec Hother]. split.
    + intros category. rewrite Hsec.
      destruct (decide (cat = category)) as [<-|Hc].
      * rewrite lookup_insert_eq, Hsection. split; intros _; eexists; reflexivity.
      * rewrite lookup_insert_ne by exact Hc. reflexivity.
    + intros param Hnotin category.
      rewrite Hother by (intros Hin; apply Hnotin; right; exact Hin).
      apply param_at_insert_other; [exact Hsection|].
      intros ->. apply Hnotin. left.
Qed.

(** What one mapping does to each of its parameters. *)
Lemma apply_param_changes_spec (base_config : Config) (focus_area : string)
    (items : list (string * PyVal)) :
  forall (variant result : Config),
    config_manager.apply_param_changes base_config focus_area items variant = Ret result ->
    NoDup items.*1 ->
    forall param value, (param, value) ∈ items ->
      (change_is_valid base_config focus_area param value = true ->
       forall category,
         param_validation.get_parameter_category param = Some category ->
         is_Some (variant !! category) ->
         param_at result category param = Some value)
      /\ (change_is_valid base_config focus_area param value = false ->
          forall category, param_at result category param = param_at variant category param).
Proof.
  induction items as [|[p v] items IH]; intros variant result Hres Hnodup param value Hin.
  { apply elem_of_nil in Hin. destruct Hin. }
  cbn [fmap list_fmap fst] in Hnodup. apply NoDup_cons in Hnodup as [Hfresh Hnodup].
  rewrite apply_param_changes_cons in Hres.
  apply elem_of_cons in Hin as [[= -> ->]|Hin].
  - (* the change at the head *)
    unfold change_is_valid.
    destruct (in_focus focus_area p).
    2:{ destruct (apply_param_changes_frame _ _ _ _ _ Hres) as [_ Hother].
        split; [discriminate|]. intros _ category. apply Hother. exact Hfresh. }
    destruct (param_validation.validate_parameter p v base_config) as [[[|] msg]|e];
      cbn [andb]; [| |discriminate].
    2:{ destruct (apply_param_changes_frame _ _ _ _ _ Hres) as [_ Hother].
        split; [discriminate|]. intros _ category. apply Hother. exact Hfresh. }
    split; [|discriminate]. intros _ category Hcat [section Hsection].
    rewrite Hcat, Hsection in Hres.
    destruct (apply_param_changes_frame _ _ _ _ _ Hres) as [_ Hother].
    rewrite Hother by exact Hfresh.
    unfold param_at. rewrite lookup_insert_eq. cbn. apply lookup_insert_eq.
  - (* a change further on *)
    assert (Hne : param <> p).
    { intros ->. apply Hfresh. apply list_elem_of_fmap. exists (p, value). split; [reflexivity|exact Hin]. }
    assert (Hskip : config_manager.apply_param_changes base_config focus_area items variant
                    = Ret result ->
                    (change_is_valid base_config focus_area param value = true ->
                     forall category,
                       param_validation.get_parameter_category param = Some category ->
                       is_Some (variant !! category) ->
                       param_at result category param = Some value)
                    /\ (change_is_valid base_config focus_area param value = false ->
                        forall category,
                          param_at result category param = param_at variant category param)).
    { intros Hrest. exact (IH _ _ Hrest Hnodup _ _ Hin). }
    destruct (in_focus focus_area p); [|exact (Hskip Hres)].
    destruct (param_validation.validate_parameter p v base_config) as [[[|] msg]|e];
      [|exact (Hskip Hres)|discriminate].
    destruct (param_validation.get_parameter_category p) as [cat|]; [|exact (Hskip Hres)].
    destruct (variant !! cat) as [section|] eqn:Hsection; [|exact (Hskip Hres)].
    destruct (IH _ _ Hres Hnodup _ _ Hin) as [Hvalid Hinvalid]. split.
    + intros Hv category Hcat Hsome. apply (Hvalid Hv category Hcat).
      destruct (decide (cat = category)) as [<-|Hc].
      * rewrite lookup_insert_eq. eexists. reflexivity.
      * rewrite lookup_insert_ne by exact Hc. exact Hsome.
    + intros Hv category. rewrite (Hinvalid Hv category).
      apply param_at_insert_other; [exact Hsection|exact Hne].
Qed.

(** A mapping gives a variant as soon as none of its validations raises. *)
Lemma apply_param_changes_returns (base_config : Config) (focus_area : string)
    (items : list (string * PyVal)) :
  forall variant : Config,
    forallb (fun change => negb (change_raises base_config focus_area change)) items = true ->
    exists result,
      config_manager.apply_param_changes base_config focus_area items variant = Ret result.
Proof.
  induction items as [|[p v] items IH]; intros variant Hno.
  - eexists. reflexivity.
  - cbn [forallb] in Hno. apply andb_true_iff in Hno as [Hhead Hno].
    rewrite apply_param_changes_cons.
    unfold change_raises in Hhead. cbn [fst snd] in Hhead.
    destruct (in_focus focus_area p); [|apply IH; exact Hno].
    destruct (param_validation.validate_parameter p v base_config) as [[[|] msg]|e];
      [|apply IH; exact Hno|discriminate].
    destruct (param_validation.get_parameter_category p) as [cat|]; [|apply IH; exact Hno].
    destruct (variant !! cat) as [section|]; apply IH; exact Hno.
Qed.

Lemma generate_config_variants_spec (base_config : Config) (focus_area : string)
    (param_changes_list : list (list (string * PyVal))) :
  forall variants : list Config,
    config_manager.generate_config_variants base_config param_changes_list focus_area
    = Ret variants ->
    length variants = length param_changes_list
    /\ forall (i : nat) (items : list (string * PyVal)) (variant : Config),
         param_changes_list !! i = Some items -> variants !! i = Some variant ->
         config_manager.apply_param_changes base_config focus_area items base_config
         = Ret variant.
Proof.
  induction param_changes_list as [|items0 rest IH]; intros variants Hgen.
  - cbn in Hgen. injection Hgen as <-. split; [reflexivity|].
    intros i items variant Hi. rewrite lookup_nil in Hi. discriminate.
  - cbn [config_manager.generate_config_variants] in Hgen.
    unfold mbind, Res_bind, res_bind in Hgen.
    destruct (config_manager.apply_param_changes base_config focus_area items0 base_config)
      as [variant0|e] eqn:Hhead; [|discriminate].
    destruct (config_manager.generate_config_variants base_config rest focus_area)
      as [variants'|e] eqn:Hrest; [|discriminate].
    injection Hgen as <-. destruct (IH _ eq_refl) as [Hlen Hnth]. split.
    + cbn [length]. rewrite Hlen. reflexivity.
    + intros [|i] items variant Hi Hv; cbn in Hi, Hv.
      * injection Hi as <-. injection Hv as <-. exact Hhead.
      * exact (Hnth i items variant Hi Hv).
Qed.

Lemma generate_config_variants_returns (base_config : Config) (focus_area : string)
    (param_changes_list : list (list (string * PyVal))) :
  (forall items, items ∈ param_changes_list ->
     forallb (fun change => negb (change_raises base_config focus_area change)) items = true) ->
  exists variants,
    config_manager.generate_config_variants base_config param_changes_list focus_area
    = Ret variants.
Proof.
  induction param_changes_list as [|items0 rest IH]; intros Hno.
  - eexists. reflexivity.
  - cbn [config_manager.generate_config_variants]. unfold mbind, Res_bind, res_bind.
    destruct (apply_param_changes_returns base_config focus_area items0 base_config)
      as [variant0 ->]; [apply Hno; left|].
    destruct IH as [variants' ->]; [intros items Hin; apply Hno; right; exact Hin|].
    eexists. reflexivity.
Qed.

(** A value that is a number is compared without a TypeError, and with a
    numeric grid_size in the base configuration no validation raises. *)
Lemma numeric_change_does_not_raise (base_config : Config) (focus_area param : string)
    (value : PyVal) (size : PyVal) :
  is_Some (num_of value) ->
  param_at base_config "environment" "grid_size" = Some size ->
  is_Some (num_of size) ->
  change_raises base_config focus_area (param, value) = false.
Proof.
  intros [x Hx] Hsize [y Hy].
  unfold change_raises. cbn [fst snd].
  destruct (in_focus focus_area param); [cbn [andb]|reflexivity].
  assert (Hlt : forall v : PyVal, is_Some (num_of v) ->
                  exists b, py_lt value v = Ret b /\ exists b', py_gt value v = Ret b').
  { intros v [z Hz]. unfold py_gt, py_lt. rewrite Hx, Hz.
    destruct value, v; try discriminate; eexists; (split; [reflexivity|]);
      eexists; reflexivity. }
  assert (Hbounds : map_Forall (fun (_ : string) (bounds : PyVal * PyVal) =>
                       (param_validation.is_None (fst bounds)
                        || bool_decide (is_Some (num_of (fst bounds))))
                       && (param_validation.is_None (snd bounds)
                           || bool_decide (is_Some (num_of (snd bounds)))) = true)
                     param_validation.PARAMETER_BOUNDS).
  { apply (bool_decide_unpack _). vm_compute. exact I. }
  unfold param_validation.validate_parameter.
  destruct (param_validation.PARAMETER_BOUNDS !! param) as [[min_val max_val]|] eqn:Hb;
    [|reflexivity].
  specialize (Hbounds _ _ Hb). cbn [fst snd] in Hbounds.
  apply andb_true_iff in Hbounds as [Hmin Hmax].
  unfold mbind, Res_bind, res_bind.
  assert (Hbelow : exists b, (if param_validation.is_None min_val then Ret false
                              else py_lt value min_val) = Ret b).
  { destruct (param_validation.is_None min_val); [eexists; reflexivity|].
    cbn [orb] in Hmin. apply bool_decide_eq_true in Hmin.
    destruct (Hlt _ Hmin) as (b & -> & _). eexists. reflexivity. }
  destruct Hbelow as [[|] ->]; [reflexivity|].
  assert (Habove : exists b, (if param_validation.is_None max_val then Ret false
                              else py_gt value max_val) = Ret b).
  { destruct (param_validation.is_None max_val); [eexists; reflexivity|].
    cbn [orb] in Hmax. apply bool_decide_eq_true in Hmax.
    destruct (Hlt _ Hmax) as (_ & _ & b & ->). eexists. reflexivity. }
  destruct Habove as [[|] ->]; [reflexivity|].
  destruct (String.eqb param "n_traps"); [|reflexivity].
  unfold param_at in Hsize. unfold getitem.
  destruct (base_config !! "environment") as [environment|]; [|discriminate].
  cbn in Hsize. rewrite Hsize.
  destruct (Hlt size (ex_intro _ y Hy)) as (_ & _ & b & ->).
  destruct b; reflexivity.
Qed.

(** How a mapping ends: with a variant when none of the validations it
    reaches raises, and otherwise with the exception of the first
    validation that raises. *)
Lemma apply_param_changes_outcome (base_config : Config) (focus_area : string)
    (items : list (string * PyVal)) :
  forall variant : Config,
    match config_manager.apply_param_changes base_config focus_area items variant with
    | Ret _ =>
        forall change, change ∈ items ->
          change_raises base_config focus_area change = false
    | Raise e =>
        exists change,
          change ∈ items
          /\ in_focus focus_area (fst change) = true
          /\ param_validation.validate_parameter (fst change) (snd change) base_config
             = Raise e
    end.
Proof.
  induction items as [|[p v] items IH]; intros variant.
  - cbn. intros change Hin. apply elem_of_nil in Hin. destruct Hin.
  - rewrite apply_param_changes_cons.
    assert (Hskip : forall variant' : Config,
              change_raises base_config focus_area (p, v) = false ->
              match config_manager.apply_param_changes base_config focus_area items variant'
              with
              | Ret _ =>
                  forall change, change ∈ (p, v) :: items ->
                    change_raises base_config focus_area change = false
              | Raise e =>
                  exists change,
                    change ∈ (p, v) :: items
                    /\ in_focus focus_area (fst change) = true
                    /\ param_validation.validate_parameter (fst change) (snd change)
                         base_config = Raise e
              end).
    { intros variant' Hhead. specialize (IH variant').
      destruct (config_manager.apply_param_changes base_config focus_area items variant')
        as [result|e].
      - intros change Hin. apply elem_of_cons in Hin as [->|Hin]; [exact Hhead|].
        exact (IH _ Hin).
      - destruct IH as (change & Hin & Hfocus & Hval). exists change.
        split; [right; exact Hin|]. split; assumption. }
    unfold change_raises in Hskip. cbn [fst snd] in Hskip.
    destruct (in_focus focus_area p) eqn:Hfocus; [|apply Hskip; reflexivity].
    destruct (param_validation.validate_parameter p v base_config) as [[[|] msg]|e] eqn:Hval.
    + destruct (param_validation.get_parameter_category p) as [cat|];
        [|apply Hskip; reflexivity].
      destruct (variant !! cat); apply Hskip; reflexivity.
    + apply Hskip; reflexivity.
    + exists (p, v). split; [left|]. split; assumption.
Qed.

(** How the generation ends: with the list when no validation raises, and
    otherwise with the exception of a validation, whatever the mappings
    before it were. *)
Lemma generate_config_variants_outcome (base_config : Config) (focus_area : string)
    (param_changes_list : list (list (string * PyVal))) :
  match config_manager.generate_config_variants base_config param_changes_list focus_area
  with
  | Ret _ =>
      forall items change, items ∈ param_changes_list -> change ∈ items ->
        change_raises base_config focus_area change = false
  | Raise e =>
      exists items change,
        items ∈ param_changes_list
        /\ change ∈ items
        /\ in_focus focus_area (fst change) = true
        /\ param_validation.validate_parameter (fst change) (snd change) base_config
           = Raise e
  end.
Proof.
  induction param_changes_list as [|items0 rest IH].
  - cbn. intros items change Hin. apply elem_of_nil in Hin. destruct Hin.
  - cbn [config_manager.generate_config_variants]. unfold mbind, Res_bind, res_bind.
    pose proof (apply_param_changes_outcome base_config focus_area items0 base_config)
      as Hhead.
    destruct (config_manager.apply_param_changes base_config focus_area items0 base_config)
      as [variant0|e].
    + destruct (config_manager.generate_config_variants base_config rest focus_area)
        as [variants|e].
      * intros items change Hin Hchange.
        apply elem_of_cons in Hin as [->|Hin]; [exact (Hhead _ Hchange)|].
        exact (IH _ _ Hin Hchange).
      * destruct IH as (items & change & Hin & Hrest). exists items, change.
        split; [right; exact Hin|exact Hrest].
    + destruct Hhead as (change & Hrest). exists items0, change.
      split; [left|exact Hrest].
Qed.

End variants.

(** C10. The code does not hold the claim on a value that cannot be
    compared with a number: [validate_parameter] raises a TypeError where
    its other invalid inputs are answered with (False, message), and
    [generate_config_variants] returns no list at all.
    (a) For every base configuration, focus area and list of mappings,
    the generation returns a list exactly when no validation it reaches
    raises; when it raises, the exception is the one of a validation of a
    change in the focus area.
    (b) A list that is returned has one variant for each of the N
    mappings, none is dropped; in the variant of a mapping with distinct
    keys a change that is invalid (out of bounds, unknown, or outside the
    focus area) leaves its parameter as the base configuration has it, in
    every section, and a valid change is applied in the section of its
    parameter when the base configuration has that section, and is left
    out when it has not.
    (c) The string "0.5" for learning_rate makes [validate_parameter]
    raise the TypeError, and the generation of two mappings, the first of
    them valid, ends with it; the learning rate 5.0 and the unknown key
    with the same string are answered with False. n_traps against a
    configuration without a grid_size ends with a KeyError.
    (d) On a base configuration without the section agent, the valid
    change of gamma is not applied: the variant is the base. *)
Theorem generate_config_variants_keeps_all :
  (forall `{PyBuiltins} (base_config : Config) (focus_area : string)
          (param_changes_list : list (list (string * PyVal))),
      ((exists variants : list Config,
           config_manager.generate_config_variants base_config param_changes_list focus_area
           = Ret variants)
       <-> (forall items change, items ∈ param_changes_list -> change ∈ items ->
              change_raises base_config focus_area change = false))
      /\ (forall e : PyExc,
            config_manager.generate_config_variants base_config param_changes_list focus_area
            = Raise e ->
            exists items change,
              items ∈ param_changes_list
              /\ change ∈ items
              /\ in_focus focus_area (fst change) = true
              /\ param_validation.validate_parameter (fst change) (snd change) base_config
                 = Raise e))
  /\ (forall `{PyBuiltins} (base_config : Config) (focus_area : string)
             (param_changes_list : list (list (string * PyVal))) (variants : list Config),
        config_manager.generate_config_variants base_config param_changes_list focus_area
        = Ret variants ->
        length variants = length param_changes_list
        /\ forall (i : nat) (items : list (string * PyVal)) (variant : Config),
             param_changes_list !! i = Some items -> variants !! i = Some variant ->
             NoDup items.*1 ->
             forall param value, (param, value) ∈ items ->
               (change_is_valid base_config focus_area param value = true ->
                forall category,
                  param_validation.get_parameter_category param = Some category ->
                  (is_Some (base_config !! category) ->
                   param_at variant category param = Some value)
                  /\ (base_config !! category = None ->
                      param_at variant category param = None))
               /\ (change_is_valid base_config focus_area param value = false ->
                   forall category,
                     param_at variant category param = param_at base_config category param))
  /\ (let validate := @param_validation.validate_parameter Demo.builtins in
      let generate := @config_manager.generate_config_variants Demo.builtins in
      validate "learning_rate" (VStr "0.5") (Demo.config_noted "") = Raise TypeError
      /\ generate (Demo.config_noted "")
           [[("gamma", VFloat 0.95)]; [("learning_rate", VStr "0.5")]] "agent"
         = Raise TypeError
      /\ (exists msg,
            validate "learning_rate" (VFloat 5.0) (Demo.config_noted "") = Ret (false, msg))
      /\ validate "bogus" (VStr "0.5") (Demo.config_noted "")
         = Ret (false, "Unknown parameter 'bogus'")
      /\ validate "n_traps" (VInt 2) ∅ = Raise KeyError
      /\ generate ∅ [[("n_traps", VInt 2)]] "environment" = Raise KeyError)
  /\ (let base : Config := {[ "environment" := {[ "grid_size" := VInt 5 ]} ]} in
      @change_is_valid Demo.builtins base "agent" "gamma" (VFloat 0.95) = true
      /\ param_validation.get_parameter_category "gamma" = Some "agent"
      /\ @config_manager.generate_config_variants Demo.builtins base
           [[("gamma", VFloat 0.95)]] "agent"
         = Ret [base]).
Proof.
  split; [|split; [|split]].
  - intros B base_config focus_area param_changes_list.
    pose proof (generate_config_variants_outcome base_config focus_area param_changes_list)
      as Hout.
    destruct (config_manager.generate_config_variants base_config param_changes_list
                focus_area) as [variants|e].
    + split; [split|].
      * intros _. exact Hout.
      * intros _. exists variants. reflexivity.
      * intros e [=].
    + split; [split|].
      * intros [variants [=]].
      * intros Hno. exfalso.
        destruct Hout as (items & change & Hin & Hchange & Hfocus & Hval).
        specialize (Hno items change Hin Hchange).
        unfold change_raises in Hno. rewrite Hfocus, Hval in Hno. discriminate.
      * intros e' [= <-]. exact Hout.
  - intros B base_config focus_area param_changes_list variants Hgen.
    destruct (generate_config_variants_spec _ _ _ _ Hgen) as [Hlen Hnth].
    split; [exact Hlen|].
    intros i items variant Hi Hv Hnodup param value Hin.
    specialize (Hnth i items variant Hi Hv).
    destruct (apply_param_changes_spec _ _ _ _ _ Hnth Hnodup _ _ Hin) as [Hvalid Hinvalid].
    split; [|exact Hinvalid].
    intros Hv' category Hcat. split.
    + intros Hsome. exact (Hvalid Hv' category Hcat Hsome).
    + intros Hnone.
      destruct (apply_param_changes_frame _ _ _ _ _ Hnth) as [Hsections _].
      unfold param_at.
      destruct (variant !! category) as [section|] eqn:Hsec; [|reflexivity].
      exfalso. destruct (proj1 (Hsections category)) as [x Hx]; [eexists; exact Hsec|].
      congruence.
  - cbv zeta. split; [vm_compute; reflexivity|]. split; [vm_compute; reflexivity|].
    split; [eexists; vm_compute; reflexivity|]. repeat split; vm_compute; reflexivity.
  - vm_compute. repeat split.
Qed.

(** C10 at work, where it holds: of two mappings of numbers, the out of
    bounds learning_rate is left at the base value 0.1, gamma is applied in
    the same variant, and both variants are there. *)
Lemma generate_config_variants_keeps_all_witness :
  exists v0 v1 : Config,
    @config_manager.generate_config_variants Demo.builtins (Demo.config_noted "")
      [[("learning_rate", VFloat 5.0); ("gamma", VFloat 0.95)];
       [("bogus", VInt 1); ("episodes", VInt 200)]] "agent"
    = Ret [v0; v1]
    /\ param_at v0 "agent" "learning_rate" = Some (VFloat 0.1)
    /\ param_at v0 "agent" "gamma" = Some (VFloat 0.95).
Proof.
  destruct (proj2 (proj1 (proj1 generate_config_variants_keeps_all Demo.builtins
                            (Demo.config_noted "") "agent"
                            [[("learning_rate", VFloat 5.0); ("gamma", VFloat 0.95)];
                             [("bogus", VInt 1); ("episodes", VInt 200)]])))
    as [variants Hgen].
  - intros items change Hin Hchange.
    apply elem_of_cons in Hin as [->|Hin].
    { apply elem_of_cons in Hchange as [->|Hchange]; [vm_compute; reflexivity|].
      apply elem_of_cons in Hchange as [->|Hchange]; [vm_compute; reflexivity|].
      apply elem_of_nil in Hchange. destruct Hchange. }
    apply elem_of_cons in Hin as [->|Hin].
    { apply elem_of_cons in Hchange as [->|Hchange]; [vm_compute; reflexivity|].
      apply elem_of_cons in Hchange as [->|Hchange]; [vm_compute; reflexivity|].
      apply elem_of_nil in Hchange. destruct Hchange. }
    apply elem_of_nil in Hin. destruct Hin.
  - destruct (proj1 (proj2 generate_config_variants_keeps_all) Demo.builtins
                (Demo.config_noted "") "agent" _ variants Hgen) as [Hlen Hspec].
    destruct variants as [|v0 [|v1 [|v2 variants]]]; try discriminate.
    exists v0, v1. split; [exact Hgen|].
    assert (Hnodup : NoDup [("learning_rate", VFloat 5.0); ("gamma", VFloat 0.95)].*1).
    { apply (bool_decide_unpack _). vm_compute. exact I. }
    split.
    + destruct (Hspec 0%nat _ v0 eq_refl eq_refl Hnodup "learning_rate" (VFloat 5.0))
        as [_ Hleft]; [left|].
      rewrite (Hleft ltac:(vm_compute; reflexivity) "agent"). vm_compute. reflexivity.
    + destruct (Hspec 0%nat _ v0 eq_refl eq_refl Hnodup "gamma" (VFloat 0.95))
        as [Happlied _]; [right; left|].
      apply (Happlied ltac:(vm_compute; reflexivity) "agent");
        [vm_compute; reflexivity|eexists; vm_compute; reflexivity].
Defined.

(** ** Parameter bounds (C9) *)

(** On numbers that are not NaN, [<] is the negation of the converse [<=]. *)

Lemma SFcompare_antisym (f1 f2 : spec_float) :
  SFcompare f2 f1 = option_map CompOpp (SFcompare f1 f2).
Proof.
  destruct f1 as [s1|s1| |s1 m1 e1], f2 as [s2|s2| |s2 m2 e2]; cbn;
    try reflexivity; try (destruct s1; reflexivity); try (destruct s2; reflexivity);
    try (destruct s1, s2; reflexivity).
  destruct s1, s2; try reflexivity; rewrite (Z.compare_antisym e1 e2);
    destruct (e1 ?= e2)%Z; cbn; try reflexivity;
    rewrite (ZC4 m2 m1); destruct (Pos.compare_cont Eq m1 m2); reflexivity.
Qed.

Lemma SFcompare_none (f1 f2 : spec_float) :
  SFcompare f1 f2 = None -> f1 = S754_nan \/ f2 = S754_nan.
Proof.
  destruct f1, f2; cbn; intros Hc; try discriminate; auto.
Qed.

Lemma not_nan_Prim2SF (f : float) :
  PrimFloat.is_nan f = false -> Prim2SF f <> S754_nan.
Proof.
  unfold PrimFloat.is_nan. rewrite FloatAxioms.eqb_spec. unfold SFeqb. intros Hn Hf.
  rewrite Hf in Hn. cbn in Hn. discriminate.
Qed.

Lemma float_ltb_negb_leb (a b : float) :
  PrimFloat.is_nan a = false -> PrimFloat.is_nan b = false ->
  PrimFloat.ltb a b = negb (PrimFloat.leb b a).
Proof.
  intros Ha Hb. apply not_nan_Prim2SF in Ha, Hb.
  rewrite FloatAxioms.ltb_spec, FloatAxioms.leb_spec. unfold SFltb, SFleb.
  rewrite (SFcompare_antisym (Prim2SF a) (Prim2SF b)).
  destruct (SFcompare (Prim2SF a) (Prim2SF b)) as [[| |]|] eqn:Hc; try reflexivity.
  apply SFcompare_none in Hc as [Hc|Hc]; contradiction.
Qed.

Lemma Z_float_compare_none (z : Z) (f : float) :
  Z_float_compare z f = None -> Prim2SF f = S754_nan.
Proof.
  unfold Z_float_compare. destruct (Prim2SF f) as [s|s| |s m e]; try discriminate.
  - reflexivity.
  - destruct (0 <=? e); discriminate.
Qed.

Lemma num_lt_negb_le (x y : PyNum) :
  num_is_nan x = false -> num_is_nan y = false -> num_lt x y = negb (num_le y x).
Proof.
  destruct x as [a|a], y as [b|b]; cbn [num_is_nan num_lt num_le]; intros Hx Hy.
  - rewrite Z.ltb_antisym. reflexivity.
  - destruct (Z_float_compare a b) as [[| |]|] eqn:Hc; try reflexivity.
    apply Z_float_compare_none in Hc. apply not_nan_Prim2SF in Hy. contradiction.
  - destruct (Z_float_compare b a) as [[| |]|] eqn:Hc; try reflexivity.
    apply Z_float_compare_none in Hc. apply not_nan_Prim2SF in Hx. contradiction.
  - apply float_ltb_negb_leb; assumption.
Qed.

Lemma bounds_tables_agree :
  SPEC_BOUNDS
  = (fun bounds : PyVal * PyVal => (num_of (fst bounds), num_of (snd bounds)))
      <$> param_validation.PARAMETER_BOUNDS.
Proof. vm_compute. reflexivity. Qed.

Lemma bounds_are_numbers (key : string) (min_val max_val : PyVal) :
  param_validation.PARAMETER_BOUNDS !! key = Some (min_val, max_val) ->
  bound_ok min_val = true /\ bound_ok max_val = true.
Proof.
  assert (Hall : map_Forall (fun (_ : string) (bounds : PyVal * PyVal) =>
                    bound_ok (fst bounds) && bound_ok (snd bounds) = true)
                   param_validation.PARAMETER_BOUNDS).
  { apply (bool_decide_unpack _). vm_compute. exact I. }
  intros Hb. specialize (Hall _ _ Hb). cbn [fst snd] in Hall.
  apply andb_true_iff in Hall. exact Hall.
Qed.

Lemma below_min_spec (value min_val : PyVal) :
  not_nan value = true -> bound_ok min_val = true ->
  (if param_validation.is_None min_val then Ret false else py_lt value min_val)
  = if at_least (num_of min_val) value then Ret false
    else if bool_decide (is_Some (num_of value)) then Ret true else Raise TypeError.
Proof.
  unfold not_nan, bound_ok, at_least, py_lt. intros Hv Hb.
  destruct min_val as [|b|z|f|s]; cbn [param_validation.is_None orb num_of] in *;
    try reflexivity; try discriminate;
    (destruct value as [|vb|vz|vf|vs]; cbn [num_of] in *; try reflexivity;
     rewrite num_lt_negb_le by (cbn [num_is_nan] in *;
                                first [reflexivity | apply negb_true_iff; assumption]);
     destruct (num_le _ _); reflexivity).
Qed.

Lemma above_max_spec (value max_val : PyVal) :
  not_nan value = true -> bound_ok max_val = true ->
  (if param_validation.is_None max_val then Ret false else py_gt value max_val)
  = if at_most (num_of max_val) value then Ret false
    else if bool_decide (is_Some (num_of value)) then Ret true else Raise TypeError.
Proof.
  unfold not_nan, bound_ok, at_most, py_gt, py_lt. intros Hv Hb.
  destruct max_val as [|b|z|f|s]; cbn [param_validation.is_None orb num_of] in *;
    try reflexivity; try discriminate;
    (destruct value as [|vb|vz|vf|vs]; cbn [num_of] in *; try reflexivity;
     rewrite num_lt_negb_le by (cbn [num_is_nan] in *;
                                first [reflexivity | apply negb_true_iff; assumption]);
     destruct (num_le _ _); reflexivity).
Qed.

Lemma py_lt_numbers (a b : PyVal) (x y : PyNum) :
  num_of a = Some x -> num_of b = Some y -> py_lt a b = Ret (num_lt x y).
Proof.
  intros Ha Hb. unfold py_lt. rewrite Ha, Hb.
  destruct a, b; try discriminate; reflexivity.
Qed.

Lemma py_lt_not_a_number (a b : PyVal) (y : PyNum) :
  num_of a = None -> num_of b = Some y -> py_lt a b = Raise TypeError.
Proof.
  intros Ha Hb. unfold py_lt. rewrite Ha.
  destruct a, b; try discriminate; reflexivity.
Qed.

Section bounds.
Context `{PyBuiltins}.

(** On values that are not NaN, against a configuration whose grid_size
    is not NaN, [validate_parameter] returns valid=True exactly for a key
    of the table with a value within its bounds, n_traps being also at
    most grid_size; otherwise it returns valid=False or raises. *)
Lemma validate_parameter_in_bounds (key : string) (value : PyVal) (config : Config) :
  not_nan value = true ->
  (forall size, config !! "environment" ≫= (.!! "grid_size") = Some size ->
                not_nan size = true) ->
  (exists msg, param_validation.validate_parameter key value config = Ret (true, msg))
  <-> within_spec_bounds key value config = true.
Proof.
  intros Hvalue Hsize.
  unfold param_validation.validate_parameter, within_spec_bounds.
  rewrite bounds_tables_agree, lookup_fmap.
  destruct (param_validation.PARAMETER_BOUNDS !! key) as [[min_val max_val]|] eqn:Hb;
    cbn [fmap option_fmap option_map fst snd].
  2:{ split; [intros [msg [=]]|discriminate]. }
  destruct (bounds_are_numbers _ _ _ Hb) as [Hmin Hmax].
  unfold mbind at 1, Res_bind, res_bind.
  rewrite (below_min_spec value min_val Hvalue Hmin).
  destruct (at_least (num_of min_val) value) eqn:Hlo; cbn [andb].
  2:{ split; [|discriminate].
      destruct (bool_decide (is_Some (num_of value))); intros [msg [=]]. }
  unfold mbind at 1, Res_bind, res_bind.
  rewrite (above_max_spec value max_val Hvalue Hmax).
  destruct (at_most (num_of max_val) value) eqn:Hhi; cbn [andb].
  2:{ split; [|discriminate].
      destruct (bool_decide (is_Some (num_of value))); intros [msg [=]]. }
  destruct (String.eqb key "n_traps") eqn:Hkey.
  2:{ split; [reflexivity|]. intros _. eexists. reflexivity. }
  apply String.eqb_eq in Hkey. subst key.
  assert (Hmin0 : min_val = VInt 0).
  { vm_compute in Hb. injection Hb as <- _. reflexivity. }
  subst min_val. cbn [num_of at_least] in Hlo.
  destruct (num_of value) as [x|] eqn:Hx; [|discriminate].
  unfold getitem, mbind, Res_bind, res_bind, option_bind.
  destruct (config !! "environment") as [environment|]; cbn [mbind option_bind];
    [|split; [intros [msg [=]]|discriminate]].
  destruct (environment !! "grid_size") as [size|] eqn:Hgrid; cbn [mbind option_bind];
    [|split; [intros [msg [=]]|discriminate]].
  specialize (Hsize size Hgrid).
  unfold py_gt, at_most, not_nan in *. rewrite Hx in *.
  destruct (num_of size) as [sz|] eqn:Hsz; cbn [mbind option_bind].
  - rewrite (py_lt_numbers size value sz x Hsz Hx).
    rewrite num_lt_negb_le
      by (first [apply negb_true_iff; exact Hsize | apply negb_true_iff; exact Hvalue]).
    destruct (num_le x sz); cbn [negb]; split; try discriminate;
      try (intros [msg [=]]); try reflexivity.
    intros _. eexists. reflexivity.
  - rewrite (py_lt_not_a_number size value x Hsz Hx).
    split; [intros [msg [=]]|discriminate].
Qed.

End bounds.

Lemma unknown_parameter_is_rejected `{PyBuiltins} (key : string) (value : PyVal)
    (config : Config) :
  param_validation.PARAMETER_BOUNDS !! key = None ->
  param_validation.validate_parameter key value config
  = Ret (false, "Unknown parameter '" +:+ key +:+ "'").
Proof.
  intros Hkey. unfold param_validation.validate_parameter. rewrite Hkey. reflexivity.
Qed.

(** C9. The code does not hold the claim on a NaN, a value [json.loads]
    gives for the literal NaN: it is below no minimum and above no maximum,
    so [validate_parameter] returns valid=True for learning_rate = NaN and
    for n_traps = NaN, though a NaN lies within no bounds. *)
Theorem validate_parameter_accepts_nan :
  PrimFloat.is_nan nan = true
  /\ (PrimFloat.leb 0.01 nan = false /\ PrimFloat.leb nan 1.0 = false)
  /\ within_spec_bounds "learning_rate" (VFloat nan) (Demo.config_noted "") = false
  /\ within_spec_bounds "n_traps" (VFloat nan) (Demo.config_noted "") = false
  /\ (forall `{PyBuiltins} (config : Config),
        param_validation.validate_parameter "learning_rate" (VFloat nan) config
        = Ret (true, ""))
  /\ (forall `{PyBuiltins},
        param_validation.validate_parameter "n_traps" (VFloat nan) (Demo.config_noted "")
        = Ret (true, "")).
Proof.
  split; [reflexivity|]. split; [split; reflexivity|].
  split; [vm_compute; reflexivity|]. split; [vm_compute; reflexivity|].
  split; [intros B config|intros B]; vm_compute; reflexivity.
Qed.

(** ** The Result Protocol, read back *)

Lemma split_go_absent (c : ascii) (sep' x : string) :
  has_char c x = false ->
  forall s cur,
    split_go (String c sep') (x +:+ s) O cur = split_go (String c sep') s O (cur +:+ x).
Proof.
  induction x as [|d x IH]; intros Hx s cur.
  - cbn. rewrite string_app_nil_r. reflexivity.
  - cbn in Hx. apply orb_false_iff in Hx as [Hcd Hx].
    rewrite string_app_cons. cbn [split_go startswith]. rewrite Hcd. cbn [andb].
    rewrite IH by exact Hx. rewrite string_app_assoc. reflexivity.
Qed.

Lemma split_go_absent_end (c : ascii) (sep' x cur : string) :
  has_char c x = false ->
  split_go (String c sep') x O cur = [cur +:+ x].
Proof.
  intros Hx. rewrite <- (string_app_nil_r x) at 1.
  rewrite split_go_absent by exact Hx. reflexivity.
Qed.

Lemma split_go_at_char (c : ascii) (s cur : string) :
  split_go (String c "") (String c s) O cur = cur :: split_go (String c "") s O "".
Proof. cbn [split_go startswith]. rewrite Ascii.eqb_refl. reflexivity. Qed.

Lemma split_join_lines (x : string) (l : list string) :
  forallb (fun line => negb (has_char (ascii_of_nat 10) line)) (x :: l) = true ->
  forall cur, split_go nl (py_join nl (x :: l)) O cur = (cur +:+ x) :: l.
Proof.
  revert x. induction l as [|y l IH]; intros x Hl cur.
  - cbn in Hl. rewrite andb_true_r in Hl. apply negb_true_iff in Hl.
    cbn [py_join]. apply split_go_absent_end. exact Hl.
  - cbn [forallb] in Hl. apply andb_true_iff in Hl as [Hx Hl]. apply negb_true_iff in Hx.
    rewrite py_join_cons. unfold nl at 1.
    rewrite split_go_absent by exact Hx.
    change (nl +:+ py_join nl (y :: l))
      with (String (ascii_of_nat 10) (py_join nl (y :: l))).
    rewrite split_go_at_char. f_equal. apply (IH y Hl "").
Qed.

Lemma has_char_app (c : ascii) (x y : string) :
  has_char c (x +:+ y) = has_char c x || has_char c y.
Proof.
  induction x as [|d x IH]; [reflexivity|].
  rewrite string_app_cons. cbn [has_char]. rewrite IH, orb_assoc. reflexivity.
Qed.

Lemma plain_field_chars (s : string) :
  plain_field s = true ->
  has_char "R" s = false /\ has_char "," s = false /\ has_char "=" s = false
  /\ has_char (ascii_of_nat 10) s = false.
Proof.
  unfold plain_field. rewrite !andb_true_iff, !negb_true_iff. tauto.
Qed.

Lemma split_result_line (a b : string) :
  plain_field a = true -> plain_field b = true ->
  py_split "RESULTS: " (result_line a b)
  = [""; "avg_return=" +:+ a +:+ ", success_rate=" +:+ b].
Proof.
  intros (HaR & _)%plain_field_chars (HbR & _)%plain_field_chars.
  unfold py_split, result_line.
  change ("RESULTS: avg_return=" +:+ a +:+ ", success_rate=" +:+ b)
    with ("RESULTS: " +:+ ("avg_return=" +:+ a +:+ ", success_rate=" +:+ b)).
  set (rest := "avg_return=" +:+ a +:+ ", success_rate=" +:+ b).
  rewrite !string_app_cons. cbn [split_go startswith Ascii.eqb Bool.eqb andb String.length Nat.pred].
  change ("" +:+ rest) with rest.
  f_equal. apply (split_go_absent_end "R" "ESULTS: " rest "").
  unfold rest. rewrite !has_char_app, HaR, HbR. reflexivity.
Qed.

Lemma split_result_fields (a b : string) :
  plain_field a = true -> plain_field b = true ->
  py_split ", " ("avg_return=" +:+ a +:+ ", success_rate=" +:+ b)
  = ["avg_return=" +:+ a; "success_rate=" +:+ b].
Proof.
  intros (_ & Ha & _)%plain_field_chars (_ & Hb & _)%plain_field_chars.
  unfold py_split.
  rewrite <- (string_app_assoc "avg_return=" a).
  rewrite (split_go_absent "," " " ("avg_return=" +:+ a))
    by (rewrite has_char_app, Ha; reflexivity).
  rewrite !string_app_cons.
  cbn [split_go startswith Ascii.eqb Bool.eqb andb String.length Nat.pred].
  change ("" +:+ b) with b. change ("" +:+ ("avg_return=" +:+ a)) with ("avg_return=" +:+ a).
  f_equal. apply (split_go_absent_end "," " " ("success_rate=" +:+ b) "").
  rewrite has_char_app, Hb. reflexivity.
Qed.

Lemma split_field_value (name value : string) :
  has_char "=" name = false -> has_char "=" value = false ->
  py_split "=" (name +:+ "=" +:+ value) = [name; value].
Proof.
  intros Hn Hv. unfold py_split.
  rewrite (split_go_absent "=" "" name) by exact Hn.
  rewrite string_app_cons, split_go_at_char. change ("" +:+ name) with name.
  f_equal. apply (split_go_absent_end "=" "" value ""). exact Hv.
Qed.

Section protocol.
Context `{PyBuiltins}.

Lemma result_line_fields (a b : string) :
  plain_field a = true -> plain_field b = true ->
  avg_field (result_line a b) = py_float a /\ rate_field (result_line a b) = py_float b.
Proof.
  intros Ha Hb. unfold avg_field, rate_field.
  rewrite (split_result_line a b Ha Hb).
  cbn [lookup list_lookup mbind option_bind].
  rewrite (split_result_fields a b Ha Hb).
  destruct (plain_field_chars a Ha) as (_ & _ & Ha' & _).
  destruct (plain_field_chars b Hb) as (_ & _ & Hb' & _).
  cbn [lookup list_lookup mbind option_bind].
  change ("avg_return=" +:+ a) with ("avg_return" +:+ "=" +:+ a).
  change ("success_rate=" +:+ b) with ("success_rate" +:+ "=" +:+ b).
  rewrite (split_field_value "avg_return" a), (split_field_value "success_rate" b)
    by first [exact Ha' | exact Hb' | reflexivity].
  split; reflexivity.
Qed.

Lemma parse_lines_first_result (before after : list string) (line : string)
    (x y : float) :
  forallb passed_over before = true ->
  startswith "RESULTS:" line = true ->
  two_floats line = Some (x, y) ->
  forall locals, test_runner.parse_lines (before ++ line :: after) locals = (x, y).
Proof.
  intros Hb Hs Hl. induction before as [|l before IH]; intros locals.
  - cbn [app test_runner.parse_lines]. rewrite Hs, parse_results_line_eq.
    unfold two_floats in Hl.
    destruct (avg_field line) as [a|]; [|discriminate].
    destruct (rate_field line) as [s|]; [|discriminate].
    cbn in Hl. injection Hl as -> ->. reflexivity.
  - cbn [forallb] in Hb. apply andb_true_iff in Hb as [Hl0 Hb].
    cbn [app test_runner.parse_lines].
    unfold passed_over in Hl0.
    destruct (startswith "RESULTS:" l) eqn:Hsl; [|apply IH; exact Hb].
    cbn [negb orb] in Hl0. rewrite parse_results_line_eq.
    destruct (avg_field l); [discriminate|]. apply IH; exact Hb.
Qed.

End protocol.

(** X1. The Result Protocol round trip: when the output of the child has
    the result line with the texts [a] and [b] of the two numbers, after
    lines the parser passes over, [_parse_test_output] returns the floats
    of [a] and [b], whatever comes after that line. *)
Theorem parse_test_output_round_trip `{PyBuiltins}
    (before after : list string) (a b : string) (x y : float) :
  forallb (fun line => negb (has_char (ascii_of_nat 10) line)) (before ++ after) = true ->
  forallb passed_over before = true ->
  plain_field a = true -> plain_field b = true ->
  py_float a = Some x -> py_float b = Some y ->
  test_runner._parse_test_output (py_join nl (before ++ result_line a b :: after)) = (x, y).
Proof.
  intros Hnl Hb Ha Hb' Hx Hy.
  unfold test_runner._parse_test_output, py_split.
  assert (Hlines : forallb (fun line => negb (has_char (ascii_of_nat 10) line))
                     (before ++ result_line a b :: after) = true).
  { rewrite forallb_app in Hnl |- *. apply andb_true_iff in Hnl as [H1 H2].
    rewrite H1. cbn [forallb andb]. rewrite H2, andb_true_r.
    destruct (plain_field_chars a Ha) as (_ & _ & _ & Ha').
    destruct (plain_field_chars b Hb') as (_ & _ & _ & Hb'').
    unfold result_line. rewrite !has_char_app, Ha', Hb''. reflexivity. }
  destruct (before ++ result_line a b :: after) as [|l0 ls] eqn:Heq.
  { destruct before; discriminate. }
  rewrite (split_join_lines l0 ls Hlines ""). change ("" +:+ l0) with l0.
  rewrite <- Heq.
  destruct (result_line_fields a b Ha Hb') as [Hfa Hfb].
  apply parse_lines_first_result; [exact Hb|reflexivity|].
  unfold two_floats. rewrite Hfa, Hfb, Hx, Hy. reflexivity.
Qed.

(** The crash line of the generated program reads back as the sentinel,
    and an ordinary result after the prints of an agent as its two numbers. *)
Lemma parse_test_output_round_trip_witness :
  @test_runner._parse_test_output Demo.builtins
    (py_join nl (["episode 1 done"; "RESULTS: none yet"] ++ result_line "1.250" "0.500" :: [""]))
  = (1.25%float, 0.5%float).
Proof.
  apply (@parse_test_output_round_trip Demo.builtins
           ["episode 1 done"; "RESULTS: none yet"] [""] "1.250" "0.500");
    vm_compute; reflexivity.
Defined.

(** ** Parameters, sections and the focus area *)

(** X. The two tables of param_validation and the focus sets of the
    ConfigManager agree: the agent parameters are the parameters of the
    section agent, the training parameters those of the section training,
    a parameter has bounds exactly when it has a section, and every
    section is one of the five the flat configuration is made of. *)
Theorem focus_sets_agree_with_categories (param : string) :
  (param ∈ config_manager.agent_params
   <-> param_validation.get_parameter_category param = Some "agent")
  /\ (param ∈ config_manager.training_params
      <-> param_validation.get_parameter_category param = Some "training")
  /\ (is_Some (param_validation.PARAMETER_BOUNDS !! param)
      <-> is_Some (param_validation.get_parameter_category param))
  /\ (forall category,
        param_validation.get_parameter_category param = Some category ->
        category ∈ ["environment"; "rewards"; "agent"; "training"; "system"]).
Proof.
  unfold param_validation.get_parameter_category.
  assert (Hagent : set_Forall (fun k => param_validation.PARAMETER_CATEGORIES !! k = Some "agent")
                     config_manager.agent_params).
  { apply (bool_decide_unpack _). vm_compute. exact I. }
  assert (Htraining : set_Forall
                        (fun k => param_validation.PARAMETER_CATEGORIES !! k = Some "training")
                        config_manager.training_params).
  { apply (bool_decide_unpack _). vm_compute. exact I. }
  assert (Hcat : map_Forall (fun (k : string) (category : string) =>
                    (category = "agent" -> k ∈ config_manager.agent_params)
                    /\ (category = "training" -> k ∈ config_manager.training_params)
                    /\ category ∈ ["environment"; "rewards"; "agent"; "training"; "system"])
                   param_validation.PARAMETER_CATEGORIES).
  { apply (bool_decide_unpack _). vm_compute. exact I. }
  assert (Hdom : dom param_validation.PARAMETER_BOUNDS
                 = dom param_validation.PARAMETER_CATEGORIES).
  { apply (bool_decide_unpack _). vm_compute. exact I. }
  repeat split.
  - apply Hagent.
  - intros Hp. exact (proj1 (Hcat _ _ Hp) eq_refl).
  - apply Htraining.
  - intros Hp. exact (proj1 (proj2 (Hcat _ _ Hp)) eq_refl).
  - intros Hb. apply elem_of_dom. rewrite <- Hdom. apply elem_of_dom. exact Hb.
  - intros Hb. apply elem_of_dom. rewrite Hdom. apply elem_of_dom. exact Hb.
  - intros category Hp. exact (proj2 (proj2 (Hcat _ _ Hp))).
Qed.

Section variants_more.
Context `{PyBuiltins}.

Lemma param_at_insert (variant : Config) (cat category : string)
    (section : gmap string PyVal) (p param : string) (value : PyVal) :
  variant !! cat = Some section ->
  param_at (<[cat := <[p := value]> section]> variant) category param
  = if bool_decide (category = cat /\ param = p) then Some value
    else param_at variant category param.
Proof.
  intros Hsec. unfold param_at.
  destruct (decide (category = cat)) as [->|Hc].
  - rewrite lookup_insert_eq. cbn.
    destruct (decide (param = p)) as [->|Hp].
    + rewrite lookup_insert_eq, bool_decide_eq_true_2 by (split; reflexivity). reflexivity.
    + rewrite lookup_insert_ne by congruence.
      rewrite bool_decide_eq_false_2 by (intros [_ ?]; congruence).
      rewrite Hsec. reflexivity.
  - rewrite lookup_insert_ne by congruence.
    rewrite bool_decide_eq_false_2 by (intros [? _]; congruence). reflexivity.
Qed.

Lemma in_focus_category (focus_area param category : string) :
  focus_area = "agent" \/ focus_area = "training" ->
  in_focus focus_area param = true ->
  param_validation.get_parameter_category param = Some category ->
  category = focus_area.
Proof.
  assert (Hcat : map_Forall (fun (k : string) (category : string) =>
                    (k ∈ config_manager.agent_params -> category = "agent")
                    /\ (k ∈ config_manager.training_params -> category = "training"))
                   param_validation.PARAMETER_CATEGORIES).
  { apply (bool_decide_unpack _). vm_compute. exact I. }
  intros Hfocus Hin Hp. destruct (Hcat _ _ Hp) as [Hagent Htraining].
  unfold in_focus in Hin.
  destruct Hfocus as [-> | ->]; cbn in Hin.
  - rewrite andb_true_r in Hin. apply negb_true_iff, negb_false_iff in Hin.
    apply bool_decide_eq_true in Hin. auto.
  - apply negb_true_iff, negb_false_iff in Hin.
    apply bool_decide_eq_true in Hin. auto.
Qed.

(** Where the result of one mapping differs from what it started from, a
    valid change of the mapping put the value there, in the section of
    its parameter; nothing is removed. *)
Lemma apply_param_changes_sound (base_config : Config) (focus_area : string)
    (items : list (string * PyVal)) :
  forall (variant result : Config),
    config_manager.apply_param_changes base_config focus_area items variant = Ret result ->
    (forall category param v,
        param_at result category param = Some v ->
        param_at variant category param = Some v
        \/ ((param, v) ∈ items
            /\ change_is_valid base_config focus_area param v = true
            /\ param_validation.get_parameter_category param = Some category))
    /\ (forall category param,
          is_Some (param_at variant category param) ->
          is_Some (param_at result category param)).
Proof.
  induction items as [|[p v] items IH]; intros variant result Hres.
  { cbn in Hres. injection Hres as <-. split; [intros; left; assumption|intros; assumption]. }
  rewrite apply_param_changes_cons in Hres.
  assert (Hskip : config_manager.apply_param_changes base_config focus_area items variant
                  = Ret result ->
                  (forall category param v0,
                      param_at result category param = Some v0 ->
                      param_at variant category param = Some v0
                      \/ ((param, v0) ∈ (p, v) :: items
                          /\ change_is_valid base_config focus_area param v0 = true
                          /\ param_validation.get_parameter_category param = Some category))
                  /\ (forall category param,
                        is_Some (param_at variant category param) ->
                        is_Some (param_at result category param))).
  { intros Hrest. destruct (IH _ _ Hrest) as [Hsound Hkeep]. split; [|exact Hkeep].
    intros category param v0 Hv0.
    destruct (Hsound _ _ _ Hv0) as [?|(Hin & ? & ?)]; [left; assumption|].
    right. split; [right; exact Hin|]. split; assumption. }
  destruct (in_focus focus_area p) eqn:Hfocus; [|exact (Hskip Hres)].
  destruct (param_validation.validate_parameter p v base_config) as [[[|] msg]|e] eqn:Hvalid;
    [|exact (Hskip Hres)|discriminate].
  destruct (param_validation.get_parameter_category p) as [cat|] eqn:Hcat;
    [|exact (Hskip Hres)].
  destruct (variant !! cat) as [section|] eqn:Hsection; [|exact (Hskip Hres)].
  destruct (IH _ _ Hres) as [Hsound Hkeep]. split.
  - intros category param v0 Hv0.
    destruct (Hsound _ _ _ Hv0) as [Hold|(Hin & ? & ?)].
    + rewrite (param_at_insert _ _ _ _ _ _ _ Hsection) in Hold.
      destruct (bool_decide (category = cat /\ param = p)) eqn:Hhere.
      * apply bool_decide_eq_true in Hhere as [-> ->]. injection Hold as <-.
        right. split; [left|]. split; [|exact Hcat].
        unfold change_is_valid. rewrite Hfocus, Hvalid. reflexivity.
      * left. exact Hold.
    + right. split; [right; exact Hin|]. split; assumption.
  - intros category param Hsome. apply Hkeep.
    rewrite (param_at_insert _ _ _ _ _ _ _ Hsection).
    destruct (bool_decide (category = cat /\ param = p)); [eexists; reflexivity|exact Hsome].
Qed.

(** With the focus on the section agent or training, one mapping changes
    nothing outside that section. *)
Lemma apply_param_changes_in_focus (base_config : Config) (focus_area : string)
    (items : list (string * PyVal)) :
  focus_area = "agent" \/ focus_area = "training" ->
  forall (variant result : Config),
    config_manager.apply_param_changes base_config focus_area items variant = Ret result ->
    forall category, category <> focus_area -> result !! category = variant !! category.
Proof.
  intros Hfocus.
  induction items as [|[p v] items IH]; intros variant result Hres category Hne.
  { cbn in Hres. injection Hres as <-. reflexivity. }
  rewrite apply_param_changes_cons in Hres.
  destruct (in_focus focus_area p) eqn:Hin; [|exact (IH _ _ Hres _ Hne)].
  destruct (param_validation.validate_parameter p v base_config) as [[[|] msg]|e];
    [|exact (IH _ _ Hres _ Hne)|discriminate].
  destruct (param_validation.get_parameter_category p) as [cat|] eqn:Hcat;
    [|exact (IH _ _ Hres _ Hne)].
  destruct (variant !! cat) as [section|] eqn:Hsection; [|exact (IH _ _ Hres _ Hne)].
  rewrite (IH _ _ Hres _ Hne).
  rewrite (in_focus_category _ _ _ Hfocus Hin Hcat). apply lookup_insert_ne. congruence.
Qed.

End variants_more.

(** X. A variant differs from the base configuration only by valid
    changes of its own mapping: it has the sections of the base, it keeps
    every parameter of the base, and a value that is not the value of the
    base was asked for by the mapping, passed the focus filter and
    [validate_parameter], and sits in the section of its parameter. *)
Theorem variants_differ_by_valid_changes `{PyBuiltins}
    (base_config : Config) (focus_area : string)
    (param_changes_list : list (list (string * PyVal))) (variants : list Config)
    (i : nat) (items : list (string * PyVal)) (variant : Config) :
  config_manager.generate_config_variants base_config param_changes_list focus_area
  = Ret variants ->
  param_changes_list !! i = Some items ->
  variants !! i = Some variant ->
  (forall category, is_Some (variant !! category) <-> is_Some (base_config !! category))
  /\ (forall category param,
        is_Some (param_at base_config category param) ->
        is_Some (param_at variant category param))
  /\ (forall category param v,
        param_at variant category param = Some v ->
        param_at base_config category param = Some v
        \/ ((param, v) ∈ items
            /\ change_is_valid base_config focus_area param v = true
            /\ param_validation.get_parameter_category param = Some category)).
Proof.
  intros Hgen Hitems Hvariant.
  destruct (generate_config_variants_spec _ _ _ _ Hgen) as [_ Hnth].
  specialize (Hnth _ _ _ Hitems Hvariant).
  destruct (apply_param_changes_frame _ _ _ _ _ Hnth) as [Hsections _].
  destruct (apply_param_changes_sound _ _ _ _ _ Hnth) as [Hsound Hkeep].
  split; [exact Hsections|]. split; [exact Hkeep|exact Hsound].
Qed.

Lemma variants_differ_by_valid_changes_witness :
  let base_config := Demo.config_noted "" in
  let items := [("gamma", VFloat 0.95); ("gamma", VFloat 7.0); ("episodes", VInt 200)] in
  let variant :=
    <["agent" := {[ "learning_rate" := VFloat 0.1; "gamma" := VFloat 0.95 ]}]> base_config in
  (forall category, is_Some (variant !! category) <-> is_Some (base_config !! category))
  /\ (forall category param,
        is_Some (param_at base_config category param) ->
        is_Some (param_at variant category param))
  /\ (forall category param v,
        param_at variant category param = Some v ->
        param_at base_config category param = Some v
        \/ ((param, v) ∈ items
            /\ @change_is_valid Demo.builtins base_config "agent" param v = true
            /\ param_validation.get_parameter_category param = Some category)).
Proof.
  apply (@variants_differ_by_valid_changes Demo.builtins (Demo.config_noted "") "agent"
           [[("gamma", VFloat 0.95); ("gamma", VFloat 7.0); ("episodes", VInt 200)]]
           [ <["agent" := {[ "learning_rate" := VFloat 0.1; "gamma" := VFloat 0.95 ]}]>
               (Demo.config_noted "") ] 0); reflexivity.
Defined.

(** X. With the focus on agent or on training, a variant is the base
    configuration outside the section of that name. *)
Theorem variants_stay_in_focus `{PyBuiltins}
    (base_config : Config) (focus_area : string)
    (param_changes_list : list (list (string * PyVal))) (variants : list Config) :
  focus_area = "agent" \/ focus_area = "training" ->
  config_manager.generate_config_variants base_config param_changes_list focus_area
  = Ret variants ->
  forall variant, variant ∈ variants ->
    forall category, category <> focus_area -> variant !! category = base_config !! category.
Proof.
  intros Hfocus Hgen variant Hin category Hne.
  apply list_elem_of_lookup in Hin as [i Hi].
  destruct (generate_config_variants_spec _ _ _ _ Hgen) as [Hlen Hnth].
  destruct (param_changes_list !! i) as [items|] eqn:Hitems.
  - exact (apply_param_changes_in_focus _ _ _ Hfocus _ _ (Hnth _ _ _ Hitems Hi) _ Hne).
  - apply lookup_ge_None in Hitems. apply lookup_lt_Some in Hi. lia.
Qed.

Lemma variants_stay_in_focus_witness :
  (<["training" := {[ "episodes" := VInt 200 ]}]> (Demo.config_noted "")) !! "agent"
  = Demo.config_noted "" !! "agent".
Proof.
  apply (@variants_stay_in_focus Demo.builtins (Demo.config_noted "") "training"
           [[("gamma", VFloat 0.95); ("episodes", VInt 200)]]
           [ <["training" := {[ "episodes" := VInt 200 ]}]> (Demo.config_noted "") ]).
  - right. reflexivity.
  - reflexivity.
  - left.
  - discriminate.
Defined.

(** ** What [validate_parameter] can raise *)

Lemma py_lt_raises (a b : PyVal) (e : PyExc) :
  py_lt a b = Raise e -> e = TypeError /\ (num_of a = None \/ num_of b = None).
Proof.
  unfold py_lt. destruct a, b; cbn; intros Hr; try discriminate;
    injection Hr as <-; (split; [reflexivity|]); auto.
Qed.

(** X. [validate_parameter] raises nothing but a TypeError or a KeyError.
    A TypeError is a value that is not a number (for a parameter with
    bounds), or, for n_traps, a grid_size of the configuration that is not
    a number; a KeyError is, for n_traps, a configuration with no
    grid_size in its section environment. *)
Theorem validate_parameter_raises_only `{PyBuiltins}
    (key : string) (value : PyVal) (config : Config) (e : PyExc) :
  param_validation.validate_parameter key value config = Raise e ->
  (e = TypeError
   /\ (num_of value = None
       \/ (key = "n_traps"
           /\ exists size, param_at config "environment" "grid_size" = Some size
                           /\ num_of size = None)))
  \/ (e = KeyError /\ key = "n_traps"
      /\ param_at config "environment" "grid_size" = None).
Proof.
  assert (Hbounds : map_Forall (fun (_ : string) (bounds : PyVal * PyVal) =>
                       (param_validation.is_None (fst bounds)
                        || bool_decide (is_Some (num_of (fst bounds))))
                       && (param_validation.is_None (snd bounds)
                           || bool_decide (is_Some (num_of (snd bounds)))) = true)
                     param_validation.PARAMETER_BOUNDS).
  { apply (bool_decide_unpack _). vm_compute. exact I. }
  unfold param_validation.validate_parameter.
  destruct (param_validation.PARAMETER_BOUNDS !! key) as [[min_val max_val]|] eqn:Hb;
    [|discriminate].
  specialize (Hbounds _ _ Hb). cbn [fst snd] in Hbounds.
  apply andb_true_iff in Hbounds as [Hmin Hmax].
  unfold mbind, Res_bind, res_bind.
  assert (Hvalue : forall bound r,
            param_validation.is_None bound || bool_decide (is_Some (num_of bound)) = true ->
            (if param_validation.is_None bound then Ret false else r) = Raise e ->
            (r = py_lt value bound \/ r = py_gt value bound) ->
            e = TypeError /\ num_of value = None).
  { intros bound r Hok Hr Hcmp.
    destruct (param_validation.is_None bound); [discriminate|].
    cbn [orb] in Hok. apply bool_decide_eq_true in Hok as [x Hx].
    destruct Hcmp as [-> | ->]; apply py_lt_raises in Hr as [-> [Hn|Hn]];
      (split; [reflexivity|]); congruence. }
  destruct (if param_validation.is_None min_val then Ret false else py_lt value min_val)
    as [[|]|e1] eqn:Hbelow; [discriminate| |].
  2:{ intros [= ->]. left. destruct (Hvalue _ _ Hmin Hbelow (or_introl eq_refl)) as [-> Hn].
      split; [reflexivity|]. left. exact Hn. }
  destruct (if param_validation.is_None max_val then Ret false else py_gt value max_val)
    as [[|]|e2] eqn:Habove; [discriminate| |].
  2:{ intros [= ->]. left. destruct (Hvalue _ _ Hmax Habove (or_intror eq_refl)) as [-> Hn].
      split; [reflexivity|]. left. exact Hn. }
  destruct (String.eqb key "n_traps") eqn:Hkey; [|discriminate].
  apply String.eqb_eq in Hkey. unfold getitem, param_at.
  destruct (config !! "environment") as [environment|]; cbn.
  2:{ intros [= <-]. right. auto. }
  destruct (environment !! "grid_size") as [size|]; cbn.
  2:{ intros [= <-]. right. auto. }
  destruct (py_gt value size) as [[|]|e3] eqn:Hgt; [discriminate|discriminate|].
  intros [= ->]. apply py_lt_raises in Hgt as [-> [Hn|Hn]]; left; (split; [reflexivity|]).
  - right. split; [exact Hkey|]. exists size. auto.
  - left. exact Hn.
Qed.

Lemma validate_parameter_raises_only_witness :
  (TypeError = TypeError
   /\ (num_of (VStr "0.5") = None
       \/ ("learning_rate" = "n_traps"
           /\ exists size, param_at (Demo.config_noted "") "environment" "grid_size" = Some size
                           /\ num_of size = None)))
  \/ (TypeError = KeyError /\ "learning_rate" = "n_traps"
      /\ param_at (Demo.config_noted "") "environment" "grid_size" = None).
Proof.
  apply (@validate_parameter_raises_only Demo.builtins "learning_rate" (VStr "0.5")
           (Demo.config_noted "") TypeError).
  vm_compute. reflexivity.
Defined.

(** The characterization of [validate_parameter] by the bounds, on an
    n_traps of 3 for a grid of 5. *)
Lemma validate_parameter_in_bounds_witness :
  exists msg,
    @param_validation.validate_parameter Demo.builtins "n_traps" (VInt 3) (Demo.config_noted "")
    = Ret (true, msg).
Proof.
  apply (@validate_parameter_in_bounds Demo.builtins "n_traps" (VInt 3) (Demo.config_noted "")).
  - reflexivity.
  - intros size Hsize. vm_compute in Hsize. injection Hsize as <-. reflexivity.
  - vm_compute. reflexivity.
Defined.

(** X. n_traps is checked against the grid_size of the base
    configuration, not of the variant: a mapping that shrinks the grid to
    [g] and asks for [t] traps, [g < t], is applied in full whenever [t]
    fits the base grid, and the variant it gives is one whose own n_traps
    [validate_parameter] rejects. *)
Theorem n_traps_is_checked_against_the_base `{PyBuiltins}
    (base_config : Config) (environment : gmap string PyVal) (focus_area : string)
    (size g t : Z) :
  base_config !! "environment" = Some environment ->
  environment !! "grid_size" = Some (VInt size) ->
  focus_area <> "agent" -> focus_area <> "training" ->
  1 <= g <= 10 -> g < t <= size ->
  exists variant,
    config_manager.generate_config_variants base_config
      [[("grid_size", VInt g); ("n_traps", VInt t)]] focus_area
    = Ret [variant]
    /\ param_at variant "environment" "grid_size" = Some (VInt g)
    /\ param_at variant "environment" "n_traps" = Some (VInt t)
    /\ param_validation.validate_parameter "n_traps" (VInt t) variant
       = Ret (false, param_validation.too_high_msg (VInt t) (VInt g) (VInt g)).
Proof.
  intros Henv Hsize Hagent Htraining Hg Ht.
  assert (Hfocus : forall p, in_focus focus_area p = true).
  { intros p. unfold in_focus.
    apply String.eqb_neq in Hagent, Htraining. rewrite Hagent, Htraining. reflexivity. }
  assert (Hgrid : param_validation.validate_parameter "grid_size" (VInt g) base_config
                  = Ret (true, "")).
  { unfold param_validation.validate_parameter.
    change (param_validation.PARAMETER_BOUNDS !! "grid_size") with (Some (VInt 1, VInt 10)).
    cbn. destruct (Z.ltb_spec g 1); [lia|]. destruct (Z.ltb_spec 10 g); [lia|]. reflexivity. }
  assert (Htraps : forall (config : Config) (env : gmap string PyVal) (s : Z),
             config !! "environment" = Some env -> env !! "grid_size" = Some (VInt s) ->
             param_validation.validate_parameter "n_traps" (VInt t) config
             = if s <? t then Ret (false, param_validation.too_high_msg (VInt t) (VInt s) (VInt s))
               else Ret (true, "")).
  { intros config env s Hc He. unfold param_validation.validate_parameter.
    change (param_validation.PARAMETER_BOUNDS !! "n_traps") with (Some (VInt 0, VNone)).
    cbn. destruct (Z.ltb_spec t 0); [lia|]. unfold getitem. rewrite Hc. cbn. rewrite He. cbn.
    destruct (s <? t); reflexivity. }
  eexists. split.
  - cbn [config_manager.generate_config_variants].
    rewrite (apply_param_changes_cons base_config focus_area "grid_size").
    rewrite Hfocus, Hgrid.
    change (param_validation.get_parameter_category "grid_size") with (Some "environment").
    cbn beta iota. rewrite Henv.
    rewrite (apply_param_changes_cons base_config focus_area "n_traps").
    rewrite Hfocus, (Htraps _ _ _ Henv Hsize).
    destruct (Z.ltb_spec size t); [lia|].
    change (param_validation.get_parameter_category "n_traps") with (Some "environment").
    cbn beta iota. rewrite lookup_insert_eq. cbn. reflexivity.
  - unfold param_at. rewrite !lookup_insert_eq. cbn.
    rewrite lookup_insert_ne by discriminate. rewrite !lookup_insert_eq.
    split; [reflexivity|]. split; [reflexivity|].
    erewrite Htraps; [|apply lookup_insert_eq|].
    2:{ rewrite lookup_insert_ne by discriminate. apply lookup_insert_eq. }
    destruct (Z.ltb_spec g t); [reflexivity|lia].
Qed.

Lemma n_traps_is_checked_against_the_base_witness :
  exists variant,
    @config_manager.generate_config_variants Demo.builtins (Demo.config_noted "")
      [[("grid_size", VInt 2); ("n_traps", VInt 4)]] "environment"
    = Ret [variant]
    /\ param_at variant "environment" "grid_size" = Some (VInt 2)
    /\ param_at variant "environment" "n_traps" = Some (VInt 4)
    /\ @param_validation.validate_parameter Demo.builtins "n_traps" (VInt 4) variant
       = Ret (false, @param_validation.too_high_msg Demo.builtins (VInt 4) (VInt 2) (VInt 2)).
Proof.
  apply (@n_traps_is_checked_against_the_base Demo.builtins (Demo.config_noted "")
           {[ "grid_size" := VInt 5; "n_traps" := VInt 2 ]} "environment" 5 2 4);
    first [reflexivity | discriminate | lia].
Defined.

(** ** The history of the agent *)

Lemma insert_by_desc_perm {A : Type} (key : A -> nat) (x : A) (l : list A) :
  insert_by_desc key x l ≡ₚ x :: l.
Proof.
  induction l as [|y l IH]; [reflexivity|]. cbn [insert_by_desc].
  destruct (key y <=? key x)%nat; [reflexivity|].
  rewrite IH. apply Permutation_swap.
Qed.

Lemma py_sorted_by_desc_perm {A : Type} (key : A -> nat) (l : list A) :
  py_sorted_by_desc key l ≡ₚ l.
Proof.
  induction l as [|x l IH]; [reflexivity|]. cbn [py_sorted_by_desc].
  rewrite insert_by_desc_perm, IH. reflexivity.
Qed.

Lemma insert_by_desc_sorted {A : Type} (key : A -> nat) (x : A) (l : list A) :
  StronglySorted (fun a b => (key b <= key a)%nat) l ->
  StronglySorted (fun a b => (key b <= key a)%nat) (insert_by_desc key x l).
Proof.
  induction l as [|y l IH]; intros Hs; cbn [insert_by_desc].
  - constructor; [constructor|constructor].
  - apply StronglySorted_inv in Hs as [Hs Hall].
    destruct (key y <=? key x)%nat eqn:Hle.
    + apply Nat.leb_le in Hle. constructor.
      * constructor; assumption.
      * constructor; [exact Hle|]. eapply Forall_impl; [exact Hall|].
        intros z Hz. cbn in Hz. lia.
    + apply Nat.leb_gt in Hle. constructor; [apply IH; exact Hs|].
      rewrite insert_by_desc_perm. constructor; [lia|exact Hall].
Qed.

Lemma py_sorted_by_desc_sorted {A : Type} (key : A -> nat) (l : list A) :
  StronglySorted (fun a b => (key b <= key a)%nat) (py_sorted_by_desc key l).
Proof.
  induction l as [|x l IH]; [constructor|].
  cbn [py_sorted_by_desc]. apply insert_by_desc_sorted. exact IH.
Qed.

(** The head of the sorted list, computed from the right. *)
Lemma head_insert_by_desc {A : Type} (key : A -> nat) (x : A) (l : list A) :
  head (insert_by_desc key x l)
  = Some (match head l with
          | Some h => if (key h <=? key x)%nat then x else h
          | None => x
          end).
Proof.
  destruct l as [|y l]; [reflexivity|]. cbn [insert_by_desc head].
  destruct (key y <=? key x)%nat; reflexivity.
Qed.

Lemma head_sorted_snoc {A : Type} (key : A -> nat) (l : list A) (y : A) :
  head (py_sorted_by_desc key (l ++ [y]))
  = Some (match head (py_sorted_by_desc key l) with
          | Some b => if (key b <? key y)%nat then y else b
          | None => y
          end).
Proof.
  induction l as [|z l IH]; [reflexivity|].
  cbn [app py_sorted_by_desc]. rewrite !head_insert_by_desc, IH.
  destruct (head (py_sorted_by_desc key l)) as [h|]; f_equal;
    repeat match goal with
           | |- context [(?a <? ?b)%nat] => destruct (Nat.ltb_spec a b)
           | |- context [(?a <=? ?b)%nat] => destruct (Nat.leb_spec a b)
           | H : context [(?a <? ?b)%nat] |- _ => destruct (Nat.ltb_spec a b)
           | H : context [(?a <=? ?b)%nat] |- _ => destruct (Nat.leb_spec a b)
           end;
    first [reflexivity | lia].
Qed.

(** [sorted(l, key=key, reverse=True)[0]] is [max(l, key=key)]. *)
Lemma head_sorted_is_max {A : Type} (key : A -> nat) (x : A) (l : list A) :
  head (py_sorted_by_desc key (x :: l)) = Some (py_max_by key x l).
Proof.
  induction l as [|y l IH] using rev_ind; [reflexivity|].
  rewrite app_comm_cons, head_sorted_snoc, IH.
  unfold py_max_by. rewrite fold_left_app. reflexivity.
Qed.

Section history.
Context `{PyBuiltins} `{PyHost}.

Lemma glob_history_lookup (pattern : string) (w : World) (entry : string * (string * nat)) :
  entry ∈ agent_manager.glob_history pattern w
  <-> agent_history w !! fst entry = Some (snd entry) /\ fnmatch pattern (fst entry) = true.
Proof.
  unfold agent_manager.glob_history. rewrite list_elem_of_In, filter_In, <- list_elem_of_In.
  destruct entry as [name e]. rewrite elem_of_map_to_list. reflexivity.
Qed.

End history.

(** X. [list_agent_history] reads and changes nothing; it lists the paths
    of the backups that match agent_*.py, each once, the newest first; and
    the first of the list is the backup [_restore_latest_backup] copies
    over the live agent. With no backup the list is empty and the restore
    does nothing. *)
Theorem list_agent_history_newest_first `{PyBuiltins} `{PyHost} (w : World) :
  exists backups : list (string * (string * nat)),
    agent_manager.list_agent_history w
    = (Ret (map (fun entry => agent_manager.path_join agent_manager.history_dir (fst entry))
              backups), w)
    /\ backups ≡ₚ agent_manager.glob_history "agent_*.py" w
    /\ (forall entry, entry ∈ backups <->
          agent_history w !! fst entry = Some (snd entry)
          /\ fnmatch "agent_*.py" (fst entry) = true)
    /\ StronglySorted (fun a b => (agent_manager.getctime b <= agent_manager.getctime a)%nat)
         backups
    /\ agent_manager._restore_latest_backup w
       = (Ret tt,
          match backups with
          | [] => w
          | latest :: _ =>
              tick (add_event (EvCopy (agent_manager.path_join agent_manager.history_dir
                                         (fst latest)) agent_manager.agent_file)
                      (set_agent_py (Some (fst (snd latest))) w))
          end).
Proof.
  exists (py_sorted_by_desc agent_manager.getctime (agent_manager.glob_history "agent_*.py" w)).
  split; [reflexivity|].
  split; [apply py_sorted_by_desc_perm|].
  split. { intros entry. rewrite py_sorted_by_desc_perm. apply glob_history_lookup. }
  split; [apply py_sorted_by_desc_sorted|].
  unfold agent_manager._restore_latest_backup.
  destruct (agent_manager.glob_history "agent_*.py" w) as [|b backups] eqn:Hglob;
    [reflexivity|].
  pose proof (head_sorted_is_max agent_manager.getctime b backups) as Hhead.
  destruct (py_sorted_by_desc agent_manager.getctime (b :: backups)) as [|latest rest];
    [discriminate|].
  cbn [head] in Hhead. injection Hhead as ->. reflexivity.
Qed.

(** ** A round of the agent-logic track, from outside *)

Section agent_round_frame.
Context `{PyBuiltins} `{PyHost}.

Lemma same_files_refl (w : World) : same_files w w.
Proof. unfold same_files. repeat split; reflexivity. Qed.

Lemma same_files_trans (w1 w2 w3 : World) :
  same_files w1 w2 -> same_files w2 w3 -> same_files w1 w3.
Proof.
  unfold same_files.
  intros (? & ? & ? & ? & ? & ? & ?) (? & ? & ? & ? & ? & ? & ?).
  repeat split; first [congruence | lia].
Qed.

Lemma after_run_same_files (program : string) (w : World) :
  same_files w (after_run program w).
Proof.
  unfold same_files. rewrite after_run_tmp_dir, after_run_clock.
  repeat split; first [reflexivity | lia].
Qed.

Lemma after_candidate_same_files (n : Z) (i : nat) (code : string) (w : World) :
  same_files w (after_candidate n i code w).
Proof.
  unfold after_candidate.
  eapply same_files_trans; [|apply after_run_same_files].
  unfold same_files, staged_candidate. cbn. repeat split; first [reflexivity | lia].
Qed.

Lemma after_candidate_temp_agents (n : Z) (i : nat) (code : string) (w : World) :
  temp_agents (after_candidate n i code w)
  = <[agent_manager.candidate_name i := code]> (temp_agents w).
Proof. reflexivity. Qed.

Lemma agent_round_same_files (n : Z) (codes : list string) :
  forall (i : nat) (best : Z * Metrics) (w : World),
    same_files w (snd (agent_round n i codes best w))
    /\ forall name, fnmatch "candidate_*.py" name = false ->
         temp_agents (snd (agent_round n i codes best w)) !! name = temp_agents w !! name.
Proof.
  induction codes as [|code codes IH]; intros i best w; cbn [agent_round].
  - split; [apply same_files_refl|reflexivity].
  - destruct (IH (S i)
               (if PrimFloat.ltb (avg_return (snd best) * (1 + 0.1))%float
                               (avg_return (candidate_metrics n i code w))
                then (Z.of_nat i, candidate_metrics n i code w) else best)
               (after_candidate n i code w)) as [Hsame Hother].
    split.
    + eapply same_files_trans; [apply after_candidate_same_files|exact Hsame].
    + intros name Hname. rewrite (Hother name Hname), after_candidate_temp_agents.
      apply lookup_insert_ne. intros <-.
      unfold agent_manager.candidate_name in Hname.
      rewrite fnmatch_candidate in Hname. discriminate.
Qed.

Lemma cleanup_temp_agents_same_files (w : World) :
  same_files w (snd (agent_manager._cleanup_temp_agents w))
  /\ forall name, fnmatch "candidate_*.py" name = false ->
       temp_agents (snd (agent_manager._cleanup_temp_agents w)) !! name
       = temp_agents w !! name.
Proof.
  unfold agent_manager._cleanup_temp_agents, modify. cbn [snd].
  assert (Hkeep : forall name, fnmatch "candidate_*.py" name = false ->
            filter (fun entry : string * string =>
                      fnmatch "candidate_*.py" (fst entry) = false)
              (temp_agents w) !! name = temp_agents w !! name).
  { intros name Hname. destruct (temp_agents w !! name) as [x|] eqn:Hx.
    - apply map_lookup_filter_Some. split; [exact Hx|exact Hname].
    - apply map_lookup_filter_None. left. exact Hx. }
  destruct (temp_agents_pycache (set_temp_agents _ w)); split;
    first [exact Hkeep | unfold same_files; cbn; repeat split; first [reflexivity | lia]].
Qed.

(** The running best of a round is the best it started with or one of its
    candidates, with the metrics of that candidate. *)
Lemma agent_round_best (n : Z) (codes : list string) :
  forall (i : nat) (best : Z * Metrics) (w : World),
    fst (agent_round n i codes best w) = best
    \/ exists (k : nat) (code : string),
         codes !! k = Some code
         /\ fst (agent_round n i codes best w)
            = (Z.of_nat (i + k),
               candidate_metrics n (i + k) code
                 (snd (agent_round n i (take k codes) best w))).
Proof.
  induction codes as [|code codes IH] using rev_ind; intros i best w.
  - left. reflexivity.
  - rewrite agent_round_app. cbn [agent_round fst].
    destruct (PrimFloat.ltb _ _).
    + right. exists (length codes), code. split.
      * rewrite lookup_app_r by lia. rewrite Nat.sub_diag. reflexivity.
      * rewrite take_app_length. reflexivity.
    + destruct (IH i best w) as [Hbest|(k & c & Hk & Hfst)]; [left; exact Hbest|].
      right. exists k, c. split.
      * rewrite lookup_app_l by (apply lookup_lt_Some in Hk; exact Hk). exact Hk.
      * rewrite take_app_le by (apply lookup_lt_Some in Hk; lia). exact Hfst.
Qed.

End agent_round_frame.

(** X. A round of [test_multiple_agents] evaluates; it promotes nothing:
    the live agent, the history, the configuration, its cache and its
    scratch directory, and the tempfile directory are after the round
    what they were before, and so is every file of RL/temp_agents whose
    name is not candidate_*.py. *)
Theorem test_multiple_agents_frame `{PyBuiltins} `{PyHost}
    (codes : list string) (n : Z) (w : World) :
  same_files w (snd (agent_manager.test_multiple_agents codes n w))
  /\ forall name, fnmatch "candidate_*.py" name = false ->
       temp_agents (snd (agent_manager.test_multiple_agents codes n w)) !! name
       = temp_agents w !! name.
Proof.
  rewrite test_multiple_agents_eq. cbn [snd]. unfold agent_round_world.
  set (w0 := after_run (original_program n) w).
  destruct (agent_round_same_files n codes 0 (-1, original_metrics n w) w0)
    as [Hround Hround'].
  set (w1 := snd (agent_round n 0 codes (-1, original_metrics n w) w0)) in *.
  destruct (cleanup_temp_agents_same_files w1) as [Hclean Hclean'].
  split.
  - eapply same_files_trans; [apply after_run_same_files|].
    eapply same_files_trans; [exact Hround|exact Hclean].
  - intros name Hname. rewrite (Hclean' name Hname), (Hround' name Hname).
    unfold w0. rewrite after_run_temp_agents. reflexivity.
Qed.

(** X. What [test_multiple_agents] returns is the baseline under index -1
    or one of the candidates under its own index: an index within the
    list, with the metrics that candidate got when its turn came, labelled
    with its number. *)
Theorem test_multiple_agents_returns_a_candidate `{PyBuiltins} `{PyHost}
    (codes : list string) (n : Z) (w : World) :
  exists (best_index : Z) (best_metrics : Metrics),
    fst (agent_manager.test_multiple_agents codes n w) = Ret (best_index, best_metrics)
    /\ ((best_index = -1 /\ best_metrics = original_metrics n w)
        \/ exists (k : nat) (code : string),
             best_index = Z.of_nat k
             /\ codes !! k = Some code
             /\ best_metrics
                = candidate_metrics n k code (agent_round_world n (take k codes) w)
             /\ test_name best_metrics = "Candidate " +:+ pretty (k + 1)%nat).
Proof.
  rewrite test_multiple_agents_eq. cbn [fst].
  destruct (agent_round_best n codes 0 (-1, original_metrics n w)
              (after_run (original_program n) w)) as [Hbest|(k & code & Hk & Hfst)].
  - exists (-1), (original_metrics n w). split; [f_equal; exact Hbest|].
    left. split; reflexivity.
  - eexists _, _. split; [f_equal; exact Hfst|].
    right. exists k, code. cbn [Nat.add]. repeat split; [exact Hk|].
    unfold candidate_metrics, metrics_of.
    destruct (outcome_of _ _); reflexivity.
Qed.

(** ** Promotion after a round *)

Section promotion_more.
Context `{PyBuiltins} `{PyHost}.

Lemma restore_latest_backup_clock (w : World) :
  (clock w <= clock (snd (agent_manager._restore_latest_backup w)))%nat.
Proof.
  unfold agent_manager._restore_latest_backup.
  destruct (agent_manager.glob_history "agent_*.py" w); cbn; lia.
Qed.

(** [save_best_agent] on any index but -1, when the import of the
    candidate comes back and keeps to itself: the candidate is the one
    Python's indexing gives, counted from the end when the index is
    negative. *)
Lemma save_best_agent_any_index (agent_codes : list string) (best_index : Z)
    (w : World) (live : string) :
  agent_py w = Some live ->
  history_in_the_past w ->
  best_index <> -1 ->
  (forall code, index_Z agent_codes best_index = Ret code ->
     import_ends code (candidate_written code w)
     /\ import_is_quiet code (candidate_written code w)) ->
  exists (saved : bool) (w' : World),
    agent_manager.save_best_agent agent_codes best_index w = (Done (Ret saved), w')
    /\ agent_history w' = <[backup_name w := (live, clock w)]> (agent_history w)
    /\ (clock w < clock w')%nat
    /\ (saved = true ->
        exists code,
          index_Z agent_codes best_index = Ret code
          /\ agent_py w' = Some code
          /\ passes_validation (candidate_written code w) = true)
    /\ (saved = false ->
        agent_py w' = Some live
        /\ forall code,
             index_Z agent_codes best_index = Ret code ->
             passes_validation (candidate_written code w) = false).
Proof.
  intros Hlive Hpast Hindex Himport.
  rewrite save_best_agent_eq by exact Hindex.
  destruct (index_Z agent_codes best_index) as [code|e].
  - destruct (Himport code eq_refl) as [[r Hends] (Hqpy & Hqhist & Hqclock & _)].
    destruct (candidate_written_eq code w live Hlive) as (Hpy2 & Hhist2 & _ & Hclock2).
    set (w2 := candidate_written code w) in *.
    destruct (exec_module code w2) as [run w2'] eqn:Hexec.
    cbn [fst snd] in Hends, Hqpy, Hqhist, Hqclock. subst run.
    destruct (validate_agent_code_spec w2 code r w2' Hpy2 Hexec)
      as (w3 & Hval & Hpy3 & Hhist3 & Hclock3 & _).
    rewrite Hval.
    destruct (passes_validation w2) eqn:Hpass.
    + exists true, w3. split; [reflexivity|].
      split; [congruence|]. split; [lia|]. split; [|discriminate].
      intros _. exists code. split; [reflexivity|]. split; [congruence|exact Hpass].
    + destruct (restore_after_backup w w3 live Hpast) as (w4 & Hres & Hpy4 & Hhist4 & _).
      { congruence. }
      pose proof (restore_latest_backup_clock w3) as Hclock4.
      rewrite Hres in Hclock4 |- *. cbn [snd] in Hclock4 |- *.
      exists false, w4. split; [reflexivity|].
      split; [congruence|]. split; [lia|]. split; [discriminate|].
      intros _. split; [exact Hpy4|]. intros code' [= <-]. exact Hpass.
  - rewrite (backup_current_agent_eq w live Hlive). cbn [snd].
    set (w1 := tick (add_event _ (set_agent_history _ w))).
    assert (Hhist1 : agent_history w1 = <[backup_name w := (live, clock w)]> (agent_history w))
      by reflexivity.
    assert (Hclock1 : clock w1 = S (clock w)) by reflexivity.
    destruct (restore_after_backup w w1 live Hpast Hhist1) as (w4 & Hres & Hpy4 & Hhist4 & _).
    pose proof (restore_latest_backup_clock w1) as Hclock4.
    rewrite Hres in Hclock4 |- *. cbn [snd] in Hclock4 |- *.
    exists false, w4. split; [reflexivity|].
    split; [congruence|]. split; [lia|]. split; [discriminate|].
    intros _. split; [exact Hpy4|]. intros code' [=].
Qed.

Lemma history_in_the_past_same_files (w w' : World) :
  same_files w w' -> history_in_the_past w -> history_in_the_past w'.
Proof.
  intros (_ & Hhist & _ & _ & _ & _ & Hclock) Hpast name content ctime Hl.
  rewrite Hhist in Hl. specialize (Hpast _ _ _ Hl). lia.
Qed.

(** A round and then the promotion of the index it returned, when the
    import of each candidate, once written over the live agent, comes back
    and keeps to itself. *)
Lemma round_then_promotion_quiet (codes : list string) (n : Z) (w : World) (live : string) :
  agent_py w = Some live ->
  history_in_the_past w ->
  (forall code, code ∈ codes ->
     import_ends code
       (candidate_written code (snd (agent_manager.test_multiple_agents codes n w)))
     /\ import_is_quiet code
          (candidate_written code (snd (agent_manager.test_multiple_agents codes n w)))) ->
  exists (best_index : Z) (best_metrics : Metrics) (w1 : World) (saved : bool) (w2 : World),
    agent_manager.test_multiple_agents codes n w = (Ret (best_index, best_metrics), w1)
    /\ agent_manager.save_best_agent codes best_index w1 = (Done (Ret saved), w2)
    /\ (saved = true ->
        exists (k : nat) (code : string),
          best_index = Z.of_nat k
          /\ codes !! k = Some code
          /\ agent_py w2 = Some code
          /\ passes_validation (candidate_written code w1) = true
          /\ agent_history w2 !! backup_name w1 = Some (live, clock w1))
    /\ (saved = false -> agent_py w2 = Some live)
    /\ history_in_the_past w2.
Proof.
  intros Hlive Hpast Himport.
  rewrite test_multiple_agents_eq in Himport |- *. cbn [snd] in Himport.
  unfold agent_round_world in Himport |- *.
  set (w0 := after_run (original_program n) w) in *.
  set (round := agent_round n 0 codes (-1, original_metrics n w) w0) in *.
  set (w1 := snd (agent_manager._cleanup_temp_agents (snd round))) in *.
  assert (Hsame : same_files w w1).
  { eapply same_files_trans; [apply after_run_same_files|].
    eapply same_files_trans; [apply agent_round_same_files|].
    apply cleanup_temp_agents_same_files. }
  assert (Hrange : fst round = (-1, original_metrics n w)
                   \/ exists (k : nat) (code : string),
                        codes !! k = Some code /\ fst (fst round) = Z.of_nat k).
  { destruct (agent_round_best n codes 0 (-1, original_metrics n w) w0)
      as [Hbest|(k & code & Hk & Hfst)]; [left; exact Hbest|].
    right. exists k, code. split; [exact Hk|]. fold round in Hfst. rewrite Hfst. reflexivity. }
  destruct (fst round) as [best_index best_metrics].
  assert (Hlive1 : agent_py w1 = Some live).
  { destruct Hsame as (Hpy & _). congruence. }
  assert (Hpast1 : history_in_the_past w1)
    by exact (history_in_the_past_same_files _ _ Hsame Hpast).
  exists best_index, best_metrics, w1.
  destruct Hrange as [[= -> ->] | (k & code & Hk & Hidx)]; [|cbn [fst] in Hidx; subst best_index].
  - exists false, w1. split; [reflexivity|]. split; [reflexivity|].
    split; [discriminate|]. split; [intros _; exact Hlive1|exact Hpast1].
  - assert (Hindex : index_Z codes (Z.of_nat k) = Ret code).
    { unfold index_Z, index. replace (0 <=? Z.of_nat k) with true by (symmetry; apply Z.leb_le; lia).
      rewrite Nat2Z.id, Hk. reflexivity. }
    destruct (save_best_agent_any_index codes (Z.of_nat k) w1 live Hlive1 Hpast1 ltac:(lia))
      as (saved & w2 & Hsave & Hhist2 & Hclock2 & Htrue & Hfalse).
    { intros code' Hcode'. rewrite Hindex in Hcode'. injection Hcode' as <-.
      apply Himport. apply list_elem_of_lookup. exists k. exact Hk. }
    exists saved, w2. split; [reflexivity|]. split; [exact Hsave|].
    split; [|split].
    + intros Hs. destruct (Htrue Hs) as (code' & Hcode' & Hpy2 & Hpass).
      rewrite Hindex in Hcode'. injection Hcode' as <-.
      exists k, code. repeat split; [exact Hk|exact Hpy2|exact Hpass|].
      rewrite Hhist2. apply lookup_insert_eq.
    + intros Hs. exact (proj1 (Hfalse Hs)).
    + intros name content ctime Hl. rewrite Hhist2 in Hl.
      destruct (decide (name = backup_name w1)) as [->|Hne].
      * rewrite lookup_insert_eq in Hl. injection Hl as _ <-. exact Hclock2.
      * rewrite lookup_insert_ne in Hl by congruence.
        specialize (Hpast1 _ _ _ Hl). lia.
Qed.

End promotion_more.

(** X. A round and its promotion, as [apply_multi_agent_rewrite] chains
    them: [test_multiple_agents] and then [save_best_agent] on the index it
    returned.
    (a) From a world with a live agent whose backups are all of the past,
    when the import of each candidate, once written over the live agent,
    comes back and keeps to itself, both return; when the promotion says
    True the live agent is the candidate of the returned index, it passed
    the validation, and the agent of before is in the history; when it
    says False the live agent is the agent of before; and the backups are
    again all of the past, so that the next round starts as this one did.
    (b) Without that, the chain need not return: with a live agent that
    crashes in the child, a candidate that calls sys.exit(3) at import and
    so gives no result in the child is returned as the best, at the
    sentinel, and its promotion ends by SystemExit with the candidate as
    the live agent. *)
Theorem round_then_promotion :
  (forall `{PyBuiltins} `{PyHost} (codes : list string) (n : Z) (w : World) (live : string),
      agent_py w = Some live ->
      history_in_the_past w ->
      (forall code, code ∈ codes ->
         import_ends code
           (candidate_written code (snd (agent_manager.test_multiple_agents codes n w)))
         /\ import_is_quiet code
              (candidate_written code (snd (agent_manager.test_multiple_agents codes n w)))) ->
      exists (best_index : Z) (best_metrics : Metrics) (w1 : World) (saved : bool) (w2 : World),
        agent_manager.test_multiple_agents codes n w = (Ret (best_index, best_metrics), w1)
        /\ agent_manager.save_best_agent codes best_index w1 = (Done (Ret saved), w2)
        /\ (saved = true ->
            exists (k : nat) (code : string),
              best_index = Z.of_nat k
              /\ codes !! k = Some code
              /\ agent_py w2 = Some code
              /\ passes_validation (candidate_written code w1) = true
              /\ agent_history w2 !! backup_name w1 = Some (live, clock w1))
        /\ (saved = false -> agent_py w2 = Some live)
        /\ history_in_the_past w2)
  /\ (let round := @agent_manager.test_multiple_agents Demo.builtins Demo.host
                     ["#!sysexit"] 100 (Demo.world0 "#!crash" ∅) in
      let promotion := @agent_manager.save_best_agent Demo.builtins Demo.host
                         ["#!sysexit"] 0 (snd round) in
      fst round = Ret (0, sentinel "Candidate 1")
      /\ fst promotion = Exits (SystemExit 3)
      /\ agent_py (snd promotion) = Some "#!sysexit").
Proof.
  split.
  - intros B P codes n w live Hlive Hpast Himport.
    exact (round_then_promotion_quiet codes n w live Hlive Hpast Himport).
  - vm_compute. repeat split.
Qed.

Lemma round_then_promotion_witness :
  exists (best_index : Z) (best_metrics : Metrics) (w1 : World) (saved : bool) (w2 : World),
    @agent_manager.test_multiple_agents Demo.builtins Demo.host ["#!avg=2.00;"] 100
      (Demo.world0 "#!avg=1.00;" ∅)
    = (Ret (best_index, best_metrics), w1)
    /\ @agent_manager.save_best_agent Demo.builtins Demo.host ["#!avg=2.00;"] best_index w1
       = (Done (Ret saved), w2)
    /\ (saved = true ->
        exists (k : nat) (code : string),
          best_index = Z.of_nat k
          /\ ["#!avg=2.00;"] !! k = Some code
          /\ agent_py w2 = Some code
          /\ @passes_validation Demo.builtins Demo.host
               (@candidate_written Demo.host code w1) = true
          /\ agent_history w2 !! @backup_name Demo.host w1 = Some ("#!avg=1.00;", clock w1))
    /\ (saved = false -> agent_py w2 = Some "#!avg=1.00;")
    /\ history_in_the_past w2.
Proof.
  apply (proj1 round_then_promotion Demo.builtins Demo.host ["#!avg=2.00;"] 100
           (Demo.world0 "#!avg=1.00;" ∅) "#!avg=1.00;").
  - reflexivity.
  - intros name content ctime Hl. cbn in Hl. rewrite lookup_empty in Hl. discriminate.
  - intros code Hin. apply list_elem_of_singleton in Hin. subst code. split.
    + eexists. vm_compute. reflexivity.
    + split; [vm_compute; reflexivity|]. split; [vm_compute; reflexivity|].
      split; [vm_compute; lia|]. exists []. vm_compute. reflexivity.
Defined.

(** ** The flat configuration and its cache *)

Lemma get_config_singleton_spec (w : World) :
  match config_cache w with
  | Some config => config_helper.get_config_singleton w = (Ret config, w)
  | None =>
      match config_json w with
      | Some config =>
          config_helper.get_config_singleton w = (Ret config, set_config_cache (Some config) w)
      | None => config_helper.get_config_singleton w = (Raise OSError, w)
      end
  end.
Proof.
  unfold config_helper.get_config_singleton, config_helper.load_config.
  destruct (config_cache w); [reflexivity|]. destruct (config_json w); reflexivity.
Qed.

Lemma first_of_union (section : gmap string PyVal) (sections : list (gmap string PyVal))
    (flat : gmap string PyVal) (k : string) :
  flat !! k = first_of sections k ->
  config_helper.dict_update section flat !! k = first_of (section :: sections) k.
Proof.
  intros Hflat. unfold config_helper.dict_update. cbn [first_of].
  rewrite lookup_union. destruct (section !! k) as [v|].
  - destruct (flat !! k); reflexivity.
  - rewrite Hflat. destruct (first_of sections k); reflexivity.
Qed.

(** X. [get_flat_config] on an empty cache, when the document is there:
    with the five sections it returns the flat configuration and caches
    it, and the document is cached as well; on a key that more than one
    section has, the section read last wins, so system goes before
    training, agent, rewards and environment; alpha is the learning_rate
    whenever there is one. With a section missing it raises KeyError and
    caches no flat configuration. A second call returns the cached value
    and changes nothing. *)
Theorem get_flat_config_layers (s : Store) (config : Config) (w' : World) :
  flat_config_cache s = None ->
  config_helper.get_config_singleton (world s) = (Ret config, w') ->
  match config !! "environment", config !! "rewards", config !! "agent",
        config !! "training", config !! "system" with
  | Some environment, Some rewards, Some agent, Some training, Some system =>
      exists flat : gmap string PyVal,
        config_helper.get_flat_config s
        = (Ret flat, set_flat_config_cache (Some flat) (set_world (fun _ => w') s))
        /\ (forall k, k <> "alpha" ->
              flat !! k = first_of [system; training; agent; rewards; environment] k)
        /\ flat !! "alpha"
           = match first_of [system; training; agent; rewards; environment] "learning_rate" with
             | Some learning_rate => Some learning_rate
             | None => first_of [system; training; agent; rewards; environment] "alpha"
             end
        /\ config_helper.get_flat_config
             (set_flat_config_cache (Some flat) (set_world (fun _ => w') s))
           = (Ret flat, set_flat_config_cache (Some flat) (set_world (fun _ => w') s))
  | _, _, _, _, _ =>
      config_helper.get_flat_config s = (Raise KeyError, set_world (fun _ => w') s)
  end.
Proof.
  intros Hcache Hsingleton.
  unfold config_helper.get_flat_config. rewrite Hcache.
  unfold mbind, MS_mbind, MS_bind_, in_world, liftS, modifyS, getitem, mret, MS_mret.
  rewrite Hsingleton.
  destruct (config !! "environment") as [environment|]; [|reflexivity].
  destruct (config !! "rewards") as [rewards|]; [|reflexivity].
  destruct (config !! "agent") as [agent|]; [|reflexivity].
  destruct (config !! "training") as [training|]; [|reflexivity].
  destruct (config !! "system") as [system|]; [|reflexivity].
  set (merged := config_helper.dict_update system
                   (config_helper.dict_update training
                      (config_helper.dict_update agent
                         (config_helper.dict_update rewards
                            (config_helper.dict_update environment ∅))))).
  assert (Hmerged : forall k,
            merged !! k = first_of [system; training; agent; rewards; environment] k).
  { intros k. unfold merged. repeat apply first_of_union. apply lookup_empty. }
  eexists. split; [reflexivity|]. split; [|split].
  - intros k Hk. rewrite <- Hmerged.
    destruct (merged !! "learning_rate"); [|reflexivity].
    apply lookup_insert_ne. congruence.
  - rewrite <- !Hmerged. destruct (merged !! "learning_rate") as [lr|]; [|reflexivity].
    apply lookup_insert_eq.
  - reflexivity.
Qed.

Lemma get_flat_config_layers_witness :
  let config : Config :=
    {[ "environment" := {[ "grid_size" := VInt 5 ]};
       "rewards" := {[ "goal_reward" := VFloat 1.0 ]};
       "agent" := {[ "learning_rate" := VFloat 0.1; "seed" := VInt 1 ]};
       "training" := {[ "episodes" := VInt 100 ]};
       "system" := {[ "seed" := VInt 7 ]} ]} in
  let s := mkStore (Demo.world0 "" config) None ∅ in
  exists flat : gmap string PyVal,
    fst (config_helper.get_flat_config s) = Ret flat
    /\ flat !! "seed" = Some (VInt 7)
    /\ flat !! "alpha" = Some (VFloat 0.1).
Proof.
  intros config s.
  pose proof (get_flat_config_layers s config (set_config_cache (Some config) (world s))
                eq_refl eq_refl) as Hlayers.
  change (config !! "environment") with (Some ({[ "grid_size" := VInt 5 ]} : gmap string PyVal))
    in Hlayers.
  change (config !! "rewards") with (Some ({[ "goal_reward" := VFloat 1.0 ]} : gmap string PyVal))
    in Hlayers.
  change (config !! "agent")
    with (Some ({[ "learning_rate" := VFloat 0.1; "seed" := VInt 1 ]} : gmap string PyVal))
    in Hlayers.
  change (config !! "training") with (Some ({[ "episodes" := VInt 100 ]} : gmap string PyVal))
    in Hlayers.
  change (config !! "system") with (Some ({[ "seed" := VInt 7 ]} : gmap string PyVal))
    in Hlayers.
  cbv beta iota in Hlayers.
  destruct Hlayers as (flat & Hget & Hkey & Halpha & _).
  exists flat. split; [rewrite Hget; reflexivity|].
  split; [rewrite Hkey by discriminate; reflexivity|].
  rewrite Halpha. reflexivity.
Defined.

(** X. Read your writes: after [save_config] the file holds the document
    and both caches are empty, so the next [get_config_singleton] returns
    the document saved, whatever was cached before, and the next
    [get_flat_config] is computed from it: its result does not depend on
    the store the document was saved in. The backups are not touched. *)
Theorem save_config_is_read_back (config : Config) (s : Store) :
  let s1 := snd (config_helper.save_config config s) in
  fst (config_helper.save_config config s) = Ret tt
  /\ config_json (world s1) = Some config
  /\ config_cache (world s1) = None
  /\ flat_config_cache s1 = None
  /\ config_history s1 = config_history s
  /\ agent_py (world s1) = agent_py (world s)
  /\ fst (in_world config_helper.get_config_singleton s1) = Ret config
  /\ forall s0 : Store,
       fst (config_helper.get_flat_config s1)
       = fst (config_helper.get_flat_config (snd (config_helper.save_config config s0))).
Proof.
  intros s1. subst s1.
  unfold config_helper.save_config, modifyS. cbn [fst snd].
  repeat (split; [reflexivity|]).
  intros s0. unfold config_helper.get_flat_config.
  cbn [flat_config_cache set_flat_config_cache].
  unfold mbind, MS_mbind, MS_bind_, in_world, liftS, modifyS, mret, MS_mret.
  cbn [world set_world set_flat_config_cache].
  unfold config_helper.get_config_singleton, config_helper.load_config.
  cbn [config_cache config_json set_config_cache tick add_event set_config_json].
  unfold getitem.
  destruct (config !! "environment"); [|reflexivity].
  destruct (config !! "rewards"); [|reflexivity].
  destruct (config !! "agent"); [|reflexivity].
  destruct (config !! "training"); [|reflexivity].
  destruct (config !! "system"); reflexivity.
Qed.

(** ** Promotion of a configuration *)

Section config_promotion.
Context `{PyHost}.

Lemma glob_config_history_lookup (pattern : string) (s : Store)
    (entry : string * (Config * nat)) :
  entry ∈ config_manager.glob_config_history pattern s
  <-> config_history s !! fst entry = Some (snd entry) /\ fnmatch pattern (fst entry) = true.
Proof.
  unfold config_manager.glob_config_history.
  rewrite list_elem_of_In, filter_In, <- list_elem_of_In.
  destruct entry as [name e]. rewrite elem_of_map_to_list. reflexivity.
Qed.

Lemma fnmatch_config (x : string) :
  fnmatch "config_*.json" ("config_" +:+ x +:+ ".json") = true.
Proof.
  change (fnmatch (String "*" ".json") (x +:+ ".json") = true).
  apply fnmatch_star. reflexivity.
Qed.

(** Restoring brings back the backup that is newer than all the others;
    the caches stay as they are. *)
Lemma restore_latest_config_backup (s : Store) (name : string) (content : Config)
    (ctime : nat) :
  config_history s !! name = Some (content, ctime) ->
  fnmatch "config_*.json" name = true ->
  (forall name' content' ctime',
      config_history s !! name' = Some (content', ctime') -> name' <> name ->
      (ctime' < ctime)%nat) ->
  config_manager._restore_latest_backup s
  = (Ret tt,
     set_world (fun w =>
       tick (add_event (EvCopy (agent_manager.path_join config_manager.history_dir name)
                          config_manager.config_file)
               (set_config_json (Some content) w))) s).
Proof.
  intros Hentry Hmatch Hnewest.
  unfold config_manager._restore_latest_backup.
  assert (Hin : (name, (content, ctime))
                ∈ config_manager.glob_config_history "config_*.json" s).
  { apply glob_config_history_lookup. split; assumption. }
  destruct (config_manager.glob_config_history "config_*.json" s)
    as [|b backups] eqn:Hglob.
  { apply elem_of_nil in Hin. destruct Hin. }
  destruct (py_max_by_spec config_manager.st_ctime backups b) as [Hlatest Hmax].
  set (latest := py_max_by config_manager.st_ctime b backups) in *.
  rewrite <- Hglob in Hlatest. apply glob_config_history_lookup in Hlatest as [Hl _].
  assert (Hname : fst latest = name).
  { destruct (decide (fst latest = name)) as [Heq|Hne]; [exact Heq|exfalso].
    destruct (snd latest) as [c' t'] eqn:Hsnd.
    specialize (Hnewest _ _ _ Hl Hne).
    specialize (Hmax _ Hin). unfold config_manager.st_ctime in Hmax.
    cbn [snd] in Hmax. rewrite Hsnd in Hmax. cbn [snd] in Hmax. lia. }
  rewrite Hname, Hentry in Hl. injection Hl as Hl. rewrite Hname, <- Hl. reflexivity.
Qed.

End config_promotion.

Lemma save_best_config_lemma `{PyHost}
    (config_variants : list Config) (best_index : Z) (s : Store) (live : Config) :
  config_json (world s) = Some live ->
  config_history_in_the_past s ->
  best_index <> -1 ->
  exists (saved : bool) (s' : Store),
    config_manager.save_best_config config_variants best_index s = (Ret saved, s')
    /\ config_history s' = <[config_backup_name s := (live, clock (world s))]> (config_history s)
    /\ (clock (world s) < clock (world s'))%nat
    /\ agent_py (world s') = agent_py (world s)
    /\ agent_history (world s') = agent_history (world s)
    /\ match index_Z config_variants best_index with
       | Ret best_config =>
           saved = true
           /\ config_json (world s') = Some best_config
           /\ config_cache (world s') = None
           /\ flat_config_cache s' = None
           /\ fst (in_world config_helper.get_config_singleton s') = Ret best_config
       | Raise _ =>
           saved = false
           /\ config_json (world s') = Some live
           /\ config_cache (world s') = config_cache (world s)
           /\ flat_config_cache s' = flat_config_cache s
       end.
Proof.
  intros Hlive Hpast Hindex.
  unfold config_manager.save_best_config.
  replace (best_index =? -1) with false by (symmetry; apply Z.eqb_neq; exact Hindex).
  unfold try_exceptS, mbind, MS_mbind, MS_bind_, liftS.
  unfold config_manager.backup_current_config. rewrite Hlive.
  fold (config_backup_name s).
  set (s1 := set_world _ (set_config_history _ s)).
  assert (Hhist1 : config_history s1
                   = <[config_backup_name s := (live, clock (world s))]> (config_history s))
    by reflexivity.
  destruct (index_Z config_variants best_index) as [best_config|e].
  - eexists true, _. split; [reflexivity|].
    unfold config_helper.save_config, modifyS. cbn. repeat split; lia.
  - rewrite (restore_latest_config_backup s1 (config_backup_name s) live (clock (world s))).
    + eexists false, _. split; [reflexivity|]. cbn. repeat split; first [exact Hlive | lia].
    + rewrite Hhist1. apply lookup_insert_eq.
    + apply fnmatch_config.
    + intros name' content' ctime' Hl Hne. rewrite Hhist1 in Hl.
      rewrite lookup_insert_ne in Hl by congruence. exact (Hpast _ _ _ Hl).
Qed.

(** X. [save_best_config] on an index other than -1, when config.json is
    there and every backup is of the past. It first copies config.json
    to the history. With an index within the list (counted from the end
    when negative) it returns True: config.json is the variant of that
    index and both caches are empty, so that the next
    [get_config_singleton] returns the variant. With an index out of the
    list it returns False: config.json holds again what it held, and the
    caches are as they were. Nothing is validated. *)
Theorem save_best_config_installs `{PyHost}
    (config_variants : list Config) (best_index : Z) (s : Store) (live : Config) :
  config_json (world s) = Some live ->
  config_history_in_the_past s ->
  best_index <> -1 ->
  exists (saved : bool) (s' : Store),
    config_manager.save_best_config config_variants best_index s = (Ret saved, s')
    /\ config_history s' = <[config_backup_name s := (live, clock (world s))]> (config_history s)
    /\ (clock (world s) < clock (world s'))%nat
    /\ agent_py (world s') = agent_py (world s)
    /\ agent_history (world s') = agent_history (world s)
    /\ match index_Z config_variants best_index with
       | Ret best_config =>
           saved = true
           /\ config_json (world s') = Some best_config
           /\ config_cache (world s') = None
           /\ flat_config_cache s' = None
           /\ fst (in_world config_helper.get_config_singleton s') = Ret best_config
       | Raise _ =>
           saved = false
           /\ config_json (world s') = Some live
           /\ config_cache (world s') = config_cache (world s)
           /\ flat_config_cache s' = flat_config_cache s
       end.
Proof.
  intros Hlive Hpast Hindex.
  exact (save_best_config_lemma config_variants best_index s live Hlive Hpast Hindex).
Qed.

Lemma save_best_config_installs_witness :
  let s := mkStore (Demo.world0 "" (Demo.config_noted "old")) (Some ∅) ∅ in
  exists s' : Store,
    @config_manager.save_best_config Demo.host [Demo.config_noted "new"] 0 s
    = (Ret true, s')
    /\ config_json (world s') = Some (Demo.config_noted "new")
    /\ flat_config_cache s' = None.
Proof.
  intros s.
  destruct (@save_best_config_installs Demo.host [Demo.config_noted "new"] 0 s
              (Demo.config_noted "old") eq_refl)
    as (saved & s' & Hsave & _ & _ & _ & _ & Hbest).
  - intros name content ctime Hl. cbn in Hl. rewrite lookup_empty in Hl. discriminate.
  - lia.
  - change (index_Z [Demo.config_noted "new"] 0) with (Ret (Demo.config_noted "new")) in Hbest.
    destruct Hbest as (-> & Hjson & _ & Hflat & _).
    exists s'. split; [exact Hsave|]. split; [exact Hjson|exact Hflat].
Defined.

(** ** A round of the configuration track, from outside *)

Section config_round_frame.
Context `{PyBuiltins} `{PyHost}.

Lemma after_variant_frame (n : Z) (i : nat) (config : Config) (w : World) :
  let w' := after_variant n i config w in
  agent_py w' = agent_py w /\ agent_history w' = agent_history w
  /\ config_json w' = config_json w /\ config_cache w' = config_cache w
  /\ temp_agents w' = temp_agents w /\ tmp_dir w' = tmp_dir w
  /\ (clock w <= clock w')%nat
  /\ temp_configs w' = <[config_manager.variant_name i := json_dumps (Some 4) config]>
                         (temp_configs w).
Proof.
  intros w'. subst w'. unfold after_variant.
  rewrite after_run_tmp_dir, after_run_clock.
  unfold staged_variant. cbn. repeat split; lia.
Qed.

Lemma config_round_frame (n : Z) (variants : list Config) :
  forall (i : nat) (best : Z * Metrics) (w : World),
    let w' := snd (config_round n i variants best w) in
    agent_py w' = agent_py w /\ agent_history w' = agent_history w
    /\ config_json w' = config_json w /\ config_cache w' = config_cache w
    /\ temp_agents w' = temp_agents w /\ tmp_dir w' = tmp_dir w
    /\ (clock w <= clock w')%nat
    /\ forall name, fnmatch "variant_*.json" name = false ->
         temp_configs w' !! name = temp_configs w !! name.
Proof.
  induction variants as [|config variants IH]; intros i best w; cbn [config_round].
  - cbn. repeat split; lia.
  - destruct (IH (S i)
                (if failed (variant_metrics n i config w) then best
                 else if PrimFloat.ltb (avg_return (snd best) + 0.05)%float
                                       (avg_return (variant_metrics n i config w))
                 then (Z.of_nat i, variant_metrics n i config w) else best)
                (after_variant n i config w))
      as (H1 & H2 & H3 & H4 & H5 & H6 & H7 & H8).
    destruct (after_variant_frame n i config w) as (F1 & F2 & F3 & F4 & F5 & F6 & F7 & F8).
    repeat split; try congruence; try lia.
    intros name Hname. rewrite (H8 name Hname), F8.
    apply lookup_insert_ne. intros <-.
    unfold config_manager.variant_name in Hname. rewrite fnmatch_variant in Hname.
    discriminate.
Qed.

Lemma config_round_best (n : Z) (variants : list Config) :
  forall (i : nat) (best : Z * Metrics) (w : World),
    fst (config_round n i variants best w) = best
    \/ exists (k : nat) (config : Config),
         variants !! k = Some config
         /\ fst (config_round n i variants best w)
            = (Z.of_nat (i + k),
               variant_metrics n (i + k) config
                 (snd (config_round n i (take k variants) best w)))
         /\ failed (variant_metrics n (i + k) config
                      (snd (config_round n i (take k variants) best w))) = false.
Proof.
  induction variants as [|config variants IH] using rev_ind; intros i best w.
  - left. reflexivity.
  - rewrite config_round_app. cbn [config_round fst].
    assert (Hkeep : fst (config_round n i variants best w) = best
                    \/ exists (k : nat) (c : Config),
                         (variants ++ [config]) !! k = Some c
                         /\ fst (config_round n i variants best w)
                            = (Z.of_nat (i + k),
                               variant_metrics n (i + k) c
                                 (snd (config_round n i (take k (variants ++ [config]))
                                         best w)))
                         /\ failed (variant_metrics n (i + k) c
                                      (snd (config_round n i (take k (variants ++ [config]))
                                              best w))) = false).
    { destruct (IH i best w) as [Hbest|(k & c & Hk & Hfst & Hok)]; [left; exact Hbest|].
      right. exists k, c. split.
      - rewrite lookup_app_l by (apply lookup_lt_Some in Hk; exact Hk). exact Hk.
      - rewrite take_app_le by (apply lookup_lt_Some in Hk; lia). split; assumption. }
    destruct (failed _) eqn:Hfailed; [exact Hkeep|].
    destruct (PrimFloat.ltb _ _); [|exact Hkeep].
    right. exists (length variants), config. split.
    + rewrite lookup_app_r by lia. rewrite Nat.sub_diag. reflexivity.
    + rewrite take_app_length. split; [reflexivity|exact Hfailed].
Qed.

Lemma cleanup_temp_configs_spec (w : World) :
  let w' := snd (config_manager._cleanup_temp_configs w) in
  agent_py w' = agent_py w /\ agent_history w' = agent_history w
  /\ config_json w' = config_json w /\ config_cache w' = config_cache w
  /\ temp_agents w' = temp_agents w /\ tmp_dir w' = tmp_dir w
  /\ clock w' = clock w
  /\ (forall name, fnmatch "variant_*.json" name = false ->
        temp_configs w' !! name = temp_configs w !! name)
  /\ (forall name, fnmatch "variant_*.json" name = true -> temp_configs w' !! name = None).
Proof.
  intros w'. subst w'. unfold config_manager._cleanup_temp_configs, modify. cbn.
  repeat split.
  - intros name Hname. destruct (temp_configs w !! name) as [x|] eqn:Hx.
    + apply map_lookup_filter_Some. split; [exact Hx|exact Hname].
    + apply map_lookup_filter_None. left. exact Hx.
  - intros name Hname. apply map_lookup_filter_None_2. right.
    intros x _ Hx. cbn [fst] in Hx. congruence.
Qed.

End config_round_frame.

Lemma get_config_singleton_frame (w w0 : World) (config : Config) :
  config_helper.get_config_singleton w = (Ret config, w0) ->
  w0 = set_config_cache (Some config) w
  /\ (config_cache w = Some config \/ (config_cache w = None /\ config_json w = Some config)).
Proof.
  intros Hget. pose proof (get_config_singleton_spec w) as Hspec.
  destruct (config_cache w) as [c|] eqn:Hc.
  - rewrite Hspec in Hget. injection Hget as -> <-. split; [|left; reflexivity].
    destruct w. cbn in Hc. subst. reflexivity.
  - destruct (config_json w) as [c|] eqn:Hj; rewrite Hspec in Hget; [|discriminate].
    injection Hget as -> <-. split; [reflexivity|]. right. split; reflexivity.
Qed.

Lemma test_multiple_configs_frame_lemma `{PyBuiltins} `{PyHost}
    (variants : list Config) (n : Z) (w w0 : World) (config : Config) :
  config_helper.get_config_singleton w = (Ret config, w0) ->
  let w' := snd (config_manager.test_multiple_configs variants n w) in
  agent_py w' = agent_py w /\ agent_history w' = agent_history w
  /\ config_json w' = config_json w /\ config_cache w' = Some config
  /\ temp_agents w' = temp_agents w /\ tmp_dir w' = tmp_dir w
  /\ (clock w <= clock w')%nat
  /\ (forall name, fnmatch "variant_*.json" name = false ->
        temp_configs w' !! name = temp_configs w !! name)
  /\ (if failed (metrics_of (outcome_of (variant_program n config) w0) "Original")
      then temp_configs w' = temp_configs w
      else forall name, fnmatch "variant_*.json" name = true ->
             temp_configs w' !! name = None).
Proof.
  intros Hget w'. subst w'.
  rewrite (test_multiple_configs_eq variants n w w0 config Hget). cbv zeta.
  destruct (get_config_singleton_frame w w0 config Hget) as [-> _].
  set (w0 := set_config_cache (Some config) w).
  set (m0 := metrics_of (outcome_of (variant_program n config) w0) "Original").
  set (w1 := after_run (variant_program n config) w0).
  assert (Hw1 : agent_py w1 = agent_py w /\ agent_history w1 = agent_history w
                /\ config_json w1 = config_json w /\ config_cache w1 = Some config
                /\ temp_agents w1 = temp_agents w /\ tmp_dir w1 = tmp_dir w
                /\ clock w1 = S (clock w) /\ temp_configs w1 = temp_configs w).
  { unfold w1. rewrite after_run_tmp_dir, after_run_clock. repeat split. }
  destruct Hw1 as (A1 & A2 & A3 & A4 & A5 & A6 & A7 & A8).
  destruct (failed m0); cbn [snd].
  - repeat split; try assumption; try lia; intros name _; rewrite A8; reflexivity.
  - destruct (config_round_frame n variants 0 (-1, m0) w1)
      as (R1 & R2 & R3 & R4 & R5 & R6 & R7 & R8).
    set (w2 := snd (config_round n 0 variants (-1, m0) w1)) in *.
    destruct (cleanup_temp_configs_spec w2) as (C1 & C2 & C3 & C4 & C5 & C6 & C7 & C8 & C9).
    repeat split; try congruence; try lia.
    + intros name Hname. rewrite (C8 name Hname), (R8 name Hname), A8. reflexivity.
    + exact C9.
Qed.

(** X. A round of [test_multiple_configs], when the document can be read:
    it leaves config.json, the live agent, the agent history, the
    tempfile directory and RL/temp_agents as they were, and every file of
    config/temp_configs whose name is not variant_*.json; the document is
    cached afterwards. When the baseline did not fail, no variant_*.json
    is left; when it failed, the round stops before any clean-up and
    config/temp_configs is as it was, stale variant files included. *)
Theorem test_multiple_configs_frame `{PyBuiltins} `{PyHost}
    (variants : list Config) (n : Z) (w w0 : World) (config : Config) :
  config_helper.get_config_singleton w = (Ret config, w0) ->
  let w' := snd (config_manager.test_multiple_configs variants n w) in
  agent_py w' = agent_py w /\ agent_history w' = agent_history w
  /\ config_json w' = config_json w /\ config_cache w' = Some config
  /\ temp_agents w' = temp_agents w /\ tmp_dir w' = tmp_dir w
  /\ (clock w <= clock w')%nat
  /\ (forall name, fnmatch "variant_*.json" name = false ->
        temp_configs w' !! name = temp_configs w !! name)
  /\ (if failed (metrics_of (outcome_of (variant_program n config) w0) "Original")
      then temp_configs w' = temp_configs w
      else forall name, fnmatch "variant_*.json" name = true ->
             temp_configs w' !! name = None).
Proof.
  intros Hget w'.
  exact (test_multiple_configs_frame_lemma variants n w w0 config Hget).
Qed.

Lemma test_multiple_configs_frame_witness :
  let w := Demo.world0 "" (Demo.config_noted "#!avg=1.00;") in
  let w' := snd (@config_manager.test_multiple_configs Demo.builtins Demo.host
                   [Demo.config_noted "#!avg=2.00;"] 100 w) in
  config_json w' = config_json w
  /\ config_cache w' = Some (Demo.config_noted "#!avg=1.00;")
  /\ temp_configs w' !! "variant_0.json" = None.
Proof.
  intros w w'.
  destruct (@test_multiple_configs_frame Demo.builtins Demo.host
              [Demo.config_noted "#!avg=2.00;"] 100 w
              (set_config_cache (Some (Demo.config_noted "#!avg=1.00;")) w)
              (Demo.config_noted "#!avg=1.00;") eq_refl)
    as (_ & _ & Hjson & Hcache & _ & _ & _ & _ & Hclean).
  split; [exact Hjson|]. split; [exact Hcache|].
  assert (Hok : @failed
                  (@metrics_of Demo.builtins
                     (@outcome_of Demo.host
                        (@variant_program Demo.builtins Demo.host 100
                           (Demo.config_noted "#!avg=1.00;"))
                        (set_config_cache (Some (Demo.config_noted "#!avg=1.00;")) w))
                     "Original") = false) by (vm_compute; reflexivity).
  rewrite Hok in Hclean. apply Hclean. reflexivity.
Defined.

Lemma test_multiple_configs_result_lemma `{PyBuiltins} `{PyHost}
    (variants : list Config) (n : Z) (w w0 : World) (config : Config) :
  config_helper.get_config_singleton w = (Ret config, w0) ->
  let m0 := metrics_of (outcome_of (variant_program n config) w0) "Original" in
  exists (best_index : Z) (best_metrics : Metrics),
    fst (config_manager.test_multiple_configs variants n w) = Ret (best_index, best_metrics)
    /\ ((best_index = -1 /\ best_metrics = m0)
        \/ exists (k : nat) (variant : Config),
             best_index = Z.of_nat k
             /\ variants !! k = Some variant
             /\ failed m0 = false
             /\ best_metrics
                = variant_metrics n k variant
                    (snd (config_round n 0 (take k variants) (-1, m0)
                            (after_run (variant_program n config) w0)))
             /\ failed best_metrics = false).
Proof.
  intros Hget m0.
  rewrite (test_multiple_configs_eq variants n w w0 config Hget). cbv zeta. fold m0.
  destruct (failed m0) eqn:Hfailed; cbn [fst].
  - exists (-1), m0. split; [reflexivity|]. left. split; reflexivity.
  - destruct (config_round_best n variants 0 (-1, m0)
                (after_run (variant_program n config) w0))
      as [Hbest|(k & variant & Hk & Hfst & Hok)].
    + exists (-1), m0. split; [f_equal; exact Hbest|]. left. split; reflexivity.
    + eexists _, _. split; [f_equal; exact Hfst|].
      right. exists k, variant. cbn [Nat.add]. repeat split; assumption.
Qed.

(** X. What [test_multiple_configs] returns, when the document can be
    read: the baseline under index -1, or one of the variants under its
    own index, an index within the list, with the metrics that variant
    got in its turn; the metrics of a returned variant are never the
    failure marker. *)
Theorem test_multiple_configs_returns_a_variant `{PyBuiltins} `{PyHost}
    (variants : list Config) (n : Z) (w w0 : World) (config : Config) :
  config_helper.get_config_singleton w = (Ret config, w0) ->
  let m0 := metrics_of (outcome_of (variant_program n config) w0) "Original" in
  exists (best_index : Z) (best_metrics : Metrics),
    fst (config_manager.test_multiple_configs variants n w) = Ret (best_index, best_metrics)
    /\ ((best_index = -1 /\ best_metrics = m0)
        \/ exists (k : nat) (variant : Config),
             best_index = Z.of_nat k
             /\ variants !! k = Some variant
             /\ failed m0 = false
             /\ best_metrics
                = variant_metrics n k variant
                    (snd (config_round n 0 (take k variants) (-1, m0)
                            (after_run (variant_program n config) w0)))
             /\ failed best_metrics = false).
Proof.
  intros Hget m0.
  exact (test_multiple_configs_result_lemma variants n w w0 config Hget).
Qed.

Lemma test_multiple_configs_returns_a_variant_witness :
  exists (best_index : Z) (best_metrics : Metrics),
    fst (@config_manager.test_multiple_configs Demo.builtins Demo.host
           [Demo.config_noted "#!crash"; Demo.config_noted "#!avg=2.00;"] 100
           (Demo.world0 "" (Demo.config_noted "#!avg=1.00;")))
    = Ret (best_index, best_metrics)
    /\ failed best_metrics = false.
Proof.
  destruct (@test_multiple_configs_returns_a_variant Demo.builtins Demo.host
              [Demo.config_noted "#!crash"; Demo.config_noted "#!avg=2.00;"] 100
              (Demo.world0 "" (Demo.config_noted "#!avg=1.00;"))
              (set_config_cache (Some (Demo.config_noted "#!avg=1.00;"))
                 (Demo.world0 "" (Demo.config_noted "#!avg=1.00;")))
              (Demo.config_noted "#!avg=1.00;") eq_refl)
    as (best_index & best_metrics & Hfst & Hcases).
  exists best_index, best_metrics. split; [exact Hfst|].
  destruct Hcases as [[_ ->]|(k & variant & _ & _ & _ & _ & Hok)]; [|exact Hok].
  vm_compute. reflexivity.
Defined.

(** X. A round and its promotion, as [apply_multi_config_optimization]
    chains them: [test_multiple_configs] and then [save_best_config] on
    the index it returned, from a store whose config.json is there and
    whose backups are all of the past. Both return. The promotion says
    True exactly when the round returned a variant: then config.json is
    that variant, the next [get_config_singleton] returns it, its metrics
    were not the failure marker, and the document of before is in the
    history. Otherwise nothing is changed by the promotion and
    config.json is the document of before. The backups are again all of
    the past. *)
Theorem config_round_then_promotion `{PyBuiltins} `{PyHost}
    (variants : list Config) (n : Z) (s : Store) (live : Config) :
  config_json (world s) = Some live ->
  config_history_in_the_past s ->
  exists (best_index : Z) (best_metrics : Metrics) (s1 : Store) (saved : bool) (s2 : Store),
    in_world (config_manager.test_multiple_configs variants n) s
    = (Ret (best_index, best_metrics), s1)
    /\ config_manager.save_best_config variants best_index s1 = (Ret saved, s2)
    /\ (saved = true <-> best_index <> -1)
    /\ (saved = true ->
        exists (k : nat) (variant : Config),
          best_index = Z.of_nat k
          /\ variants !! k = Some variant
          /\ failed best_metrics = false
          /\ config_json (world s2) = Some variant
          /\ fst (in_world config_helper.get_config_singleton s2) = Ret variant
          /\ config_history s2 !! config_backup_name s1 = Some (live, clock (world s1)))
    /\ (saved = false -> s2 = s1 /\ config_json (world s2) = Some live)
    /\ config_history_in_the_past s2.
Proof.
  intros Hlive Hpast.
  assert (Hget : exists config w0,
            config_helper.get_config_singleton (world s) = (Ret config, w0)).
  { pose proof (get_config_singleton_spec (world s)) as Hspec.
    destruct (config_cache (world s)); [eexists _, _; exact Hspec|].
    rewrite Hlive in Hspec. eexists _, _. exact Hspec. }
  destruct Hget as (config & w0 & Hget).
  destruct (test_multiple_configs_frame_lemma variants n (world s) w0 config Hget)
    as (_ & _ & Hjson & _ & _ & _ & Hclock & _).
  destruct (test_multiple_configs_result_lemma variants n (world s) w0 config Hget)
    as (best_index & best_metrics & Hfst & Hcases).
  unfold in_world.
  destruct (config_manager.test_multiple_configs variants n (world s)) as [r w1] eqn:Hround.
  cbn [fst snd] in Hfst, Hjson, Hclock. subst r.
  set (s1 := set_world (fun _ => w1) s).
  assert (Hlive1 : config_json (world s1) = Some live) by (cbn; congruence).
  assert (Hpast1 : config_history_in_the_past s1).
  { intros name content ctime Hl. cbn in Hl |- *. specialize (Hpast _ _ _ Hl). lia. }
  exists best_index, best_metrics, s1.
  destruct Hcases as [[-> _]|(k & variant & -> & Hk & _ & _ & Hok)].
  - exists false, s1. split; [reflexivity|]. split; [reflexivity|].
    split; [split; [discriminate|intros Hne; destruct Hne; reflexivity]|].
    split; [discriminate|]. split; [intros _; split; [reflexivity|exact Hlive1]|exact Hpast1].
  - destruct (save_best_config_lemma variants (Z.of_nat k) s1 live Hlive1 Hpast1 ltac:(lia))
      as (saved & s2 & Hsave & Hhist2 & Hclock2 & _ & _ & Hbest).
    assert (Hindex : index_Z variants (Z.of_nat k) = Ret variant).
    { unfold index_Z, index.
      replace (0 <=? Z.of_nat k) with true by (symmetry; apply Z.leb_le; lia).
      rewrite Nat2Z.id, Hk. reflexivity. }
    rewrite Hindex in Hbest. destruct Hbest as (-> & Hjson2 & _ & _ & Hread).
    exists true, s2. split; [reflexivity|]. split; [exact Hsave|].
    split; [split; [lia|reflexivity]|].
    split; [|split; [discriminate|]].
    + intros _. exists k, variant. repeat split; try assumption.
      rewrite Hhist2. apply lookup_insert_eq.
    + intros name content ctime Hl. rewrite Hhist2 in Hl.
      destruct (decide (name = config_backup_name s1)) as [->|Hne].
      * rewrite lookup_insert_eq in Hl. injection Hl as _ <-. exact Hclock2.
      * rewrite lookup_insert_ne in Hl by congruence.
        specialize (Hpast1 _ _ _ Hl). lia.
Qed.

Lemma config_round_then_promotion_witness :
  let s := mkStore (Demo.world0 "" (Demo.config_noted "#!avg=1.00;")) None ∅ in
  exists (best_index : Z) (best_metrics : Metrics) (s1 : Store) (saved : bool) (s2 : Store),
    in_world (@config_manager.test_multiple_configs Demo.builtins Demo.host
                [Demo.config_noted "#!avg=2.00;"] 100) s
    = (Ret (best_index, best_metrics), s1)
    /\ @config_manager.save_best_config Demo.host [Demo.config_noted "#!avg=2.00;"]
         best_index s1 = (Ret saved, s2)
    /\ (saved = true <-> best_index <> -1)
    /\ config_history_in_the_past s2.
Proof.
  intros s.
  destruct (@config_round_then_promotion Demo.builtins Demo.host
              [Demo.config_noted "#!avg=2.00;"] 100 s (Demo.config_noted "#!avg=1.00;")
              eq_refl)
    as (best_index & best_metrics & s1 & saved & s2 & Hround & Hsave & Hiff & _ & _ & Hpast).
  - intros name content ctime Hl. cbn in Hl. rewrite lookup_empty in Hl. discriminate.
  - exists best_index, best_metrics, s1, saved, s2. auto.
Defined.

(** ** Forcing a rewrite *)

(** X. [should_force_rewrite] looks the average up under the key
    avg_last_<metrics_window_size>, the size being the one of the flat
    configuration, 50 when it has none. When the metrics have no such
    key (as when the configured size is not the size the metrics were
    summarised with), the average counts as 0, the two rules on the
    average never fire, and the answer is trap_hit_rate > 0.8 alone,
    provided success_rate can be compared with a number. And an average
    below -5.0 forces a rewrite without the other metrics being looked
    at. *)
Theorem should_force_rewrite_average_key `{PyBuiltins}
    (metrics : gmap string PyVal) (s s' : Store) (flat : gmap string PyVal) :
  config_helper.get_flat_config s = (Ret flat, s') ->
  let avg_key := "avg_last_" +:+ py_str (default (VInt 50) (flat !! "metrics_window_size")) in
  (metrics !! avg_key = None ->
   agent_validation_rewrite.should_force_rewrite metrics s
   = (match py_lt (default (VInt 0) (metrics !! "success_rate")) (VFloat 0.05) with
      | Ret _ => py_gt (default (VInt 0) (metrics !! "trap_hit_rate")) (VFloat 0.8)
      | Raise e => Raise e
      end, s'))
  /\ (forall avg_return,
        metrics !! avg_key = Some avg_return ->
        py_lt avg_return (VFloat (-5.0)) = Ret true ->
        agent_validation_rewrite.should_force_rewrite metrics s = (Ret true, s')).
Proof.
  intros Hflat avg_key.
  unfold agent_validation_rewrite.should_force_rewrite.
  split.
  - intros Hkey. unfold mbind, MS_mbind, MS_bind_, liftS, mret, MS_mret.
    rewrite Hflat. fold avg_key. rewrite Hkey. cbn [default from_option id].
    change (py_lt (VInt 0) (VFloat (-5.0))) with (Ret false).
    destruct (py_lt (default (VInt 0) (metrics !! "success_rate")) (VFloat 0.05))
      as [[|]|e]; [|reflexivity|reflexivity].
    change (py_lt (VInt 0) (VFloat (-2.0))) with (Ret false). reflexivity.
  - intros avg_return Hkey Hpoor. unfold mbind, MS_mbind, MS_bind_, liftS, mret, MS_mret.
    rewrite Hflat. fold avg_key. rewrite Hkey. cbn [default from_option id].
    rewrite Hpoor. reflexivity.
Qed.

Lemma should_force_rewrite_average_key_witness :
  let s := mkStore (Demo.world0 "" ∅) (Some {[ "metrics_window_size" := VInt 20 ]}) ∅ in
  @agent_validation_rewrite.should_force_rewrite Demo.builtins
    {[ "avg_last_50" := VFloat (-9.0); "success_rate" := VFloat 0.0;
       "trap_hit_rate" := VFloat 0.5 ]} s
  = (Ret false, s).
Proof.
  intros s.
  etransitivity.
  - apply (proj1 (@should_force_rewrite_average_key Demo.builtins
                    {[ "avg_last_50" := VFloat (-9.0); "success_rate" := VFloat 0.0;
                       "trap_hit_rate" := VFloat 0.5 ]} s s
                    {[ "metrics_window_size" := VInt 20 ]} eq_refl)).
    reflexivity.
  - reflexivity.
Defined.

(** ** The grid world: one step *)

Lemma ACTIONS_lookup (action : Z) :
  env.ACTIONS !! action
  = if action =? 0 then Some (env.Move (-1) 0)
    else if action =? 1 then Some (env.Move 1 0)
    else if action =? 2 then Some (env.Move 0 (-1))
    else if action =? 3 then Some (env.Move 0 1)
    else if action =? 4 then Some env.Sense
    else None.
Proof.
  destruct (Z.eqb_spec action 0) as [->|H0]; [reflexivity|].
  destruct (Z.eqb_spec action 1) as [->|H1]; [reflexivity|].
  destruct (Z.eqb_spec action 2) as [->|H2]; [reflexivity|].
  destruct (Z.eqb_spec action 3) as [->|H3]; [reflexivity|].
  destruct (Z.eqb_spec action 4) as [->|H4]; [reflexivity|].
  unfold env.ACTIONS.
  rewrite !lookup_insert_ne by congruence. apply lookup_singleton_ne. congruence.
Qed.

(** X. A move in the grid. From a position inside the grid, an action
    0, 1, 2 or 3 takes the agent to a cell inside the grid, the same or
    the one next to it in the direction of the action; goal, traps and
    size are untouched, and this holds whether [step] returns or raises.
    When it returns, it returns the new position with an empty info, and
    done is True exactly when the new position is the goal: a trap does
    not end the episode. *)
Theorem step_moves_within_the_grid `{PyArith}
    (action : Z) (g : env.GridWorld) (s s' : Store) (config : gmap string PyVal)
    (r c : Z) :
  config_helper.get_flat_config s = (Ret config, s') ->
  env.state g = Some (r, c) ->
  in_grid g (r, c) ->
  0 <= action <= 3 ->
  exists (result : Res env.StepResult) (g' : env.GridWorld) (r' c' : Z),
    env.step action g s = (result, g', s')
    /\ g' = env.set_state (Some (r', c')) g
    /\ in_grid g (r', c')
    /\ (r', c') = (Z.max 0 (Z.min (env.rows g - 1)
                              (r + (if action =? 0 then -1 else if action =? 1 then 1 else 0))),
                   Z.max 0 (Z.min (env.cols g - 1)
                              (c + (if action =? 2 then -1 else if action =? 3 then 1 else 0))))
    /\ ((r', c') = (r, c) \/ next_to (r', c') (r, c))
    /\ forall next_state reward done info,
         result = Ret (next_state, reward, done, info) ->
         next_state = Some (r', c') /\ info = None
         /\ (done = true <-> env.goal g = Some (r', c')).
Proof.
  intros Hflat Hstate [Hr Hc] Haction. cbn [fst snd] in Hr, Hc.
  unfold env.step. rewrite Hflat. unfold env.step_with.
  replace (action =? 4) with false by (symmetry; apply Z.eqb_neq; lia).
  rewrite ACTIONS_lookup, Hstate.
  assert (Hmove : exists dr dc,
            (if action =? 0 then Some (env.Move (-1) 0)
             else if action =? 1 then Some (env.Move 1 0)
             else if action =? 2 then Some (env.Move 0 (-1))
             else if action =? 3 then Some (env.Move 0 1)
             else if action =? 4 then Some env.Sense else None) = Some (env.Move dr dc)
            /\ dr = (if action =? 0 then -1 else if action =? 1 then 1 else 0)
            /\ dc = (if action =? 2 then -1 else if action =? 3 then 1 else 0)
            /\ Z.abs dr + Z.abs dc = 1).
  { destruct (Z.eqb_spec action 0); [subst; eexists _, _; repeat split|].
    destruct (Z.eqb_spec action 1); [subst; eexists _, _; repeat split|].
    destruct (Z.eqb_spec action 2); [subst; eexists _, _; repeat split|].
    destruct (Z.eqb_spec action 3); [subst; eexists _, _; repeat split|]. lia. }
  destruct Hmove as (dr & dc & -> & Hdr & Hdc & Hone).
  set (nr := Z.max 0 (Z.min (env.rows g - 1) (r + dr))).
  set (nc := Z.max 0 (Z.min (env.cols g - 1) (c + dc))).
  eexists _, _, nr, nc. split; [reflexivity|]. split; [reflexivity|].
  split; [split; cbn [fst snd]; lia|].
  split; [subst dr dc; reflexivity|].
  split. { unfold next_to. cbn [fst snd]. destruct (decide ((nr, nc) = (r, c))) as [|Hne];
           [left; assumption|right].
           assert (nr <> r \/ nc <> c) by (destruct (decide (nr = r)); [right; congruence|left; assumption]).
           lia. }
  intros next_state reward done info.
  cbn [env.state env.goal env.traps env.set_state].
  unfold mbind, Res_bind, res_bind, getitem.
  destruct (config !! "move_penalty") as [move_penalty|]; [|discriminate].
  destruct (bool_decide (Some (nr, nc) = env.goal g)) eqn:Hgoal.
  - apply bool_decide_eq_true in Hgoal.
    destruct (config !! "goal_reward") as [goal_reward|]; [|discriminate].
    destruct (py_add move_penalty goal_reward); [|discriminate].
    intros [= <- <- <- <-]. repeat split; auto.
  - apply bool_decide_eq_false in Hgoal.
    assert (Hnot : forall P : Prop, (false = true <-> env.goal g = Some (nr, nc)))
      by (intros _; split; [discriminate|congruence]).
    destruct (bool_decide ((nr, nc) ∈ env.traps g)).
    + destruct (config !! "trap_penalty") as [trap_penalty|]; [|discriminate].
      destruct (py_add move_penalty trap_penalty); [|discriminate].
      intros [= <- <- <- <-]. split; [reflexivity|]. split; [reflexivity|]. exact (Hnot True).
    + intros [= <- <- <- <-]. split; [reflexivity|]. split; [reflexivity|]. exact (Hnot True).
Qed.

Lemma step_moves_within_the_grid_witness :
  let g := env.mkGridWorld 3 3 1 (Some (0, 1)) [(1, 1)] (Some (0, 0)) in
  let s := mkStore (Demo.world0 "" ∅)
             (Some {[ "move_penalty" := VFloat (-0.05); "goal_reward" := VFloat 1.0 ]}) ∅ in
  exists reward,
    @env.step Demo.arithmetic 3 g s
    = (Ret (Some (0, 1), reward, true, None), env.set_state (Some (0, 1)) g, s).
Proof.
  intros g s.
  destruct (@step_moves_within_the_grid Demo.arithmetic 3 g s s
              {[ "move_penalty" := VFloat (-0.05); "goal_reward" := VFloat 1.0 ]} 0 0
              eq_refl eq_refl)
    as (result & g' & r' & c' & Hstep & -> & _ & Hcell & _ & Hret).
  - split; cbn; lia.
  - lia.
  - cbn in Hcell. injection Hcell as -> ->.
    assert (Hresult : exists reward, result = Ret (Some (0, 1), reward, true, None)).
    { eexists. vm_compute in Hstep. injection Hstep as <-. reflexivity. }
    destruct Hresult as [reward ->]. exists reward. exact Hstep.
Defined.

Lemma NoDup_list_filter {A : Type} (f : A -> bool) (l : list A) :
  NoDup l -> NoDup (List.filter f l).
Proof.
  induction 1 as [|x l Hx Hl IH]; cbn [List.filter]; [constructor|].
  destruct (f x); [|exact IH]. constructor; [|exact IH].
  rewrite list_elem_of_In, filter_In, <- list_elem_of_In. tauto.
Qed.

(** X. The sense action. Action 4 moves nothing and ends nothing: [step]
    returns the position as it is, the sense_penalty of the flat
    configuration (-0.1 when it has none), done False, and the adjacent
    traps; the grid world is unchanged. The adjacent traps are, each
    once, the cells that hold a trap, lie inside the grid and are next to
    the agent; before the first reset there is none. *)
Theorem step_sense_reports_adjacent_traps `{PyArith}
    (g : env.GridWorld) (s s' : Store) (config : gmap string PyVal) :
  config_helper.get_flat_config s = (Ret config, s') ->
  exists adjacent_traps : list (Z * Z),
    env.step 4 g s
    = (Ret (env.state g, default (VFloat (-0.1)) (config !! "sense_penalty"), false,
            Some adjacent_traps), g, s')
    /\ adjacent_traps = env._get_adjacent_traps g (env.state g)
    /\ NoDup adjacent_traps
    /\ match env.state g with
       | None => adjacent_traps = []
       | Some position =>
           forall cell, cell ∈ adjacent_traps
                        <-> cell ∈ env.traps g /\ in_grid g cell /\ next_to cell position
       end.
Proof.
  intros Hflat. unfold env.step. rewrite Hflat. unfold env.step_with.
  change (4 =? 4) with true. cbv iota.
  eexists. split; [reflexivity|]. split; [reflexivity|].
  unfold env._get_adjacent_traps.
  destruct (env.state g) as [[r c]|]; [|split; [constructor|reflexivity]].
  cbn [map fst snd]. split.
  - apply NoDup_list_filter.
    repeat (apply NoDup_cons; split;
            [rewrite ?elem_of_cons, elem_of_nil; intros Hin;
             repeat (destruct Hin as [Hin|Hin]; [injection Hin; lia|]); destruct Hin|]).
    apply NoDup_nil_2.
  - intros [nr nc]. rewrite list_elem_of_In, filter_In, <- list_elem_of_In.
    rewrite !andb_true_iff, bool_decide_eq_true, !Z.leb_le, !Z.ltb_lt.
    rewrite !elem_of_cons, elem_of_nil. unfold in_grid, next_to. cbn [fst snd].
    split.
    + intros (Hcell & (((? & ?) & ?) & ?) & Htrap).
      split; [exact Htrap|]. split; [lia|].
      destruct Hcell as [Hc|[Hc|[Hc|[Hc|[]]]]]; injection Hc as -> ->; lia.
    + intros (Htrap & (? & ?) & Hnext).
      split; [|repeat split; first [lia | exact Htrap]].
      assert (Hcases : (nr = r + -1 /\ nc = c + 0) \/ (nr = r + 1 /\ nc = c + 0)
                       \/ (nr = r + 0 /\ nc = c + -1) \/ (nr = r + 0 /\ nc = c + 1)) by lia.
      destruct Hcases as [[-> ->]|[[-> ->]|[[-> ->]|[-> ->]]]]; auto 10.
Qed.

Lemma step_sense_reports_adjacent_traps_witness :
  let g := env.mkGridWorld 3 3 2 (Some (0, 1)) [(1, 1); (2, 2)] (Some (1, 2)) in
  let s := mkStore (Demo.world0 "" ∅) (Some ∅) ∅ in
  @env.step Demo.arithmetic 4 g s
  = (Ret (Some (1, 2), VFloat (-0.1), false, Some [(2, 2); (1, 1)]), g, s).
Proof.
  intros g s.
  destruct (@step_sense_reports_adjacent_traps Demo.arithmetic g s s ∅ eq_refl)
    as (adjacent_traps & Hstep & -> & _).
  exact Hstep.
Defined.

(** X. How [step] fails. An action that is not 0, 1, 2, 3 or 4 raises
    KeyError, and a move before the first reset raises TypeError; in both
    cases the grid world is as it was. A move with no move_penalty in the
    flat configuration raises KeyError too, but only after the agent has
    been moved: the position of the grid world is the new one. *)
Theorem step_failures `{PyArith}
    (action : Z) (g : env.GridWorld) (s s' : Store) (config : gmap string PyVal) :
  config_helper.get_flat_config s = (Ret config, s') ->
  ((action < 0 \/ 4 < action) -> env.step action g s = (Raise KeyError, g, s'))
  /\ (0 <= action <= 3 -> env.state g = None ->
      env.step action g s = (Raise TypeError, g, s'))
  /\ (0 <= action <= 3 -> config !! "move_penalty" = None ->
      forall r c, env.state g = Some (r, c) ->
        env.step action g s
        = (Raise KeyError,
           env.set_state
             (Some (Z.max 0 (Z.min (env.rows g - 1)
                               (r + (if action =? 0 then -1 else if action =? 1 then 1 else 0))),
                    Z.max 0 (Z.min (env.cols g - 1)
                               (c + (if action =? 2 then -1 else if action =? 3 then 1 else 0)))))
             g,
           s')).
Proof.
  intros Hflat. unfold env.step. rewrite Hflat. unfold env.step_with.
  rewrite ACTIONS_lookup. split; [|split].
  - intros Hout.
    repeat match goal with
           | |- context [action =? ?b] => destruct (Z.eqb_spec action b); [lia|]
           end.
    reflexivity.
  - intros Hin Hstate. rewrite Hstate.
    replace (action =? 4) with false by (symmetry; apply Z.eqb_neq; lia).
    destruct (Z.eqb_spec action 0); [reflexivity|].
    destruct (Z.eqb_spec action 1); [reflexivity|].
    destruct (Z.eqb_spec action 2); [reflexivity|].
    destruct (Z.eqb_spec action 3); [reflexivity|]. lia.
  - intros Hin Hpenalty r c Hstate. rewrite Hstate.
    replace (action =? 4) with false by (symmetry; apply Z.eqb_neq; lia).
    unfold mbind, Res_bind, res_bind, getitem. rewrite Hpenalty.
    destruct (Z.eqb_spec action 0) as [->|]; [reflexivity|].
    destruct (Z.eqb_spec action 1) as [->|]; [reflexivity|].
    destruct (Z.eqb_spec action 2) as [->|]; [reflexivity|].
    destruct (Z.eqb_spec action 3) as [->|]; [reflexivity|].
    lia.
Qed.

Lemma step_failures_witness :
  let g := env.mkGridWorld 3 3 0 (Some (2, 2)) [] (Some (0, 0)) in
  let s := mkStore (Demo.world0 "" ∅) (Some ∅) ∅ in
  @env.step Demo.arithmetic 1 g s
  = (Raise KeyError, env.set_state (Some (1, 0)) g, s).
Proof.
  intros g s.
  exact (proj2 (proj2 (@step_failures Demo.arithmetic 1 g s s ∅ eq_refl))
           ltac:(lia) eq_refl 0 0 eq_refl).
Defined.

(** ** The grid world: sampling a layout *)

Lemma randrange_positive (n : Z) (rng : Random) :
  0 < n ->
  randrange n rng = (Ret (Z.of_nat (draws rng (position rng)) mod n), advance 1 rng).
Proof.
  intros Hn. unfold randrange. destruct (Z.leb_spec n 0); [lia|]. reflexivity.
Qed.

Lemma attempt_advance (g : env.GridWorld) (rng : Random) (j : nat) :
  attempt g (advance 2 rng) j = attempt g rng (S j).
Proof.
  unfold attempt, advance. cbn [draws position].
  replace (2 * j + (2 + position rng))%nat with (2 * S j + position rng)%nat by lia.
  reflexivity.
Qed.

Lemma advance_advance (n m : nat) (rng : Random) :
  advance n (advance m rng) = advance (n + m) rng.
Proof. unfold advance. cbn [draws position]. f_equal. lia. Qed.

Lemma attempt_in_grid (g : env.GridWorld) (rng : Random) (k : nat) :
  0 < env.rows g -> 0 < env.cols g -> in_grid g (attempt g rng k).
Proof.
  intros Hr Hc. unfold in_grid, attempt. cbn [fst snd].
  split; apply Z.mod_pos_bound; assumption.
Qed.

Section sampling.
Variable g : env.GridWorld.
Hypothesis Hrows : 0 < env.rows g.
Hypothesis Hcols : 0 < env.cols g.

Lemma random_cell_excluding_step (fuel : nat) (excluded : gset (Z * Z)) (rng : Random) :
  env._random_cell_excluding (S fuel) g excluded rng
  = if bool_decide (attempt g rng 0 ∈ excluded)
    then env._random_cell_excluding fuel g excluded (advance 2 rng)
    else Some (Ret (attempt g rng 0), advance 2 rng).
Proof using Hrows Hcols.
  cbn [env._random_cell_excluding].
  rewrite (randrange_positive _ rng Hrows), (randrange_positive _ (advance 1 rng) Hcols).
  reflexivity.
Qed.

Lemma random_cell_excluding_first (excluded : gset (Z * Z)) (k : nat) :
  forall (fuel : nat) (rng : Random),
    first_free g excluded rng k -> (k < fuel)%nat ->
    env._random_cell_excluding fuel g excluded rng
    = Some (Ret (attempt g rng k), advance (2 * S k) rng).
Proof using Hrows Hcols.
  induction k as [|k IH]; intros fuel rng [Hfree Hbefore] Hfuel;
    (destruct fuel as [|fuel]; [lia|]); rewrite random_cell_excluding_step.
  - rewrite bool_decide_eq_false_2 by exact Hfree. reflexivity.
  - rewrite bool_decide_eq_true_2 by (apply Hbefore; lia).
    rewrite (IH fuel (advance 2 rng)).
    + rewrite attempt_advance, advance_advance. do 2 f_equal. f_equal. lia.
    + split; [rewrite attempt_advance; exact Hfree|].
      intros j Hj. rewrite attempt_advance. apply Hbefore. lia.
    + lia.
Qed.

Lemma random_cell_excluding_none (excluded : gset (Z * Z)) :
  forall (fuel : nat) (rng : Random),
    (forall j, (j < fuel)%nat -> attempt g rng j ∈ excluded) ->
    env._random_cell_excluding fuel g excluded rng = None.
Proof using Hrows Hcols.
  induction fuel as [|fuel IH]; intros rng Hall; [reflexivity|].
  rewrite random_cell_excluding_step.
  rewrite bool_decide_eq_true_2 by (apply Hall; lia).
  apply IH. intros j Hj. rewrite attempt_advance. apply Hall. lia.
Qed.

(** Within any number of turns: all cells drawn are excluded, or there is
    a first one that is not. *)
Lemma first_free_or_none (excluded : gset (Z * Z)) (rng : Random) (n : nat) :
  (forall j, (j < n)%nat -> attempt g rng j ∈ excluded)
  \/ exists k, (k < n)%nat /\ first_free g excluded rng k.
Proof.
  induction n as [|n [Hall|(k & Hk & Hfirst)]].
  - left. intros j Hj. lia.
  - destruct (decide (attempt g rng n ∈ excluded)) as [Hin|Hout].
    + left. intros j Hj. destruct (decide (j = n)) as [->|]; [exact Hin|apply Hall; lia].
    + right. exists n. split; [lia|]. split; assumption.
  - right. exists k. split; [lia|exact Hfirst].
Qed.

Lemma random_cell_excluding_spec (fuel : nat) (excluded : gset (Z * Z)) (rng : Random) :
  match env._random_cell_excluding fuel g excluded rng with
  | Some (result, rng') =>
      exists k, (k < fuel)%nat /\ first_free g excluded rng k
                /\ result = Ret (attempt g rng k) /\ rng' = advance (2 * S k) rng
  | None => forall j, (j < fuel)%nat -> attempt g rng j ∈ excluded
  end.
Proof using Hrows Hcols.
  destruct (first_free_or_none excluded rng fuel) as [Hall|(k & Hk & Hfirst)].
  - rewrite random_cell_excluding_none by exact Hall. exact Hall.
  - rewrite (random_cell_excluding_first excluded k fuel rng Hfirst Hk).
    exists k. repeat split; first [assumption | apply Hfirst].
Qed.

End sampling.

(** X. The loop of [_random_cell_excluding] on a grid with rows and
    columns: it returns the first cell drawn that is not excluded, a
    cell of the grid, having taken two draws for every turn; and within
    any number of turns it does not end exactly when every cell drawn in
    those turns is excluded. It raises nothing. *)
Theorem random_cell_excluding_returns_first_free
    (g : env.GridWorld) (fuel : nat) (excluded : gset (Z * Z)) (rng : Random) :
  0 < env.rows g -> 0 < env.cols g ->
  match env._random_cell_excluding fuel g excluded rng with
  | Some (result, rng') =>
      exists k, (k < fuel)%nat
                /\ result = Ret (attempt g rng k)
                /\ (attempt g rng k ∉ excluded)
                /\ (forall j, (j < k)%nat -> attempt g rng j ∈ excluded)
                /\ in_grid g (attempt g rng k)
                /\ rng' = advance (2 * S k) rng
  | None => forall j, (j < fuel)%nat -> attempt g rng j ∈ excluded
  end.
Proof.
  intros Hrows Hcols.
  pose proof (random_cell_excluding_spec g Hrows Hcols fuel excluded rng) as Hspec.
  destruct (env._random_cell_excluding fuel g excluded rng) as [[result rng']|];
    [|exact Hspec].
  destruct Hspec as (k & Hk & [Hfree Hbefore] & -> & ->).
  exists k. split; [exact Hk|]. split; [reflexivity|]. split; [exact Hfree|].
  split; [exact Hbefore|]. split; [apply attempt_in_grid; assumption|reflexivity].
Qed.

Lemma random_cell_excluding_returns_first_free_witness :
  env._random_cell_excluding 5 (env.__init__ 2 0) {[ (0, 0); (0, 1) ]} (Demo.sweep 2)
  = Some (Ret (1, 0), advance 6 (Demo.sweep 2)).
Proof.
  pose proof (random_cell_excluding_returns_first_free (env.__init__ 2 0) 5
                {[ (0, 0); (0, 1) ]} (Demo.sweep 2) ltac:(cbn; lia) ltac:(cbn; lia))
    as Hspec.
  destruct (env._random_cell_excluding 5 (env.__init__ 2 0) {[ (0, 0); (0, 1) ]}
              (Demo.sweep 2)) as [[result rng']|] eqn:Hrun.
  - destruct Hspec as (k & Hk & -> & Hfree & Hbefore & _ & ->).
    assert (Hk2 : k = 2%nat).
    { destruct k as [|[|[|k]]].
      - exfalso. apply Hfree. vm_compute. reflexivity.
      - exfalso. apply Hfree. vm_compute. reflexivity.
      - reflexivity.
      - exfalso. specialize (Hbefore 2%nat ltac:(lia)). vm_compute in Hbefore.
        discriminate. }
    subst k. reflexivity.
  - exfalso. specialize (Hspec 2%nat ltac:(lia)). vm_compute in Hspec. discriminate.
Defined.

(** The cells of the grid, counted. *)

Lemma NoDup_list_prod {A B : Type} (l : list A) (k : list B) :
  NoDup l -> NoDup k -> NoDup (list_prod l k).
Proof.
  intros Hl Hk. induction Hl as [|x l Hx Hl IH]; cbn [list_prod]; [constructor|].
  apply NoDup_app. split; [|split; [|exact IH]].
  - apply NoDup_fmap_2; [|exact Hk]. intros b1 b2 [= ->]. reflexivity.
  - intros [a b] Hin1 Hin2.
    apply list_elem_of_fmap in Hin1 as (b' & [= -> ->] & _).
    apply list_elem_of_In, in_prod_iff in Hin2 as [Hin2 _].
    apply Hx, list_elem_of_In. exact Hin2.
Qed.

Lemma grid_cells_spec (g : env.GridWorld) (cell : Z * Z) :
  cell ∈ grid_cells g <-> in_grid g cell.
Proof.
  unfold grid_cells, in_grid. destruct cell as [r c]. cbn [fst snd].
  rewrite list_elem_of_In, in_prod_iff, <- !list_elem_of_In, !elem_of_seqZ. lia.
Qed.

Lemma grid_cells_NoDup (g : env.GridWorld) : NoDup (grid_cells g).
Proof. apply NoDup_list_prod; apply NoDup_seqZ. Qed.

Lemma grid_cells_length (g : env.GridWorld) :
  0 <= env.rows g -> 0 <= env.cols g ->
  Z.of_nat (length (grid_cells g)) = env.rows g * env.cols g.
Proof.
  intros Hr Hc. unfold grid_cells. rewrite length_prod, !length_seqZ. lia.
Qed.

(** Fewer cells taken than the grid has: one is free. *)
Lemma free_cell_exists (g : env.GridWorld) (taken : list (Z * Z)) :
  (length taken < length (grid_cells g))%nat ->
  exists cell, in_grid g cell /\ (cell ∉ taken).
Proof.
  intros Hlen.
  destruct (decide (Forall (fun cell => cell ∈ taken) (grid_cells g))) as [Hall|Hnot].
  - exfalso.
    assert (Hsub : grid_cells g ⊆+ taken).
    { apply NoDup_submseteq; [apply grid_cells_NoDup|].
      intros cell Hcell. rewrite Forall_forall in Hall. apply Hall. exact Hcell. }
    apply submseteq_length in Hsub. lia.
  - apply not_Forall_Exists in Hnot; [|intros cell; apply _].
    apply Exists_exists in Hnot as (cell & Hcell & Hfree).
    exists cell. split; [apply grid_cells_spec; exact Hcell|exact Hfree].
Qed.

(** As many different cells of the grid taken as the grid has: none is free. *)
Lemma no_cell_is_free (g : env.GridWorld) (taken : list (Z * Z)) :
  NoDup taken -> Forall (in_grid g) taken ->
  (length (grid_cells g) <= length taken)%nat ->
  forall cell, in_grid g cell -> cell ∈ taken.
Proof.
  intros Hnodup Hin Hlen cell Hcell.
  assert (Hsub : taken ⊆+ grid_cells g).
  { apply NoDup_submseteq; [exact Hnodup|].
    intros x Hx. apply grid_cells_spec. rewrite Forall_forall in Hin. apply Hin. exact Hx. }
  apply (submseteq_length_Permutation _ _ Hsub) in Hlen.
  rewrite Hlen. apply grid_cells_spec. exact Hcell.
Qed.

Lemma attempt_same_grid (g0 g : env.GridWorld) (rng : Random) (k : nat) :
  env.rows g = env.rows g0 -> env.cols g = env.cols g0 ->
  attempt g rng k = attempt g0 rng k.
Proof. intros Hr Hc. unfold attempt. rewrite Hr, Hc. reflexivity. Qed.

Lemma placed_add_trap (g0 g : env.GridWorld) (occupied : gset (Z * Z)) (cell : Z * Z) :
  placed g0 g occupied -> cell ∉ occupied -> in_grid g0 cell ->
  placed g0 (env.set_traps (env.traps g ++ [cell]) g) ({[ cell ]} ∪ occupied).
Proof.
  intros (Hr & Hc & Hn & Hs & gl & Hgoal & Hocc & Hnodup & Hgrid) Hfree Hcell.
  unfold placed. cbn [env.rows env.cols env.n_traps env.state env.goal env.traps env.set_traps].
  repeat (split; [assumption|]).
  exists gl. split; [exact Hgoal|]. split; [|split].
  - intros x. rewrite elem_of_union, elem_of_singleton, Hocc, app_comm_cons, elem_of_app,
      list_elem_of_singleton. tauto.
  - rewrite app_comm_cons. apply NoDup_app. split; [exact Hnodup|]. split.
    + intros x Hx Hx'. apply list_elem_of_singleton in Hx'. subst x.
      apply Hfree, Hocc. exact Hx.
    + apply NoDup_singleton.
  - rewrite app_comm_cons. apply Forall_app. split; [exact Hgrid|].
    constructor; [exact Hcell|constructor].
Qed.

Section layout.
Variable g0 : env.GridWorld.
Hypothesis Hrows : 0 < env.rows g0.
Hypothesis Hcols : 0 < env.cols g0.

Lemma random_cell_excluding_free (fuel : nat) (g : env.GridWorld)
    (excluded : gset (Z * Z)) (rng : Random) (result : Res (Z * Z)) (rng' : Random) :
  env.rows g = env.rows g0 -> env.cols g = env.cols g0 ->
  env._random_cell_excluding fuel g excluded rng = Some (result, rng') ->
  exists cell, result = Ret cell /\ (cell ∉ excluded) /\ in_grid g0 cell.
Proof using Hrows Hcols.
  intros Hr Hc Hrun.
  assert (Hr' : 0 < env.rows g) by lia. assert (Hc' : 0 < env.cols g) by lia.
  pose proof (random_cell_excluding_spec g Hr' Hc' fuel excluded rng) as Hspec.
  rewrite Hrun in Hspec. destruct Hspec as (k & _ & [Hfree _] & -> & _).
  eexists. split; [reflexivity|]. split; [exact Hfree|].
  rewrite (attempt_same_grid g0 g) by assumption. apply attempt_in_grid; assumption.
Qed.

Lemma sample_traps_safe (fuel : nat) (count : nat) :
  forall (g : env.GridWorld) (occupied : gset (Z * Z)) (rng : Random)
         (result : Res unit) (g' : env.GridWorld) (rng' : Random),
    placed g0 g occupied ->
    env.sample_traps fuel count g occupied rng = Some (result, g', rng') ->
    result = Ret tt
    /\ (exists occupied', placed g0 g' occupied')
    /\ length (env.traps g') = (length (env.traps g) + count)%nat.
Proof using Hrows Hcols.
  induction count as [|count IH]; intros g occupied rng result g' rng' Hplaced Hrun;
    cbn [env.sample_traps] in Hrun.
  - injection Hrun as <- <- <-. split; [reflexivity|]. split; [exists occupied; exact Hplaced|lia].
  - destruct (env._random_cell_excluding fuel g occupied rng) as [[r rng1]|] eqn:Hcell;
      [|discriminate].
    destruct Hplaced as (Hr & Hc & Hrest).
    destruct (random_cell_excluding_free _ _ _ _ _ _ Hr Hc Hcell) as (cell & -> & Hfree & Hin).
    destruct (IH _ _ _ _ _ _
                (placed_add_trap g0 g occupied cell (conj Hr (conj Hc Hrest)) Hfree Hin) Hrun)
      as (-> & Hplaced' & Hlen).
    split; [reflexivity|]. split; [exact Hplaced'|].
    rewrite Hlen. cbn [env.traps env.set_traps]. rewrite length_app. cbn. lia.
Qed.

Lemma reset_safe (fuel : nat) (rng : Random) (result : Res (Z * Z)) (g' : env.GridWorld)
    (rng' : Random) :
  env.reset fuel g0 rng = Some (result, g', rng') ->
  exists start, result = Ret start /\ layout_ok g0 g' start.
Proof using Hrows Hcols.
  unfold env.reset, env._sample_layout. intros Hrun.
  destruct (env._random_cell_excluding fuel g0 ∅ rng) as [[r rng1]|] eqn:Hgoal;
    [|discriminate].
  destruct (random_cell_excluding_free _ _ _ _ _ _ eq_refl eq_refl Hgoal)
    as (gl & -> & _ & Hgl).
  set (g1 := env.set_traps [] (env.set_goal (Some gl) g0)) in Hrun.
  assert (Hplaced1 : placed g0 g1 ({[ gl ]} ∪ ∅)).
  { unfold placed, g1. cbn. repeat (split; [reflexivity|]).
    exists gl. split; [reflexivity|]. split; [|split].
    - intros x. rewrite elem_of_union, elem_of_singleton, list_elem_of_singleton.
      rewrite elem_of_empty. tauto.
    - apply NoDup_singleton.
    - constructor; [exact Hgl|constructor]. }
  destruct (env.sample_traps fuel (Z.to_nat (env.n_traps g1)) g1 ({[ gl ]} ∪ ∅) rng1)
    as [[[r2 g2] rng2]|] eqn:Htraps; [|discriminate].
  destruct (sample_traps_safe _ _ _ _ _ _ _ _ Hplaced1 Htraps)
    as (-> & (occupied2 & Hr2 & Hc2 & Hn2 & Hs2 & gl2 & Hgoal2 & _ & Hnodup2 & Hgrid2) & Hlen2).
  unfold env._random_unoccupied_cell in Hrun. rewrite Hgoal2 in Hrun.
  destruct (env._random_cell_excluding fuel g2 ({[ gl2 ]} ∪ list_to_set (env.traps g2)) rng2)
    as [[r3 rng3]|] eqn:Hstart; [|discriminate].
  destruct (random_cell_excluding_free _ _ _ _ _ _ Hr2 Hc2 Hstart) as (start & -> & Hfree & Hin).
  injection Hrun as <- <- <-.
  exists start. split; [reflexivity|].
  unfold layout_ok.
  cbn [env.rows env.cols env.n_traps env.state env.goal env.traps env.set_state].
  repeat (split; [assumption|]). split; [reflexivity|].
  exists gl2. split; [exact Hgoal2|]. split; [|split].
  - rewrite Hlen2. reflexivity.
  - constructor; [|exact Hnodup2].
    intros Hin'. apply Hfree. rewrite elem_of_union, elem_of_singleton, elem_of_list_to_set.
    apply elem_of_cons in Hin'. exact Hin'.
  - constructor; [exact Hin|exact Hgrid2].
Qed.

Lemma fair_first_free (g : env.GridWorld) (occupied : gset (Z * Z))
    (taken : list (Z * Z)) (rng : Random) (n : nat) :
  env.rows g = env.rows g0 -> env.cols g = env.cols g0 ->
  fair g0 rng ->
  (forall cell, cell ∈ occupied <-> cell ∈ taken) ->
  (length taken < length (grid_cells g0))%nat ->
  exists k, first_free g occupied (advance (2 * n) rng) k.
Proof using Hrows Hcols.
  intros Hr Hc Hfair Hocc Hlen.
  destruct (free_cell_exists g0 taken Hlen) as (cell & Hcell & Hfree).
  destruct (Hfair n cell Hcell) as [k Hk].
  assert (Hr' : 0 < env.rows g) by lia. assert (Hc' : 0 < env.cols g) by lia.
  destruct (first_free_or_none g occupied (advance (2 * n) rng) (S k))
    as [Hall|(k0 & _ & Hfirst)].
  - exfalso. apply Hfree, Hocc. rewrite <- Hk, <- (attempt_same_grid g0 g) by assumption.
    apply Hall. lia.
  - exists k0. exact Hfirst.
Qed.

Lemma sample_traps_returns (rng : Random) (count : nat) :
  fair g0 rng ->
  forall (g : env.GridWorld) (occupied : gset (Z * Z)) (n : nat),
    placed g0 g occupied ->
    (length (env.traps g) + count < length (grid_cells g0))%nat ->
    exists (g' : env.GridWorld) (m fuel0 : nat),
      forall fuel, (fuel0 <= fuel)%nat ->
        env.sample_traps fuel count g occupied (advance (2 * n) rng)
        = Some (Ret tt, g', advance (2 * m) rng).
Proof using Hrows Hcols.
  intros Hfair. induction count as [|count IH]; intros g occupied n Hplaced Hlen.
  - exists g, n, 0%nat. intros fuel _. reflexivity.
  - pose proof Hplaced as (Hr & Hc & _ & _ & gl & _ & Hocc & _ & _).
    assert (Hr' : 0 < env.rows g) by lia. assert (Hc' : 0 < env.cols g) by lia.
    destruct (fair_first_free g occupied (gl :: env.traps g) rng n Hr Hc Hfair Hocc)
      as [k Hfirst]; [cbn [length]; lia|].
    set (cell := attempt g (advance (2 * n) rng) k).
    destruct (IH (env.set_traps (env.traps g ++ [cell]) g) ({[ cell ]} ∪ occupied) (S k + n)%nat)
      as (g' & m & fuel1 & Hrest).
    + apply placed_add_trap; [exact Hplaced|apply Hfirst|].
      unfold cell. rewrite (attempt_same_grid g0 g) by assumption.
      apply attempt_in_grid; assumption.
    + cbn [env.traps env.set_traps]. rewrite length_app. cbn [length]. lia.
    + exists g', m, (Nat.max (S k) fuel1). intros fuel Hfuel.
      cbn [env.sample_traps].
      rewrite (random_cell_excluding_first g Hr' Hc' occupied k fuel _ Hfirst) by lia.
      rewrite advance_advance.
      replace (2 * S k + 2 * n)%nat with (2 * (S k + n))%nat by lia.
      apply Hrest. lia.
Qed.

Lemma reset_returns (rng : Random) :
  fair g0 rng ->
  (Z.to_nat (env.n_traps g0) + 2 <= length (grid_cells g0))%nat ->
  exists (start : Z * Z) (g' : env.GridWorld) (rng' : Random) (fuel0 : nat),
    forall fuel, (fuel0 <= fuel)%nat ->
      env.reset fuel g0 rng = Some (Ret start, g', rng').
Proof using Hrows Hcols.
  intros Hfair Hroom.
  assert (Hrng : rng = advance (2 * 0) rng) by (destruct rng; reflexivity).
  (* the goal *)
  destruct (fair_first_free g0 ∅ [] rng 0 eq_refl eq_refl Hfair) as [k1 Hfirst1].
  { intros cell. rewrite elem_of_empty, elem_of_nil. reflexivity. }
  { cbn [length]. lia. }
  rewrite <- Hrng in Hfirst1.
  set (gl := attempt g0 rng k1).
  set (g1 := env.set_traps [] (env.set_goal (Some gl) g0)).
  assert (Hplaced1 : placed g0 g1 ({[ gl ]} ∪ ∅)).
  { unfold placed, g1. cbn. repeat (split; [reflexivity|]).
    exists gl. split; [reflexivity|]. split; [|split].
    - intros x. rewrite elem_of_union, elem_of_singleton, list_elem_of_singleton.
      rewrite elem_of_empty. tauto.
    - apply NoDup_singleton.
    - constructor; [apply attempt_in_grid; assumption|constructor]. }
  (* the traps *)
  destruct (sample_traps_returns rng (Z.to_nat (env.n_traps g1)) Hfair g1 ({[ gl ]} ∪ ∅)
              (S k1) Hplaced1) as (g2 & m & fuel2 & Htraps).
  { unfold g1. cbn. lia. }
  assert (Hplaced2 : exists occupied2, placed g0 g2 occupied2
                     /\ length (env.traps g2) = Z.to_nat (env.n_traps g0)).
  { destruct (sample_traps_safe fuel2 _ _ _ _ _ _ _ Hplaced1 (Htraps fuel2 ltac:(lia)))
      as (_ & [occupied2 Hp] & Hlen).
    exists occupied2. split; [exact Hp|]. rewrite Hlen. reflexivity. }
  destruct Hplaced2 as (occupied2 & (Hr2 & Hc2 & Hn2 & Hs2 & gl2 & Hgoal2 & _ & _ & _) & Hlen2).
  (* the start *)
  assert (Hr2' : 0 < env.rows g2) by lia. assert (Hc2' : 0 < env.cols g2) by lia.
  destruct (fair_first_free g2 ({[ gl2 ]} ∪ list_to_set (env.traps g2))
              (gl2 :: env.traps g2) rng m Hr2 Hc2 Hfair) as [k3 Hfirst3].
  { intros cell. rewrite elem_of_union, elem_of_singleton, elem_of_list_to_set, elem_of_cons.
    reflexivity. }
  { cbn [length]. lia. }
  eexists _, _, _, (Nat.max (S k1) (Nat.max fuel2 (S k3))). intros fuel Hfuel.
  unfold env.reset, env._sample_layout.
  rewrite (random_cell_excluding_first g0 Hrows Hcols ∅ k1 fuel rng Hfirst1) by lia.
  fold gl. fold g1.
  replace (advance (2 * S k1) rng) with (advance (2 * S k1) (advance (2 * 0) rng))
    by (rewrite <- Hrng; reflexivity).
  rewrite advance_advance. replace (2 * S k1 + 2 * 0)%nat with (2 * S k1)%nat by lia.
  rewrite (Htraps fuel) by lia.
  unfold env._random_unoccupied_cell. rewrite Hgoal2.
  rewrite (random_cell_excluding_first g2 Hr2' Hc2' _ k3 fuel _ Hfirst3) by lia.
  reflexivity.
Qed.

End layout.

Lemma sweep_is_fair (g : env.GridWorld) :
  0 < env.rows g -> 0 < env.cols g -> fair g (Demo.sweep (env.cols g)).
Proof.
  intros Hrows Hcols n [r c] [Hr Hc]. cbn [fst snd] in Hr, Hc.
  set (t := r * env.cols g + c + Z.of_nat n * (env.rows g * env.cols g)).
  assert (Ht : Z.of_nat n <= t).
  { assert (H1 : 1 <= env.rows g * env.cols g) by nia.
    assert (H2 : Z.of_nat n * 1 <= Z.of_nat n * (env.rows g * env.cols g))
      by (apply Z.mul_le_mono_nonneg_l; lia).
    assert (H3 : 0 <= r * env.cols g) by nia.
    unfold t. lia. }
  exists (Z.to_nat (t - Z.of_nat n)).
  unfold attempt, advance, Demo.sweep. cbn [draws position].
  replace (2 * Z.to_nat (t - Z.of_nat n) + (2 * n + 0))%nat with (2 * Z.to_nat t)%nat by lia.
  rewrite Nat.even_succ, Nat.odd_mul, Nat.even_mul, Nat.div2_double, Nat.div2_succ_double.
  cbn [Nat.even Nat.odd negb orb andb].
  rewrite !Z2Nat.id by (try apply Z.div_pos; lia).
  assert (Hdiv : t / env.cols g = r + Z.of_nat n * env.rows g).
  { symmetry. apply (Z.div_unique t (env.cols g) _ c); [lia|unfold t; ring]. }
  rewrite Hdiv. f_equal.
  - rewrite Z.mod_add by lia. apply Z.mod_small. lia.
  - symmetry. apply (Z.mod_unique t (env.cols g) (r + Z.of_nat n * env.rows g) c);
      [lia|unfold t; ring].
Qed.

(** X. [reset] on a grid with rows and columns. Whenever it returns, it
    returns the start cell and leaves a layout: the start, the goal and
    the n_traps traps are all different cells of the grid; it does not
    raise. And it does return when there is room, n_traps + 2 cells at
    least, and the generator is fair (from any turn on it comes to draw
    every cell): from some number of turns on, every bound on the loops
    gives the same result. *)
Theorem reset_samples_a_layout (g : env.GridWorld) :
  0 < env.rows g -> 0 < env.cols g ->
  (forall fuel rng result g' rng',
      env.reset fuel g rng = Some (result, g', rng') ->
      exists start, result = Ret start /\ layout_ok g g' start)
  /\ (Z.max 0 (env.n_traps g) + 2 <= env.rows g * env.cols g ->
      forall rng, fair g rng ->
        exists (start : Z * Z) (g' : env.GridWorld) (rng' : Random) (fuel0 : nat),
          layout_ok g g' start
          /\ forall fuel, (fuel0 <= fuel)%nat ->
               env.reset fuel g rng = Some (Ret start, g', rng')).
Proof.
  intros Hrows Hcols. split.
  - intros fuel rng result g' rng'. apply reset_safe; assumption.
  - intros Hroom rng Hfair.
    destruct (reset_returns g Hrows Hcols rng Hfair) as (start & g' & rng' & fuel0 & Hrun).
    { apply Nat2Z.inj_le. rewrite Nat2Z.inj_add, grid_cells_length by lia. lia. }
    exists start, g', rng', fuel0. split; [|exact Hrun].
    destruct (reset_safe g Hrows Hcols fuel0 rng _ _ _ (Hrun fuel0 ltac:(lia)))
      as (start' & [= <-] & Hlayout).
    exact Hlayout.
Qed.

Lemma reset_samples_a_layout_witness :
  exists (start : Z * Z) (g' : env.GridWorld) (rng' : Random) (fuel0 : nat),
    layout_ok (env.__init__ 2 2) g' start
    /\ forall fuel, (fuel0 <= fuel)%nat ->
         env.reset fuel (env.__init__ 2 2) (Demo.sweep 2) = Some (Ret start, g', rng').
Proof.
  apply (proj2 (reset_samples_a_layout (env.__init__ 2 2) ltac:(cbn; lia) ltac:(cbn; lia))).
  - cbn. lia.
  - apply (sweep_is_fair (env.__init__ 2 2)); cbn; lia.
Defined.

(** X. [reset] on a grid with no room: with rows and columns but fewer
    than n_traps + 2 cells, [reset] does not return, whatever the
    generator draws and however many turns its loops are given: the loop
    of [_random_cell_excluding] is left with every cell excluded. A grid
    of one cell is such a grid, even with no trap. *)
Theorem reset_never_returns_without_room (g : env.GridWorld) :
  0 < env.rows g -> 0 < env.cols g ->
  env.rows g * env.cols g < Z.max 0 (env.n_traps g) + 2 ->
  forall (fuel : nat) (rng : Random), env.reset fuel g rng = None.
Proof.
  intros Hrows Hcols Hfull fuel rng.
  destruct (env.reset fuel g rng) as [[[result g'] rng']|] eqn:Hrun; [exfalso|reflexivity].
  destruct (reset_safe g Hrows Hcols fuel rng result g' rng' Hrun)
    as (start & _ & _ & _ & _ & _ & gl & _ & Hlen & Hnodup & Hgrid).
  assert (Hsub : start :: gl :: env.traps g' ⊆+ grid_cells g).
  { apply NoDup_submseteq; [exact Hnodup|].
    intros x Hx. apply grid_cells_spec. rewrite Forall_forall in Hgrid. apply Hgrid. exact Hx. }
  apply submseteq_length in Hsub. cbn [length] in Hsub. rewrite Hlen in Hsub.
  apply Nat2Z.inj_le in Hsub. rewrite grid_cells_length in Hsub by lia. lia.
Qed.

Lemma reset_never_returns_without_room_witness :
  @param_validation.validate_parameter Demo.builtins "grid_size" (VInt 1) (Demo.config_noted "")
  = Ret (true, "")
  /\ @param_validation.validate_parameter Demo.builtins "n_traps" (VInt 0)
       {[ "environment" := {[ "grid_size" := VInt 1 ]} ]}
     = Ret (true, "")
  /\ env.reset 1000 (env.__init__ 1 0) (Demo.sweep 1) = None.
Proof.
  split; [reflexivity|]. split; [reflexivity|].
  apply (reset_never_returns_without_room (env.__init__ 1 0)); cbn; lia.
Defined.
